(** * Buy-Lead-App: the CSV bulk-import pipeline

  A shallow embedding of the backend import path of the buyer-leads CRM:

  - [CSVParser]        (backend/src/utils/csvParser.ts)
  - [CSVDataCleaner],
    [CSVRowValidator]  (backend/src/validators/csvValidator.ts)
  - [csvRowSchema],
    [validateCSVRow]   (backend/src/validators/buyer.ts, a zod schema)
  - [CSVImportService] (backend/src/services/csvImportService.ts)

  Conventions of the embedding.

  - A JavaScript string is a [string]: a sequence of code units below 256
    (ASCII and the Latin-1 supplement).  Files with code units outside that
    range are outside the model; the only place where the source names such
    a character is the rupee sign in the budget regular expression, and the
    only place where a text within the range denotes one is a [\u] escape
    read by [JSON.parse] (see [JSON.readUnicode]).
  - A JavaScript number is an IEEE-754 binary64 value, [spec_float] at
    precision 53 and maximal exponent 1024, with the Standard Library's
    correctly rounded operations.
  - The values that reach a row are [undefined], [null], strings, numbers,
    arrays of strings and the two objects that a lookup in an alias table
    can find on [Object.prototype].
  - An object used as a record ([row: any]) is a [gmap string value].
    Mutation of a row is explicit state passing: a function that assigns to
    its argument returns the new row.
  - A JavaScript exception is the [Throw] branch of [exc]; [try]/[catch] is
    [try_catch].
  - The storage collaborator [prisma.buyer.createMany] is an argument of
    the orchestrator: a function from the staged rows to a [DbOutcome]. *)

From Stdlib Require Import ZArith Ascii String Lia.
From Stdlib Require Import Floats.SpecFloat.
From stdpp Require Import gmap strings list.

Local Open Scope Z_scope.

(** stdpp blocks the unfolding of string concatenation; the proofs below
  compute with it. *)
Local Arguments String.append !_ _ : simpl nomatch.

(* ===================================================================== *)
(** * Part I.  Definitions                                                *)
(* ===================================================================== *)

(** ** JavaScript strings *)

Module JsString.

Definition dquote : ascii := ascii_of_nat 34.
Definition newline : ascii := ascii_of_nat 10.

Definition code (c : ascii) : nat := nat_of_ascii c.

(** White space and line terminators below U+0100: what [String.prototype.trim]
    strips and what [\s] matches. *)
Definition isSpace (c : ascii) : bool :=
  let n := code c in
  ((9 <=? n) && (n <=? 13) || (n =? 32) || (n =? 160))%nat.

(** [\d]; [\D] is its complement. *)
Definition isDigit (c : ascii) : bool :=
  let n := code c in ((48 <=? n) && (n <=? 57))%nat.

Definition isUpper (c : ascii) : bool :=
  let n := code c in
  ((65 <=? n) && (n <=? 90) || (192 <=? n) && (n <=? 222) && negb (n =? 215))%nat.

Definition isLetter (c : ascii) : bool :=
  let n := code c in
  ((65 <=? n) && (n <=? 90) || (97 <=? n) && (n <=? 122))%nat.

Definition lowerChar (c : ascii) : ascii :=
  if isUpper c then ascii_of_nat (code c + 32) else c.

Fixpoint toLowerCase (s : string) : string :=
  match s with
  | EmptyString => EmptyString
  | String c r => String (lowerChar c) (toLowerCase r)
  end.

Fixpoint filter (p : ascii -> bool) (s : string) : string :=
  match s with
  | EmptyString => EmptyString
  | String c r => if p c then String c (filter p r) else filter p r
  end.

Fixpoint all (p : ascii -> bool) (s : string) : bool :=
  match s with
  | EmptyString => true
  | String c r => p c && all p r
  end.

Fixpoint count (p : ascii -> bool) (s : string) : nat :=
  match s with
  | EmptyString => O
  | String c r => ((if p c then 1 else 0) + count p r)%nat
  end.

Definition isEmpty (s : string) : bool :=
  match s with EmptyString => true | _ => false end.

Fixpoint trimStart (s : string) : string :=
  match s with
  | EmptyString => EmptyString
  | String c r => if isSpace c then trimStart r else s
  end.

Fixpoint trimEnd (s : string) : string :=
  match s with
  | EmptyString => EmptyString
  | String c r =>
      let r' := trimEnd r in
      if isSpace c && isEmpty r' then EmptyString else String c r'
  end.

Definition trim (s : string) : string := trimEnd (trimStart s).

Fixpoint startsWith (s p : string) : bool :=
  match p, s with
  | EmptyString, _ => true
  | String a p', String b s' => Ascii.eqb a b && startsWith s' p'
  | String _ _, EmptyString => false
  end.

(** [s.includes(p)] *)
Fixpoint includes (s p : string) : bool :=
  startsWith s p ||
  match s with
  | EmptyString => false
  | String _ r => includes r p
  end.

Definition endsWith (s p : string) : bool :=
  startsWith (String.rev s) (String.rev p).

(** [s.substring(n)] *)
Fixpoint substring (n : nat) (s : string) : string :=
  match n, s with
  | O, _ => s
  | S n', String _ r => substring n' r
  | S _, EmptyString => EmptyString
  end.

(** [s.split(sep)] for a one-character separator: never empty. *)
Fixpoint split (sep : ascii) (s : string) : list string :=
  match s with
  | EmptyString => [EmptyString]
  | String c r =>
      if Ascii.eqb c sep then EmptyString :: split sep r
      else match split sep r with
           | x :: xs => String c x :: xs
           | [] => [String c EmptyString]
           end
  end.

(** [xs.join(sep)] *)
Fixpoint join (sep : string) (xs : list string) : string :=
  match xs with
  | [] => EmptyString
  | [x] => x
  | x :: rest => x +:+ sep +:+ join sep rest
  end.

(** [s.replace(/pat/gi, '')] for a literal two-letter pattern given in
    lower case. *)
Fixpoint removeAll2 (a b : ascii) (s : string) : string :=
  match s with
  | String c ((String d r) as t) =>
      if Ascii.eqb (lowerChar c) a && Ascii.eqb (lowerChar d) b
      then removeAll2 a b r
      else String c (removeAll2 a b t)
  | _ => s
  end.

(** [s < t] on strings: lexicographic on code units. *)
Fixpoint ltb (s t : string) : bool :=
  match s, t with
  | _, EmptyString => false
  | EmptyString, String _ _ => true
  | String a s', String b t' =>
      (code a <? code b)%nat || (code a =? code b)%nat && ltb s' t'
  end.

Definition digitChar (d : Z) : ascii := ascii_of_nat (48 + Z.to_nat d).

Fixpoint digitsOfPos (fuel : nat) (n : Z) (acc : string) : string :=
  match fuel with
  | O => acc
  | S f =>
      let acc' := String (digitChar (n mod 10)) acc in
      if n <? 10 then acc' else digitsOfPos f (n / 10) acc'
  end.

(** Decimal digits of an integer, the way a template literal prints a
    length or a count. *)
Definition ofZ (n : Z) : string :=
  if n <? 0 then String "-"%char (digitsOfPos (Z.to_nat (Z.log2 (- n)) + 1) (- n) EmptyString)
  else digitsOfPos (Z.to_nat (Z.log2 n) + 1) n EmptyString.

Definition ofNat (n : nat) : string := ofZ (Z.of_nat n).

Definition length (s : string) : nat := String.length s.

End JsString.

(** ** JavaScript numbers *)

Module JsNumber.
Import JsString.

Definition prec : Z := 53.
Definition emax : Z := 1024.

Definition number : Type := spec_float.

Definition NaN : number := S754_nan.
Definition zero : number := S754_zero false.
Definition infinity (neg : bool) : number := S754_infinity neg.

Definition isNaN (x : number) : bool :=
  match x with S754_nan => true | _ => false end.

Definition isZero (x : number) : bool :=
  match x with S754_zero _ => true | _ => false end.

(** [ToBoolean] of a number: false on [+0], [-0] and [NaN]. *)
Definition truthy (x : number) : bool := negb (isZero x || isNaN x).

Definition mul : number -> number -> number := SFmul prec emax.
Definition ltb : number -> number -> bool := SFltb.
Definition eqb : number -> number -> bool := SFeqb.

(** The number nearest to [m * 10^e], ties to even. *)
Definition ofDecimal (neg : bool) (m e : Z) : number :=
  if m <=? 0 then S754_zero neg
  else if 0 <=? e then
    binary_normalize prec emax (if neg then - (m * 10 ^ e) else m * 10 ^ e) 0 neg
  else
    let '(q, e', l) := SFdiv_core_binary prec emax m 0 (10 ^ (- e)) 0 in
    binary_round_aux prec emax neg q e' l.

Definition ofZ (n : Z) : number := ofDecimal (n <? 0) (Z.abs n) 0.

(** [Number.isInteger] *)
Definition isInteger (x : number) : bool :=
  match x with
  | S754_zero _ => true
  | S754_finite _ m e => (0 <=? e) || (Z.pos m mod 2 ^ (- e) =? 0)
  | _ => false
  end.

(** *** Reading a decimal literal *)

Definition digitVal (c : ascii) : Z := Z.of_nat (code c) - 48.

(** Leading decimal digits of [s] folded into [acc]; also their count and
    the rest of the string. *)
Fixpoint readDigits (s : string) (acc : Z) (n : Z) : Z * Z * string :=
  match s with
  | String c r =>
      if isDigit c then readDigits r (acc * 10 + digitVal c) (n + 1)
      else (acc, n, s)
  | EmptyString => (acc, n, s)
  end.

Definition isE (c : ascii) : bool := Ascii.eqb c "e" || Ascii.eqb c "E".

(** An [ExponentPart] at the head of [s], if there is one with digits. *)
Definition readExponent (s : string) : Z * string :=
  match s with
  | String c r =>
      if isE c then
        let '(neg, r') :=
          match r with
          | String "-" t => (true, t)
          | String "+" t => (false, t)
          | _ => (false, r)
          end in
        let '(v, n, rest) := readDigits r' 0 0 in
        if n =? 0 then (0, s) else ((if neg then - v else v), rest)
      else (0, s)
  | EmptyString => (0, s)
  end.

(** The longest prefix of [s] that is a [StrDecimalLiteral], as a number,
    and what follows it. *)
Definition readDecimal (s : string) : option (number * string) :=
  let '(neg, body) :=
    match s with
    | String "-" t => (true, t)
    | String "+" t => (false, t)
    | _ => (false, s)
    end in
  if startsWith body "Infinity" then Some (infinity neg, substring 8 body)
  else
    let '(ip, ni, afterInt) := readDigits body 0 0 in
    let '(m, nf, afterFrac, sawDigits) :=
      match afterInt with
      | String "." t =>
          let '(m, nf, rest) := readDigits t ip 0 in
          if (ni =? 0) && (nf =? 0) then (ip, 0, afterInt, false)
          else (m, nf, rest, true)
      | _ => (ip, 0, afterInt, negb (ni =? 0))
      end in
    if sawDigits then
      let '(ex, rest) := readExponent afterFrac in
      Some (ofDecimal neg m (ex - nf), rest)
    else None.

(** [parseFloat(s)] *)
Definition parseFloat (s : string) : number :=
  match readDecimal (trimStart s) with
  | Some (x, _) => x
  | None => NaN
  end.

Definition digitValIn (base : Z) (c : ascii) : option Z :=
  let n := Z.of_nat (code (lowerChar c)) in
  let v := if isDigit c then n - 48
           else if (97 <=? n) && (n <=? 102) then n - 87 else 99 in
  if v <? base then Some v else None.

Fixpoint readRadix (base : Z) (s : string) (acc : Z) : option Z :=
  match s with
  | EmptyString => Some acc
  | String c r =>
      match digitValIn base c with
      | Some v => readRadix base r (acc * base + v)
      | None => None
      end
  end.

Definition readNonDecimal (s : string) : option number :=
  match s with
  | String "0" (String p ((String _ _) as ds)) =>
      let base := if Ascii.eqb (lowerChar p) "x" then 16
                  else if Ascii.eqb (lowerChar p) "o" then 8
                  else if Ascii.eqb (lowerChar p) "b" then 2 else 0 in
      if base =? 0 then None else option_map ofZ (readRadix base ds 0)
  | _ => None
  end.

(** [Number(s)] on a string: the whole trimmed text must be a numeric
    literal; the empty text is [0]. *)
Definition ofString (s : string) : number :=
  let t := trim s in
  if isEmpty t then zero
  else match readNonDecimal t with
       | Some x => x
       | None =>
           match readDecimal t with
           | Some (x, EmptyString) => x
           | _ => NaN
           end
       end.

(** *** Printing: [Number::toString] in radix 10 *)

(** A positive finite value as a fraction. *)
Definition fraction (m : positive) (e : Z) : Z * Z :=
  if 0 <=? e then (Z.pos m * 2 ^ e, 1) else (Z.pos m, 2 ^ (- e)).

(** [num/den < 10^n] *)
Definition belowPow10 (num den n : Z) : bool :=
  if 0 <=? n then num <? den * 10 ^ n else num * 10 ^ (- n) <? den.

Fixpoint findMagnitude (fuel : nat) (num den n : Z) : Z :=
  match fuel with
  | O => n
  | S f => if belowPow10 num den n then n else findMagnitude f num den (n + 1)
  end.

(** The [n] with [10^(n-1) <= num/den < 10^n]. *)
Definition magnitude (m : positive) (e : Z) : Z :=
  let '(num, den) := fraction m e in
  let bits := Z.log2 (Z.pos m) + 1 + e in
  findMagnitude 4 num den (((bits - 1) * 30103) / 100000 - 1).

Fixpoint stripZeros (fuel : nat) (s : Z) : Z :=
  match fuel with
  | O => s
  | S f => if (s mod 10 =? 0) && (0 <? s) then stripZeros f (s / 10) else s
  end.

(** Shortest digit string [s] and exponent [n] with [s * 10^(n-k)]
    rounding to the value, [k] the number of digits of [s]; the closest
    such [s], the even one on a tie. *)
Fixpoint shortest (fuel : nat) (k : Z) (x : number) (num den mag : Z) : Z * Z :=
  let p := mag - k in
  let '(a, b) := if 0 <=? p then (num, den * 10 ^ p) else (num * 10 ^ (- p), den) in
  let lo := a / b in
  let r := a mod b in
  let hi := lo + 1 in
  let okLo := (0 <? lo) && eqb (ofDecimal false lo p) x in
  let okHi := eqb (ofDecimal false hi p) x in
  let preferLo := (2 * r <? b) || ((2 * r =? b) && Z.even lo) in
  let pick (c : Z) := (stripZeros 400 c, if c =? 10 ^ k then mag + 1 else mag) in
  if okLo && (preferLo || negb okHi) then pick lo
  else if okHi then pick hi
  else match fuel with
       | O => pick lo
       | S f => shortest f (k + 1) x num den mag
       end.

Definition zeros (n : Z) : string :=
  String.string_of_list_ascii (List.repeat "0"%char (Z.to_nat n)).

Fixpoint takeStr (n : nat) (s : string) : string :=
  match n, s with
  | S n', String c r => String c (takeStr n' r)
  | _, _ => EmptyString
  end.

Definition formatDigits (s n : Z) : string :=
  let ds := JsString.ofZ s in
  let k := Z.of_nat (String.length ds) in
  if (k <=? n) && (n <=? 21) then ds +:+ zeros (n - k)
  else if (0 <? n) && (n <=? 21) then
    takeStr (Z.to_nat n) ds +:+ "." +:+ substring (Z.to_nat n) ds
  else if (-6 <? n) && (n <=? 0) then "0." +:+ zeros (- n) +:+ ds
  else
    let ex := (if 0 <=? n - 1 then "+" else "-") +:+ JsString.ofZ (Z.abs (n - 1)) in
    if k =? 1 then ds +:+ "e" +:+ ex
    else takeStr 1 ds +:+ "." +:+ substring 1 ds +:+ "e" +:+ ex.

(** [String(x)], [`${x}`] *)
Definition toString (x : number) : string :=
  match x with
  | S754_nan => "NaN"
  | S754_zero _ => "0"
  | S754_infinity neg => if neg then "-Infinity" else "Infinity"
  | S754_finite neg m e =>
      let '(num, den) := fraction m e in
      let '(s, n) := shortest 17 1 (S754_finite false m e) num den (magnitude m e) in
      (if neg then "-" else "") +:+ formatDigits s n
  end.

End JsNumber.

(** ** Exceptions *)

(** What a [catch (error)] clause can tell apart: an [Error] instance with
  its [message] (a [TypeError] here), or some other thrown value. *)
Inductive exn : Type :=
| TypeError (message : string)
| ThrownValue.

Inductive exc (A : Type) : Type :=
| Ok (a : A)
| Throw (e : exn).
Arguments Ok {A} a.
Arguments Throw {A} e.

Global Instance exc_ret : MRet exc := fun A a => Ok a.
Global Instance exc_bind : MBind exc := fun A B f m =>
match m with
| Ok a => f a
| Throw e => Throw e
end.

(** [try { body } catch (error) { handler }] *)
Definition try_catch {A} (body : exc A) (handler : exn -> exc A) : exc A :=
match body with
| Ok a => Ok a
| Throw e => handler e
end.

(** [error instanceof Error ? error.message : fallback] *)
Definition messageOr (fallback : string) (e : exn) : string :=
match e with
| TypeError m => m
| ThrownValue => fallback
end.

(** ** JSON *)

Module JSON.
Import JsString JsNumber.

#[warnings="-register-all"]
Inductive json : Type :=
  | JNull
  | JBool (b : bool)
  | JNum (x : number)
  | JStr (s : string)
  | JArr (items : list json)
  | JObj.

(** JSON white space: space, tab, line feed, carriage return. *)
Definition isWs (c : ascii) : bool :=
  let n := code c in ((n =? 32) || (n =? 9) || (n =? 10) || (n =? 13))%nat.

Fixpoint skipWs (s : string) : string :=
  match s with
  | String c r => if isWs c then skipWs r else s
  | EmptyString => s
  end.

Definition hexVal (c : ascii) : option Z := digitValIn 16 c.

(** The code units above 255 that [String.prototype.trim] strips. *)
Definition isWideSpace (n : Z) : bool :=
  (n =? 5760) || ((8192 <=? n) && (n <=? 8202)) || (n =? 8232) || (n =? 8233)
  || (n =? 8239) || (n =? 8287) || (n =? 12288) || (n =? 65279).

(** The four hex digits of a [\u] escape, each of them in either case.
    An escape can name a code unit above 255, which the strings of this
    development do not have.  Such a code unit is read as a stand-in that
    [trim] and the test for the empty string treat as they treat the code
    unit itself: the no-break space for a white space, U+001A for any other.
    The parse then succeeds as in the source and yields a value of the same
    shape; the identity of the wide code unit is not kept. *)
Definition readUnicode (s : string) : option (ascii * string) :=
  match s with
  | String a (String b (String c (String d r))) =>
      match hexVal a, hexVal b, hexVal c, hexVal d with
      | Some w, Some x, Some y, Some z =>
          let n := 4096 * w + 256 * x + 16 * y + z in
          Some (if n <? 256 then ascii_of_nat (Z.to_nat n)
                else if isWideSpace n then ascii_of_nat 160
                else ascii_of_nat 26,
                r)
      | _, _, _, _ => None
      end
  | _ => None
  end.

(** The body of a string literal after its opening quote. *)
Fixpoint readString (fuel : nat) (s : string) : option (string * string) :=
  match fuel with
  | O => None
  | S f =>
      match s with
      | EmptyString => None
      | String c r =>
          if Ascii.eqb c dquote then Some (EmptyString, r)
          else if Ascii.eqb c "\" then
            match r with
            | String e r' =>
                let plain (x : ascii) :=
                  match readString f r' with
                  | Some (t, rest) => Some (String x t, rest)
                  | None => None
                  end in
                if Ascii.eqb e dquote then plain dquote
                else if Ascii.eqb e "\" then plain "\"%char
                else if Ascii.eqb e "/" then plain "/"%char
                else if Ascii.eqb e "b" then plain (ascii_of_nat 8)
                else if Ascii.eqb e "f" then plain (ascii_of_nat 12)
                else if Ascii.eqb e "n" then plain (ascii_of_nat 10)
                else if Ascii.eqb e "r" then plain (ascii_of_nat 13)
                else if Ascii.eqb e "t" then plain (ascii_of_nat 9)
                else if Ascii.eqb e "u" then
                  match readUnicode r' with
                  | Some (x, r'') =>
                      match readString f r'' with
                      | Some (t, rest) => Some (String x t, rest)
                      | None => None
                      end
                  | None => None
                  end
                else None
            | EmptyString => None
            end
          else if (code c <? 32)%nat then None
          else match readString f r with
               | Some (t, rest) => Some (String c t, rest)
               | None => None
               end
      end
  end.

(** A JSON number: [-? (0 | [1-9] digits) (. digits+)? ([eE] [+-]? digits+)?] *)
Definition readNumber (s : string) : option (number * string) :=
  let '(neg, body) :=
    match s with
    | String "-" t => (true, t)
    | _ => (false, s)
    end in
  let '(ip, ni, afterInt) :=
    match body with
    | String "0" t => (0, 1, t)
    | _ => readDigits body 0 0
    end in
  if ni =? 0 then None
  else
    match afterInt with
    | String "." t =>
        let '(m, nf, rest) := readDigits t ip 0 in
        if nf =? 0 then None
        else let '(ex, rest') := readExponent rest in
             Some (ofDecimal neg m (ex - nf), rest')
    | _ =>
        let '(ex, rest') := readExponent afterInt in
        Some (ofDecimal neg ip ex, rest')
    end.

Definition expect (lit : string) (v : json) (s : string) : option (json * string) :=
  if startsWith s lit then Some (v, substring (String.length lit) s) else None.

(** One JSON value at the head of [s] (after white space), and the rest.
    The contents of an object are checked and dropped: the program only
    prints objects. *)
Fixpoint readValue (fuel : nat) (s : string) : option (json * string) :=
  match fuel with
  | O => None
  | S f =>
      let s := skipWs s in
      match s with
      | EmptyString => None
      | String c r =>
          if Ascii.eqb c "[" then
            match skipWs r with
            | String "]" r' => Some (JArr [], r')
            | _ => readItems f r []
            end
          else if Ascii.eqb c "{" then
            match skipWs r with
            | String "}" r' => Some (JObj, r')
            | _ => readMembers f r
            end
          else if Ascii.eqb c dquote then
            match readString (S (String.length r)) r with
            | Some (t, rest) => Some (JStr t, rest)
            | None => None
            end
          else if Ascii.eqb c "t" then expect "true" (JBool true) s
          else if Ascii.eqb c "f" then expect "false" (JBool false) s
          else if Ascii.eqb c "n" then expect "null" JNull s
          else match readNumber s with
               | Some (x, rest) => Some (JNum x, rest)
               | None => None
               end
      end
  end
with readItems (fuel : nat) (s : string) (acc : list json) : option (json * string) :=
  match fuel with
  | O => None
  | S f =>
      match readValue f s with
      | Some (v, rest) =>
          match skipWs rest with
          | String "," rest' => readItems f rest' (v :: acc)
          | String "]" rest' => Some (JArr (List.rev (v :: acc)), rest')
          | _ => None
          end
      | None => None
      end
  end
with readMembers (fuel : nat) (s : string) : option (json * string) :=
  match fuel with
  | O => None
  | S f =>
      match skipWs s with
      | String c r =>
          if Ascii.eqb c dquote then
            match readString (S (String.length r)) r with
            | Some (_, afterKey) =>
                match skipWs afterKey with
                | String ":" afterColon =>
                    match readValue f afterColon with
                    | Some (_, rest) =>
                        match skipWs rest with
                        | String "," rest' => readMembers f rest'
                        | String "}" rest' => Some (JObj, rest')
                        | _ => None
                        end
                    | None => None
                    end
                | _ => None
                end
            | None => None
            end
          else None
      | EmptyString => None
      end
  end.

(** [JSON.parse(text)]; [None] stands for the [SyntaxError]. *)
Definition parse (text : string) : option json :=
  match readValue (2 * String.length text + 4) text with
  | Some (v, rest) => if isEmpty (skipWs rest) then Some v else None
  | None => None
  end.

(** [String(v)] of a parsed value; inside [Array.prototype.join] a [null]
    item prints as the empty string. *)
Fixpoint toString (v : json) : string :=
  match v with
  | JNull => "null"
  | JBool b => if b then "true" else "false"
  | JNum x => JsNumber.toString x
  | JStr s => s
  | JArr items =>
      join "," (List.map (fun i => match i with JNull => EmptyString | _ => toString i end) items)
  | JObj => "[object Object]"
  end.

Definition hexDigit (n : nat) : ascii :=
  if (n <? 10)%nat then ascii_of_nat (48 + n) else ascii_of_nat (87 + n).

Fixpoint quoteBody (s : string) : string :=
  match s with
  | EmptyString => EmptyString
  | String c r =>
      let n := code c in
      let esc (x : string) := "\" +:+ x +:+ quoteBody r in
      if Ascii.eqb c dquote then esc (String dquote EmptyString)
      else if Ascii.eqb c "\" then esc "\"
      else if (n =? 8)%nat then esc "b"
      else if (n =? 12)%nat then esc "f"
      else if (n =? 10)%nat then esc "n"
      else if (n =? 13)%nat then esc "r"
      else if (n =? 9)%nat then esc "t"
      else if (n <? 32)%nat then
        esc ("u00" +:+ String (hexDigit (n / 16)) (String (hexDigit (n mod 16)) EmptyString))
      else String c (quoteBody r)
  end.

(** [JSON.stringify(s)] of a string. *)
Definition quote (s : string) : string :=
  String dquote (quoteBody s +:+ String dquote EmptyString).

(** [JSON.stringify(xs)] of an array of strings. *)
Definition stringifyArray (xs : list string) : string :=
  "[" +:+ join "," (List.map quote xs) +:+ "]".

End JSON.

(** ** Values and rows *)

(** The two objects that [mapping[cleanValue]] finds on the prototype chain
  of an alias table when [cleanValue] is not one of its keys: only
  [constructor] and [__proto__] are spelled in lower case. *)
Inductive hostObject : Type :=
| ObjectConstructor
| ObjectPrototype.

Inductive value : Type :=
| VUndefined
| VNull
| VString (s : string)
| VNumber (x : JsNumber.number)
| VArray (items : list string)
| VObject (o : hostObject).

Global Instance spec_float_eq_dec : EqDecision spec_float.
Proof. solve_decision. Defined.
Global Instance hostObject_eq_dec : EqDecision hostObject.
Proof. solve_decision. Defined.
Global Instance value_eq_dec : EqDecision value.
Proof. solve_decision. Defined.
Global Instance exn_eq_dec : EqDecision exn.
Proof. solve_decision. Defined.

Module Value.
Import JsString.

(** [ToBoolean] *)
Definition truthy (v : value) : bool :=
  match v with
  | VUndefined | VNull => false
  | VString s => negb (isEmpty s)
  | VNumber x => JsNumber.truthy x
  | VArray _ | VObject _ => true
  end.

Definition isString (v : value) : bool :=
  match v with VString _ => true | _ => false end.

(** [ToString]: template literals, [String(v)], [RegExp.prototype.test]. *)
Definition toString (v : value) : string :=
  match v with
  | VUndefined => "undefined"
  | VNull => "null"
  | VString s => s
  | VNumber x => JsNumber.toString x
  | VArray items => join "," items
  | VObject ObjectConstructor => "function Object() { [native code] }"
  | VObject ObjectPrototype => "[object Object]"
  end.

(** [ToNumber] *)
Definition toNumber (v : value) : JsNumber.number :=
  match v with
  | VUndefined => JsNumber.NaN
  | VNull => JsNumber.zero
  | VNumber x => x
  | _ => JsNumber.ofString (toString v)
  end.

(** [a < b]: both operands strings after [ToPrimitive] compare as strings;
    otherwise as numbers. *)
Definition lessThan (a b : value) : bool :=
  let isStringy v :=
    match v with VString _ | VArray _ | VObject _ => true | _ => false end in
  if isStringy a && isStringy b then JsString.ltb (toString a) (toString b)
  else JsNumber.ltb (toNumber a) (toNumber b).

(** [a >= b] *)
Definition greaterEq (a b : value) : bool :=
  let isStringy v :=
    match v with VString _ | VArray _ | VObject _ => true | _ => false end in
  if isStringy a && isStringy b then negb (JsString.ltb (toString a) (toString b))
  else SFleb (toNumber b) (toNumber a).

(** [JSON.stringify(v)] *)
Definition stringify (v : value) : value :=
  match v with
  | VUndefined | VObject ObjectConstructor => VUndefined
  | VNull => VString "null"
  | VString s => VString (JSON.quote s)
  | VNumber x =>
      match x with
      | S754_nan | S754_infinity _ => VString "null"
      | _ => VString (JsNumber.toString x)
      end
  | VArray items => VString (JSON.stringifyArray items)
  | VObject ObjectPrototype => VString "{}"
  end.

(** The name V8 gives a value in [getParsedType], used by zod. *)
Definition parsedType (v : value) : string :=
  match v with
  | VUndefined => "undefined"
  | VNull => "null"
  | VString _ => "string"
  | VNumber x => if JsNumber.isNaN x then "nan" else "number"
  | VArray _ => "array"
  | VObject ObjectConstructor => "function"
  | VObject ObjectPrototype => "object"
  end.

(** A method of [String.prototype] called on [v]: a [TypeError] unless [v]
    is a string.  [what] is the callee as V8 prints it. *)
Definition stringMethod (what : string) (v : value) : exc string :=
  match v with
  | VString s => Ok s
  | _ => Throw (TypeError (what +:+ " is not a function"))
  end.

End Value.

(** A record object: own enumerable properties by name. *)
Abbreviation Row := (gmap string value).

(** [row[key]] / [row.key] for a name that is not on [Object.prototype]. *)
Definition get (row : Row) (key : string) : value :=
default VUndefined (row !! key).

(** ** Alias tables (csvValidator.ts, [EnumMappings]) *)

Inductive EnumField : Type :=
| city | propertyType | bhk | purpose | timeline | source | status.

Global Instance EnumField_eq_dec : EqDecision EnumField.
Proof. solve_decision. Defined.

Definition fieldName (f : EnumField) : string :=
match f with
| city => "city"
| propertyType => "propertyType"
| bhk => "bhk"
| purpose => "purpose"
| timeline => "timeline"
| source => "source"
| status => "status"
end.

(** The object literals, entry by entry as written. *)
Definition EnumMappings (f : EnumField) : list (string * string) :=
match f with
| city =>
    [ ("chandigarh", "Chandigarh"); ("mohali", "Mohali"); ("zirakpur", "Zirakpur");
      ("panchkula", "Panchkula"); ("other", "Other");
      ("chd", "Chandigarh"); ("chandi", "Chandigarh"); ("pkula", "Panchkula");
      ("panchula", "Panchkula") ]
| propertyType =>
    [ ("apartment", "Apartment"); ("villa", "Villa"); ("plot", "Plot");
      ("office", "Office"); ("retail", "Retail");
      ("apt", "Apartment"); ("flat", "Apartment"); ("house", "Villa");
      ("bungalow", "Villa"); ("shop", "Retail"); ("commercial", "Office") ]
| bhk =>
    [ ("studio", "Studio"); ("one", "One"); ("two", "Two"); ("three", "Three");
      ("four", "Four");
      ("0", "Studio"); ("1", "One"); ("2", "Two"); ("3", "Three"); ("4", "Four");
      ("1bhk", "One"); ("2bhk", "Two"); ("3bhk", "Three"); ("4bhk", "Four") ]
| purpose =>
    [ ("buy", "Buy"); ("rent", "Rent"); ("purchase", "Buy"); ("sale", "Buy");
      ("rental", "Rent"); ("lease", "Rent") ]
| timeline =>
    [ ("zerotothree", "ZeroToThree"); ("threetosix", "ThreeToSix");
      ("morethansix", "MoreThanSix"); ("exploring", "Exploring");
      ("0-3", "ZeroToThree"); ("3-6", "ThreeToSix"); ("6+", "MoreThanSix");
      ("immediate", "ZeroToThree"); ("asap", "ZeroToThree");
      ("flexible", "Exploring"); ("later", "MoreThanSix") ]
| source =>
    [ ("website", "Website"); ("referral", "Referral"); ("walkin", "WalkIn");
      ("call", "Call"); ("other", "Other");
      ("web", "Website"); ("online", "Website"); ("reference", "Referral");
      ("phone", "Call"); ("telephone", "Call"); ("walk-in", "WalkIn");
      ("visit", "WalkIn") ]
| status =>
    [ ("new", "New"); ("qualified", "Qualified"); ("contacted", "Contacted");
      ("visited", "Visited"); ("negotiation", "Negotiation");
      ("converted", "Converted"); ("dropped", "Dropped");
      ("fresh", "New"); ("lead", "New"); ("prospect", "Qualified");
      ("called", "Contacted"); ("reached", "Contacted"); ("site-visit", "Visited");
      ("viewing", "Visited"); ("deal", "Negotiation"); ("bargaining", "Negotiation");
      ("closed", "Converted"); ("won", "Converted"); ("lost", "Dropped");
      ("rejected", "Dropped") ]
end.

Module JsObject.
Import JsString.

(** A canonical array index: [0], or digits without a leading zero, below
    [2^32 - 1]. *)
Definition arrayIndex (k : string) : option Z :=
  match k with
  | EmptyString => None
  | String c r =>
      if all isDigit k && (isEmpty r || negb (Ascii.eqb c "0")) then
        let '(n, _, _) := JsNumber.readDigits k 0 0 in
        if n <? 4294967295 then Some n else None
      else None
  end.

Fixpoint insertSorted (x : Z * string) (xs : list (Z * string)) : list (Z * string) :=
  match xs with
  | [] => [x]
  | y :: ys => if fst x <? fst y then x :: xs else y :: insertSorted x ys
  end.

(** [Object.keys(o)] of an object literal: array-index keys in ascending
    order, then the other keys in the order written. *)
Definition keys (entries : list (string * string)) : list string :=
  let ks := List.map fst entries in
  let indexed :=
    List.fold_right
      (fun k acc => match arrayIndex k with Some n => insertSorted (n, k) acc | None => acc end)
      [] ks in
  List.map snd indexed ++
  List.filter (fun k => match arrayIndex k with Some _ => false | None => true end) ks.

Fixpoint own (entries : list (string * string)) (key : string) : option string :=
  match entries with
  | [] => None
  | (k, v) :: rest => if String.eqb k key then Some v else own rest key
  end.

(** [o[key]] on an object literal with string values, for a [key] that
    has been lower-cased: an own property, or what the prototype chain
    holds under that name.  The other members of [Object.prototype] have a
    capital letter in their name. *)
Definition getProp (entries : list (string * string)) (key : string) : value :=
  match own entries key with
  | Some v => VString v
  | None =>
      if String.eqb key "constructor" then VObject ObjectConstructor
      else if String.eqb key "__proto__" then VObject ObjectPrototype
      else VUndefined
  end.

End JsObject.

(** ** Field Normalizer (csvValidator.ts, [CSVDataCleaner]) *)

Module CSVDataCleaner.
Import JsString.

Definition cleanPhoneNumber (phone : value) : exc string :=
  if negb (Value.truthy phone) then Ok EmptyString
  else
    p ← Value.stringMethod "phone.replace" phone;
    (* Remove all non-digits *)
    let cleaned := filter isDigit p in
    (* Remove country code if present (91 for India) *)
    if startsWith cleaned "91" && (String.length cleaned =? 12)%nat
    then Ok (substring 2 cleaned)
    else Ok cleaned.

Definition cleanEmail (email : value) : exc string :=
  if negb (Value.truthy email) then Ok EmptyString
  else
    e ← Value.stringMethod "email.toLowerCase" email;
    Ok (trim (toLowerCase e)).

(** The class [[₹,$,\s]] restricted to code units below 256. *)
Definition isCurrencyNoise (c : ascii) : bool :=
  Ascii.eqb c "," || Ascii.eqb c "$" || isSpace c.

Definition isEll (c : ascii) : bool := Ascii.eqb (lowerChar c) "l".

Definition orUndefined (num : JsNumber.number) (scale : Z) : value :=
  if JsNumber.isNaN num then VUndefined
  else VNumber (if scale =? 1 then num else JsNumber.mul num (JsNumber.ofZ scale)).

Definition cleanBudget (budget : value) : exc value :=
  if negb (Value.truthy budget) then Ok VUndefined
  else
    b ← Value.stringMethod "budget.trim" budget;
    if isEmpty (trim b) then Ok VUndefined
    else
      (* Remove currency symbols and commas *)
      let cleaned := filter (fun c => negb (isCurrencyNoise c)) b in
      (* Handle 'L' for lakhs, 'Cr' for crores *)
      if includes (toLowerCase cleaned) "l" then
        Ok (orUndefined (JsNumber.parseFloat (filter (fun c => negb (isEll c)) cleaned)) 100000)
      else if includes (toLowerCase cleaned) "cr" then
        Ok (orUndefined (JsNumber.parseFloat (removeAll2 "c" "r" cleaned)) 10000000)
      else
        Ok (orUndefined (JsNumber.parseFloat cleaned) 1).

Definition nonEmpty (s : string) : bool := negb (isEmpty s).

Definition cleanTags (tags : value) : exc (list string) :=
  if negb (Value.truthy tags) then Ok []
  else
    t ← Value.stringMethod "tags.trim" tags;
    if isEmpty (trim t) || String.eqb (trim t) "[]" then Ok []
    else
      (* Try parsing as JSON first *)
      match JSON.parse t with
      | Some (JSON.JArr parsed) =>
          Ok (List.filter nonEmpty (List.map (fun tag => trim (JSON.toString tag)) parsed))
      | _ =>
          (* Split by comma and clean *)
          Ok (List.filter
                (fun tag => nonEmpty tag && negb (String.eqb tag "[]")
                            && negb (String.eqb tag "null")
                            && negb (String.eqb tag "undefined"))
                (List.map trim (split "," t)))
      end.

Definition mapEnumValue (field : EnumField) (v : value) : exc value :=
  if negb (Value.truthy v) then Ok VNull
  else
    s ← Value.stringMethod "value.trim" v;
    if isEmpty (trim s) then Ok VNull
    else
      let cleanValue := trim (toLowerCase s) in
      let mapping := EnumMappings field in
      (* Direct match *)
      if Value.truthy (JsObject.getProp mapping cleanValue)
      then Ok (JsObject.getProp mapping cleanValue)
      else
        (* Fuzzy match - find closest *)
        match List.find (fun key => includes cleanValue key || includes key cleanValue)
                        (JsObject.keys mapping) with
        | Some key => Ok (JsObject.getProp mapping key)
        | None => Ok VNull (* No match found *)
        end.

Definition enumFields : list EnumField :=
  [city; propertyType; bhk; purpose; timeline; source; status].

Definition trimCell (v : value) : value :=
  match v with
  | VString s => VString (trim s)
  | _ => v
  end.

(** [if (cleaned[field]) { mapped = mapEnumValue(...); if (mapped) cleaned[field] = mapped }] *)
Definition mapField (cleaned : Row) (field : EnumField) : exc Row :=
  if Value.truthy (get cleaned (fieldName field)) then
    mapped ← mapEnumValue field (get cleaned (fieldName field));
    if Value.truthy mapped then Ok (<[fieldName field := mapped]> cleaned)
    else Ok cleaned
  else Ok cleaned.

Fixpoint mapFields (cleaned : Row) (fields : list EnumField) : exc Row :=
  match fields with
  | [] => Ok cleaned
  | f :: rest => cleaned' ← mapField cleaned f; mapFields cleaned' rest
  end.

Definition isPlotLike (v : value) : bool :=
  bool_decide (v = VString "Plot") || bool_decide (v = VString "Office")
  || bool_decide (v = VString "Retail").

(** The body of the last [forEach]: what the cell under [key] becomes.
    [pt] is [cleaned.propertyType], which this pass never changes. *)
Definition emptyCell (pt : value) (key : string) (v : value) : value :=
  if bool_decide (v = VString EmptyString) then
    if bool_decide (key = "email") || bool_decide (key = "notes")
       || bool_decide (key = "status") then VNull
    else if bool_decide (key = "budgetMin") || bool_decide (key = "budgetMax")
    then VUndefined
    else if bool_decide (key = "bhk") then
      (* For Plot, Office, Retail - BHK should be null when empty *)
      if isPlotLike pt then VNull
      (* For Apartment, Villa - keep empty string for validation to catch *)
      else VString EmptyString
    else v
  else v.

Definition cleanRowData (row : Row) : exc Row :=
  let cleaned := row in
  (* Clean string fields *)
  let cleaned := trimCell <$> cleaned in
  (* Clean phone *)
  cleaned ←
    (if Value.truthy (get cleaned "phone") then
       p ← cleanPhoneNumber (get cleaned "phone");
       Ok (<["phone" := VString p]> cleaned)
     else Ok cleaned);
  (* Clean email *)
  cleaned ←
    (if Value.truthy (get cleaned "email") then
       e ← cleanEmail (get cleaned "email");
       Ok (<["email" := if isEmpty e then VNull else VString e]> cleaned)
     else Ok cleaned);
  (* Clean budgets *)
  cleaned ←
    (if Value.truthy (get cleaned "budgetMin") then
       b ← cleanBudget (get cleaned "budgetMin");
       Ok (<["budgetMin" := b]> cleaned)
     else Ok cleaned);
  cleaned ←
    (if Value.truthy (get cleaned "budgetMax") then
       b ← cleanBudget (get cleaned "budgetMax");
       Ok (<["budgetMax" := b]> cleaned)
     else Ok cleaned);
  (* Clean tags *)
  cleaned ←
    (if Value.truthy (get cleaned "tags") then
       t ← cleanTags (get cleaned "tags");
       Ok (<["tags" := VArray t]> cleaned)
     else Ok cleaned);
  (* Map enum values *)
  cleaned ← mapFields cleaned enumFields;
  (* Handle empty strings and nulls *)
  Ok (map_imap (fun key v => Some (emptyCell (get cleaned "propertyType") key v)) cleaned).

End CSVDataCleaner.

(** ** Row Validator (csvValidator.ts, [CSVRowValidator]) *)

Module CSVRowValidator.
Import JsString.

Record ValidationResult : Type := {
  isValid : bool;
  errors : list string;
  warnings : list string
}.

Definition requiredFields : list string :=
  ["fullName"; "phone"; "city"; "propertyType"; "purpose"; "timeline"; "source"].

(** [/^[^\s@]+@[^\s@]+\.[^\s@]+$/.test(s)] *)
Definition plainChar (c : ascii) : bool := negb (isSpace c) && negb (Ascii.eqb c "@").

(** A dot that is neither the first nor the last character of [s]. *)
Fixpoint dotInside (first : bool) (s : string) : bool :=
  match s with
  | String c ((String _ _) as r) =>
      (negb first && Ascii.eqb c ".") || dotInside false r
  | _ => false
  end.

Fixpoint emailParts (s : string) (local : nat) : bool :=
  match s with
  | EmptyString => false
  | String c r =>
      if Ascii.eqb c "@" then (0 <? local)%nat && all plainChar r && dotInside true r
      else plainChar c && emailParts r (S local)
  end.

Definition emailRegexTest (s : string) : bool := emailParts s 0.

Definition valid (f : EnumField) : list string :=
  match f with
  | city => ["Chandigarh"; "Mohali"; "Zirakpur"; "Panchkula"; "Other"]
  | propertyType => ["Apartment"; "Villa"; "Plot"; "Office"; "Retail"]
  | bhk => ["Studio"; "One"; "Two"; "Three"; "Four"]
  | purpose => ["Buy"; "Rent"]
  | timeline => ["ZeroToThree"; "ThreeToSix"; "MoreThanSix"; "Exploring"]
  | source => ["Website"; "Referral"; "WalkIn"; "Call"; "Other"]
  | status => ["New"; "Qualified"; "Contacted"; "Visited"; "Negotiation"; "Converted"; "Dropped"]
  end.

Definition enumValidations : list EnumField :=
  [city; propertyType; bhk; purpose; timeline; source; status].

(** [valid.includes(v)] *)
Definition validIncludes (f : EnumField) (v : value) : bool :=
  match v with
  | VString s => List.existsb (String.eqb s) (valid f)
  | _ => false
  end.

(** [v.length], when it is a number. *)
Definition lengthOf (v : value) : option nat :=
  match v with
  | VString s => Some (String.length s)
  | VArray items => Some (List.length items)
  | VObject ObjectConstructor => Some 1%nat
  | _ => None
  end.

Definition requiredError (row : Row) (field : string) : list string :=
  let v := get row field in
  if negb (Value.truthy v)
     || match v with VString s => isEmpty (trim s) | _ => false end
  then [field +:+ " is required"] else [].

Definition phoneErrors (row : Row) : exc (list string) :=
  if Value.truthy (get row "phone") then
    cleanPhone ← CSVDataCleaner.cleanPhoneNumber (get row "phone");
    if (String.length cleanPhone <? 10)%nat || (15 <? String.length cleanPhone)%nat
    then Ok ["phone must be 10-15 digits (provided: " +:+ cleanPhone +:+ ")"]
    else Ok []
  else Ok [].

Definition emailErrors (row : Row) : list string :=
  let email := get row "email" in
  if Value.truthy email && negb (bool_decide (email = VNull)) then
    if negb (emailRegexTest (Value.toString email))
    then ["email format is invalid (provided: " +:+ Value.toString email +:+ ")"]
    else []
  else [].

Definition mappedWarning (f : EnumField) (v suggestion : value) : string :=
  fieldName f +:+ " '" +:+ Value.toString v +:+ "' was mapped to '"
  +:+ Value.toString suggestion +:+ "'".

Definition enumError (f : EnumField) (v : value) : string :=
  fieldName f +:+ " must be one of: " +:+ join ", " (valid f)
  +:+ " (provided: " +:+ Value.toString v +:+ ")".

(** One turn of [enumValidations.forEach]: the errors and the warnings it
    pushes. *)
Definition enumCheck (row : Row) (f : EnumField) : exc (list string * list string) :=
  let v := get row (fieldName f) in
  if Value.truthy v && negb (validIncludes f v) then
    suggestion ← CSVDataCleaner.mapEnumValue f v;
    if Value.truthy suggestion then Ok ([], [mappedWarning f v suggestion])
    else Ok ([enumError f v], [])
  else Ok ([], []).

Fixpoint enumChecks (row : Row) (fs : list EnumField) : exc (list string * list string) :=
  match fs with
  | [] => Ok ([], [])
  | f :: rest =>
      '(e, w) ← enumCheck row f;
      '(es, ws) ← enumChecks row rest;
      Ok (e ++ es, w ++ ws)
  end.

Definition bhkRequiredError (pt : value) : string :=
  "bhk is required for " +:+ Value.toString pt +:+ " properties".

Definition bhkWarning (pt b : value) : string :=
  "bhk should be empty for " +:+ Value.toString pt +:+ " properties, but '"
  +:+ Value.toString b +:+ "' was provided".

(** The BHK business rule: the row it leaves, its errors, its warnings. *)
Definition bhkRule (row : Row) : Row * list string * list string :=
  let pt := get row "propertyType" in
  let b := get row "bhk" in
  if bool_decide (pt = VString "Apartment") || bool_decide (pt = VString "Villa") then
    if negb (Value.truthy b) || bool_decide (b = VNull)
    then (row, [bhkRequiredError pt], [])
    else (row, [], [])
  else if CSVDataCleaner.isPlotLike pt then
    if Value.truthy b && negb (bool_decide (b = VNull))
    then (<["bhk" := VNull]> row (* Auto-fix *), [], [bhkWarning pt b])
    else (row, [], [])
  else (row, [], []).

Definition budgetError (bmin bmax : value) : string :=
  "budgetMax (" +:+ Value.toString bmax
  +:+ ") must be greater than or equal to budgetMin (" +:+ Value.toString bmin +:+ ")".

Definition budgetErrors (row : Row) : list string :=
  let bmin := get row "budgetMin" in
  let bmax := get row "budgetMax" in
  if Value.truthy bmin && Value.truthy bmax then
    if Value.lessThan bmax bmin then [budgetError bmin bmax] else []
  else [].

Definition notesErrors (row : Row) : list string :=
  let notes := get row "notes" in
  match lengthOf notes with
  | Some n =>
      if Value.truthy notes && (1000 <? n)%nat
      then ["notes must be less than 1000 characters (provided: " +:+ ofNat n +:+ ")"]
      else []
  | None => []
  end.

Definition nameErrors (row : Row) : list string :=
  let fullName := get row "fullName" in
  match lengthOf fullName with
  | Some n =>
      if Value.truthy fullName && ((n <? 2)%nat || (80 <? n)%nat)
      then ["fullName must be between 2 and 80 characters (provided: " +:+ ofNat n +:+ ")"]
      else []
  | None => []
  end.

(** [validateRow(row)]: the row as the call leaves it, and the result. *)
Definition validateRow (row : Row) : exc (Row * ValidationResult) :=
  (* Required field validation *)
  let errs1 := List.concat (List.map (requiredError row) requiredFields) in
  (* Phone validation *)
  errs2 ← phoneErrors row;
  (* Email validation *)
  let errs3 := emailErrors row in
  (* Enum validation with suggestions *)
  '(errs4, warns4) ← enumChecks row enumValidations;
  (* BHK business logic *)
  let '(row', errs5, warns5) := bhkRule row in
  (* Budget validation *)
  let errs6 := budgetErrors row' in
  (* Notes length validation *)
  let errs7 := notesErrors row' in
  (* Name validation *)
  let errs8 := nameErrors row' in
  let errors := errs1 ++ errs2 ++ errs3 ++ errs4 ++ errs5 ++ errs6 ++ errs7 ++ errs8 in
  Ok (row', {| isValid := (List.length errors =? 0)%nat;
               errors := errors;
               warnings := warns4 ++ warns5 |}).

End CSVRowValidator.

(** ** CSV Parser (csvParser.ts, [CSVParser]) *)

Record ParseError : Type := {
pe_row : nat;
pe_message : string;
pe_rawData : option string
}.

Record CSVParseResult : Type := {
data : list Row;
parseErrors : list ParseError
}.

Module CSVParser.
Import JsString.

(** The [while (i < line.length)] loop of [parseCSVLine], from position
    [i] on: [line] is what remains to be read. *)
Fixpoint parseCSVLine_loop (line : string) (result : list string)
         (current : string) (inQuotes : bool) {struct line} : list string :=
  match line with
  | EmptyString => result ++ [trim current]
  | String char rest =>
      if Ascii.eqb char dquote then
        match rest with
        | String nextChar rest' =>
            if inQuotes && Ascii.eqb nextChar dquote
            then (* Escaped quote *)
              parseCSVLine_loop rest' result (current +:+ String dquote EmptyString) inQuotes
            else parseCSVLine_loop rest result current (negb inQuotes)
        | EmptyString => parseCSVLine_loop rest result current (negb inQuotes)
        end
      else if Ascii.eqb char "," && negb inQuotes then
        parseCSVLine_loop rest (result ++ [trim current]) EmptyString inQuotes
      else
        parseCSVLine_loop rest result (current +:+ String char EmptyString) inQuotes
  end.

Definition parseCSVLine (line : string) : list string :=
  parseCSVLine_loop line [] EmptyString false.

(** [content.trim().split('\n').filter(line => line.trim())] *)
Definition nonBlankLines (content : string) : list string :=
  List.filter (fun line => negb (isEmpty (trim line))) (split newline (trim content)).

Definition mismatchMessage (headerColumns : nat) : string :=
  "Column count mismatch detected. Header has " +:+ ofNat headerColumns
  +:+ " columns, but some rows have different counts. This often indicates missing values or trailing commas.".

(** [None] is [{ isValid: true }]; [Some error] is [{ isValid: false, error }]. *)
Definition validateCSVFormat (content : string) : option string :=
  if isEmpty content || (String.length (trim content) =? 0)%nat then
    Some "CSV file is empty"
  else
    let lines := nonBlankLines content in
    if (List.length lines <? 2)%nat then
      Some "CSV must have at least a header row and one data row"
    else
      (* Check if first line looks like headers *)
      let firstLine := trim (List.nth 0 lines EmptyString) in
      if negb (includes firstLine ",") then Some "CSV must be comma-separated"
      else
        (* Check for consistent column counts *)
        let headerColumns := List.length (parseCSVLine firstLine) in
        (* Check first 5 data rows *)
        let inconsistentRows :=
          List.filter
            (fun l => negb (List.length (parseCSVLine l) =? headerColumns)%nat)
            (List.firstn 5 (List.tl lines)) in
        if (0 <? List.length inconsistentRows)%nat
        then Some (mismatchMessage headerColumns)
        else None.

(** [headers.forEach((header, index) => row[header] = (values[index] || '').trim())]
    on a fresh object.  An assignment of a string to [__proto__] creates no
    property. *)
Fixpoint buildRow (headers values : list string) (row : Row) : Row :=
  match headers with
  | [] => row
  | header :: hs =>
      let v := match values with x :: _ => x | [] => EmptyString end in
      let row' := if String.eqb header "__proto__" then row
                  else <[header := VString (trim v)]> row in
      buildRow hs (List.tl values) row'
  end.

Definition fixMessage (values expectedColumns : nat) (what : string) : string :=
  "Row had " +:+ ofNat values +:+ " columns, expected " +:+ ofNat expectedColumns
  +:+ ". " +:+ what.

(** The values of a data line after the column-count fix, and the
    diagnostic the fix records.  The messages print [values.length] after
    the fix, as the source does. *)
Definition fixColumns (i : nat) (line : string) (values : list string)
           (expectedColumns : nat) : list string * list ParseError :=
  if negb (List.length values =? expectedColumns)%nat then
    if (List.length values =? expectedColumns - 1)%nat then
      (* Missing last column (likely status) - add default *)
      let values := values ++ ["New"] in
      (values,
       [{| pe_row := i + 1;
           pe_message := fixMessage (List.length values) expectedColumns
                           "Added default status 'New'.";
           pe_rawData := Some line |}])
    else if (expectedColumns <? List.length values)%nat then
      (* Too many columns - truncate *)
      let values := List.firstn expectedColumns values in
      (values,
       [{| pe_row := i + 1;
           pe_message := fixMessage (List.length values) expectedColumns
                           "Extra columns removed.";
           pe_rawData := Some line |}])
    else
      (* Significant mismatch - pad with empty strings *)
      let values :=
        values ++ List.repeat EmptyString (expectedColumns - List.length values) in
      (values,
       [{| pe_row := i + 1;
           pe_message := fixMessage (List.length values) expectedColumns
                           "Missing columns filled with empty values.";
           pe_rawData := Some line |}])
  else (values, []).

(** The body of the [for] loop over data lines, from index [i] on. *)
Fixpoint parseLines (headers : list string) (i : nat) (lines : list string)
         (result : CSVParseResult) : CSVParseResult :=
  match lines with
  | [] => result
  | l :: rest =>
      let line := trim l in
      if isEmpty line then parseLines headers (S i) rest result (* Skip empty lines *)
      else
        let '(values, diag) :=
          fixColumns i line (parseCSVLine line) (List.length headers) in
        (* Create row object *)
        let row := buildRow headers values ∅ in
        parseLines headers (S i) rest
          {| data := data result ++ [row];
             parseErrors := parseErrors result ++ diag |}
  end.

Definition parseCSV (content : string) : CSVParseResult :=
  let result := {| data := []; parseErrors := [] |} in
  (* Validate CSV format *)
  match validateCSVFormat content with
  | Some error =>
      {| data := [];
         parseErrors := [{| pe_row := 0; pe_message := error; pe_rawData := None |}] |}
  | None =>
      let lines := nonBlankLines content in
      let headers := List.map trim (parseCSVLine (List.nth 0 lines EmptyString)) in
      (* Process data rows *)
      parseLines headers 1 (List.tl lines) result
  end.

(** [None] when every required header is a key of the first row. *)
Definition validateRequiredHeaders (rows : list Row) (requiredHeaders : list string)
  : bool * list string :=
  match rows with
  | [] => (false, requiredHeaders)
  | first :: _ =>
      let missingHeaders :=
        List.filter (fun header => negb (bool_decide (is_Some (first !! header))))
                    requiredHeaders in
      ((List.length missingHeaders =? 0)%nat, missingHeaders)
  end.

End CSVParser.

(** ** The schema validator (buyer.ts, [csvRowSchema] and [validateCSVRow])

  The schema is written with the combinators of zod 3; their meaning
  here follows that library's synchronous parser and its default error
  map. *)

Module Zod.
Import JsString.

Inductive status : Type := valid | dirty | aborted.

(** What a schema returns for one input: the status, the output value
    and the messages of the issues it added. *)
Record parsed : Type := {
  p_status : status;
  p_value : value;
  p_issues : list string
}.

Definition schema : Type := value -> parsed.

Definition ok (v : value) : parsed :=
  {| p_status := valid; p_value := v; p_issues := [] |}.

Definition invalid (msg : string) : parsed :=
  {| p_status := aborted; p_value := VUndefined; p_issues := [msg] |}.

(** The message of an [invalid_type] issue. *)
Definition invalidType (expected : string) (v : value) : string :=
  match v with
  | VUndefined => "Required"
  | _ => "Expected " +:+ expected +:+ ", received " +:+ Value.parsedType v
  end.

Inductive stringCheck : Type :=
  | min (n : nat)
  | max (n : nat)
  | email.

(** The pattern of [z.string().email()] in zod 3.22, case-insensitive:
    no leading dot and no two dots in a row; a local part of letters,
    digits, underscore and the characters from plus to dot, ending in a
    letter, digit, underscore, plus or minus; an at sign; one or more
    labels, each a letter or digit followed by letters, digits and
    hyphens, each closed by a dot; two or more letters. *)
Definition isAlnum (c : ascii) : bool := isLetter c || isDigit c.
Definition localChar (c : ascii) : bool :=
  isAlnum c || Ascii.eqb c "_" || ((43 <=? code c) && (code c <=? 46))%nat.
Definition localLast (c : ascii) : bool :=
  isAlnum c || Ascii.eqb c "_" || Ascii.eqb c "+" || Ascii.eqb c "-".
Definition labelOk (l : string) : bool :=
  match l with
  | String c r => isAlnum c && all (fun x => isAlnum x || Ascii.eqb x "-") r
  | EmptyString => false
  end.
Definition tldOk (l : string) : bool := all isLetter l && (2 <=? String.length l)%nat.
Definition lastChar (s : string) : option ascii :=
  match String.rev s with String c _ => Some c | EmptyString => None end.

Definition emailRegexTest (s : string) : bool :=
  negb (startsWith s ".") && negb (includes s "..") &&
  match split "@" s with
  | [loc; dom] =>
      all localChar loc
      && match lastChar loc with Some c => localLast c | None => false end
      && match List.rev (split "." dom) with
         | tld :: ((_ :: _) as labels) => tldOk tld && List.forallb labelOk labels
         | _ => false
         end
  | _ => false
  end.

Definition runStringCheck (s : string) (c : stringCheck) : list string :=
  match c with
  | min n =>
      if (String.length s <? n)%nat
      then ["String must contain at least " +:+ ofNat n +:+ " character(s)"] else []
  | max n =>
      if (n <? String.length s)%nat
      then ["String must contain at most " +:+ ofNat n +:+ " character(s)"] else []
  | email => if emailRegexTest s then [] else ["Invalid email"]
  end.

Definition withIssues (v : value) (issues : list string) : parsed :=
  {| p_status := if (List.length issues =? 0)%nat then valid else dirty;
     p_value := v; p_issues := issues |}.

(** [z.string()] with its checks *)
Definition str (checks : list stringCheck) : schema := fun v =>
  match v with
  | VString s => withIssues v (List.concat (List.map (runStringCheck s) checks))
  | _ => invalid (invalidType "string" v)
  end.

Definition joinValues (values : list string) : string :=
  join " | " (List.map (fun x => "'" +:+ x +:+ "'") values).

(** [z.enum(values)] *)
Definition enum (values : list string) : schema := fun v =>
  match v with
  | VString s =>
      if List.existsb (String.eqb s) values then ok v
      else invalid ("Invalid enum value. Expected " +:+ joinValues values
                    +:+ ", received '" +:+ s +:+ "'")
  | _ => invalid (invalidType (joinValues values) v)
  end.

(** [z.literal('')] *)
Definition literalEmpty : schema := fun v =>
  if bool_decide (v = VString EmptyString) then ok v
  else invalid ("Invalid literal value, expected " +:+ JSON.quote EmptyString).

(** [z.null()] *)
Definition null : schema := fun v =>
  match v with
  | VNull => ok v
  | _ => invalid (invalidType "null" v)
  end.

(** [z.array(z.string())]: the items of an array value are strings. *)
Definition arrayOfString : schema := fun v =>
  match v with
  | VArray _ => ok v
  | _ => invalid (invalidType "array" v)
  end.

(** [z.coerce.number().int().min(0)] *)
Definition coerceNumberIntMin0 : schema := fun v =>
  let x := Value.toNumber v in
  if JsNumber.isNaN x then invalid (invalidType "number" (VNumber x))
  else
    withIssues (VNumber x)
      ((if JsNumber.isInteger x then [] else ["Expected integer, received float"])
       ++ (if JsNumber.ltb x JsNumber.zero
           then ["Number must be greater than or equal to 0"] else [])).

(** [s.optional()] *)
Definition optional (s : schema) : schema := fun v =>
  match v with
  | VUndefined => ok VUndefined
  | _ => s v
  end.

(** [a.or(b)]: the first valid option; else the first dirty one with its
    issues; else one [invalid_union] issue. *)
Definition union (a b : schema) : schema := fun v =>
  let ra := a v in
  let rb := b v in
  match p_status ra, p_status rb with
  | valid, _ => ra
  | _, valid => rb
  | dirty, _ => ra
  | _, dirty => rb
  | _, _ => invalid "Invalid input"
  end.

(** [s.transform(f)] *)
Definition transform (s : schema) (f : value -> value) : schema := fun v =>
  let base := s v in
  match p_status base with
  | valid => {| p_status := valid; p_value := f (p_value base); p_issues := [] |}
  | _ => base
  end.

(** [s.refine(check, { message })] on a field *)
Definition refine (s : schema) (check : value -> bool) (message : string) : schema :=
  fun v =>
    let inner := s v in
    match p_status inner with
    | aborted => inner
    | _ =>
        if check (p_value inner) then inner
        else {| p_status := dirty; p_value := p_value inner;
                p_issues := p_issues inner ++ [message] |}
    end.

(** An issue of an object: the path and the message. *)
Definition issue : Type := list string * string.

(** [z.object(shape)]: the fields in the order of the shape, each issue
    under the path of its field.  Unknown keys are stripped. *)
Fixpoint object (shape : list (string * schema)) (row : Row)
  : status * Row * list issue :=
  match shape with
  | [] => (valid, ∅, [])
  | (key, s) :: rest =>
      let r := s (get row key) in
      let '(st, out, issues) := object rest row in
      let st' := match p_status r, st with
                 | aborted, _ | _, aborted => aborted
                 | dirty, _ | _, dirty => dirty
                 | valid, valid => valid
                 end in
      let out' := match p_value r with
                  | VUndefined => if bool_decide (is_Some (row !! key))
                                  then <[key := VUndefined]> out else out
                  | x => <[key := x]> out
                  end in
      (st', out', List.map (fun m => ([key], m)) (p_issues r) ++ issues)
  end.

(** [obj.refine(check, { message, path })]: skipped when the object is
    aborted. *)
Definition refineObject (inner : status * Row * list issue)
           (check : Row -> bool) (message : string) (path : list string)
  : status * Row * list issue :=
  let '(st, out, issues) := inner in
  match st with
  | aborted => inner
  | _ => if check out then inner else (dirty, out, issues ++ [(path, message)])
  end.

End Zod.

Module BuyerValidators.
Import JsString.

Definition CityEnum := Zod.enum ["Chandigarh"; "Mohali"; "Zirakpur"; "Panchkula"; "Other"].
Definition PropertyTypeEnum := Zod.enum ["Apartment"; "Villa"; "Plot"; "Office"; "Retail"].
Definition BHKEnum := Zod.enum ["Studio"; "One"; "Two"; "Three"; "Four"].
Definition PurposeEnum := Zod.enum ["Buy"; "Rent"].
Definition TimelineEnum := Zod.enum ["ZeroToThree"; "ThreeToSix"; "MoreThanSix"; "Exploring"].
Definition SourceEnum := Zod.enum ["Website"; "Referral"; "WalkIn"; "Call"; "Other"].
Definition StatusEnum :=
  Zod.enum ["New"; "Qualified"; "Contacted"; "Visited"; "Negotiation"; "Converted"; "Dropped"].

(** Phone validation - strip non-digits and validate length *)
Definition phoneSchema : Zod.schema :=
  Zod.refine
    (Zod.transform (Zod.str [])
       (fun v => match v with VString s => VString (filter isDigit s) | _ => v end))
    (fun v => match v with
              | VString s => (10 <=? String.length s)%nat && (String.length s <=? 15)%nat
              | _ => false
              end)
    "Phone number must be 10-15 digits".

Definition csvRowShape : list (string * Zod.schema) :=
  [ ("fullName", Zod.str [Zod.min 2; Zod.max 80]);
    ("email", Zod.union (Zod.optional (Zod.str [Zod.email])) Zod.literalEmpty);
    ("phone", phoneSchema);
    ("city", CityEnum);
    ("propertyType", PropertyTypeEnum);
    ("bhk", Zod.union (Zod.union (Zod.optional BHKEnum)
                          (Zod.transform Zod.literalEmpty (fun _ => VNull)))
                   Zod.null);
    ("purpose", PurposeEnum);
    ("budgetMin", Zod.union (Zod.optional Zod.coerceNumberIntMin0) Zod.literalEmpty);
    ("budgetMax", Zod.union (Zod.optional Zod.coerceNumberIntMin0) Zod.literalEmpty);
    ("timeline", TimelineEnum);
    ("source", SourceEnum);
    ("notes", Zod.union (Zod.optional (Zod.str [Zod.max 1000])) Zod.literalEmpty);
    ("tags", Zod.union (Zod.optional Zod.arrayOfString) Zod.literalEmpty);
    ("status", Zod.union (Zod.optional StatusEnum) Zod.literalEmpty) ].

(** BHK requirement - only for Apartment and Villa *)
Definition bhkRefinement (d : Row) : bool :=
  if bool_decide (get d "propertyType" = VString "Apartment")
     || bool_decide (get d "propertyType" = VString "Villa")
  then negb (bool_decide (get d "bhk" = VUndefined))
       && negb (bool_decide (get d "bhk" = VNull))
  else true.

(** Budget validation *)
Definition budgetRefinement (d : Row) : bool :=
  if Value.truthy (get d "budgetMin") && Value.truthy (get d "budgetMax")
  then Value.greaterEq (get d "budgetMax") (get d "budgetMin")
  else true.

Definition csvRowSchema (row : Row) : Zod.status * Row * list Zod.issue :=
  Zod.refineObject
    (Zod.refineObject (Zod.object csvRowShape row)
       bhkRefinement "BHK is required for Apartment and Villa property types" ["bhk"])
    budgetRefinement "Budget max must be greater than or equal to budget min" ["budgetMax"].

(** [validateBudget(budgetMin?, budgetMax?)]: each argument a number or
    [undefined]. *)
Definition validateBudget (budgetMin budgetMax : value) : bool :=
  if Value.truthy budgetMin && Value.truthy budgetMax
  then Value.greaterEq budgetMax budgetMin
  else true.

(** [validateCSVRow(row)]: [csvRowSchema.parse] throws a [ZodError] exactly
    when there are issues, and the [catch] prints them. *)
Definition validateCSVRow (row : Row) : bool * list string :=
  let '(_, _, issues) := csvRowSchema row in
  match issues with
  | [] => (true, [])
  | _ => (false, List.map (fun '(path, message) => join "." path +:+ ": " +:+ message) issues)
  end.

End BuyerValidators.

(** ** Import Orchestrator (csvImportService.ts, [CSVImportService]) *)

(** [Express.Multer.File], the fields the service reads.  [None] is a
  property that is [undefined]; [buffer] is the content as
  [buffer.toString('utf-8')] decodes it. *)
Record MulterFile : Type := {
size : Z;
mimetype : option string;
originalname : option string;
buffer : option string
}.

(** How the promise of [prisma.buyer.createMany] settles. *)
Inductive DbOutcome : Type :=
| Resolved
| Rejected (dbError : exn).

Module CSVImportService.
Import JsString.

Inductive ErrorData : Type :=
  | NoData
  | RawLine (line : string)
  | RowData (row : Row).

Record RowError : Type := {
  row : nat;
  rowErrors : list string;
  rowData : ErrorData
}.

Record ImportResult : Type := {
  success : bool;
  totalRows : nat;
  successfulImports : nat;
  failedImports : nat;
  errors : list RowError;
  warnings : list string
}.

Record FileValidationResult : Type := {
  isValid : bool;
  error : option string
}.

Definition MAX_FILE_SIZE : Z := 5 * 1024 * 1024. (* 5MB *)
Definition MAX_ROWS : nat := 1000.
Definition REQUIRED_HEADERS : list string :=
  ["fullName"; "phone"; "city"; "propertyType"; "purpose"; "timeline"; "source"].

Definition pushError (result : ImportResult) (e : RowError) : ImportResult :=
  {| success := success result; totalRows := totalRows result;
     successfulImports := successfulImports result;
     failedImports := failedImports result;
     errors := errors result ++ [e]; warnings := warnings result |}.

Definition pushWarnings (result : ImportResult) (ws : list string) : ImportResult :=
  {| success := success result; totalRows := totalRows result;
     successfulImports := successfulImports result;
     failedImports := failedImports result;
     errors := errors result; warnings := warnings result ++ ws |}.

Definition fileLevel (message : string) : RowError :=
  {| row := 0; rowErrors := [message]; rowData := NoData |}.

(** [Math.round(size / 1024 / 1024)] for a size in bytes *)
Definition roundMB (size : Z) : Z := (2 * size + 1048576) / 2097152.

Definition validateFile (file : option MulterFile) : FileValidationResult :=
  let invalid (message : string) := {| isValid := false; error := Some message |} in
  let body : exc FileValidationResult :=
    match file with
    | None => (* Check file exists *) Ok (invalid "No file provided")
    | Some file =>
        (* Check file size *)
        if MAX_FILE_SIZE <? size file then
          Ok (invalid ("File size (" +:+ ofZ (roundMB (size file))
                       +:+ "MB) exceeds maximum allowed size (5MB)"))
        else
          (* Check file type *)
          let hasValidMimeType :=
            match mimetype file with
            | Some t => List.existsb (String.eqb t) ["text/csv"; "application/csv"; "text/plain"]
            | None => false
            end in
          name ← match originalname file with
                 | Some n => Ok n
                 | None => Throw (TypeError
                     "Cannot read properties of undefined (reading 'toLowerCase')")
                 end;
          let hasValidExtension := endsWith (toLowerCase name) ".csv" in
          if negb hasValidMimeType && negb hasValidExtension then
            Ok (invalid ("Invalid file type. Expected CSV file, got "
                         +:+ default "undefined" (mimetype file)))
          (* Check if file has content *)
          else if size file =? 0 then Ok (invalid "File is empty")
          else Ok {| isValid := true; error := None |}
    end in
  match body with
  | Ok r => r
  | Throw e => invalid ("File validation failed: " +:+ messageOr "Unknown error" e)
  end.

(** [file.buffer.toString('utf-8')] *)
Definition bufferToString (file : option MulterFile) : exc string :=
  match file with
  | Some f =>
      match buffer f with
      | Some content => Ok content
      | None => Throw (TypeError "Cannot read properties of undefined (reading 'toString')")
      end
  | None => Throw (TypeError "Cannot read properties of undefined (reading 'buffer')")
  end.

Definition cleanRowData (r : Row) : exc Row := CSVDataCleaner.cleanRowData r.

(** [{ ...cleanedRow, ownerId, tags: JSON.stringify(cleanedRow.tags || []) }] *)
Definition stage (cleanedRow : Row) (ownerId : string) : Row :=
  let tags := get cleanedRow "tags" in
  <["tags" := Value.stringify (if Value.truthy tags then tags else VArray [])]>
    (<["ownerId" := VString ownerId]> cleanedRow).

Definition rowPrefix (rowNumber : nat) (w : string) : string :=
  "Row " +:+ ofNat rowNumber +:+ ": " +:+ w.

(** The body of the loop over the rows for the row at index [i]. *)
Definition processRow (ownerId : string) (i : nat) (r : Row)
           (st : ImportResult * list Row) : ImportResult * list Row :=
  let '(result, validRows) := st in
  let rowNumber := (i + 2)%nat in (* +2 because CSV row numbers start from 2 (after header) *)
  let failed (es : list string) :=
    let result := pushError result {| row := rowNumber; rowErrors := es; rowData := RowData r |} in
    {| success := success result; totalRows := totalRows result;
       successfulImports := successfulImports result;
       failedImports := S (failedImports result);
       errors := errors result; warnings := warnings result |} in
  let body : exc (ImportResult * list Row) :=
    (* Clean and prepare row data *)
    cleanedRow ← cleanRowData r;
    (* Enhanced validation with better error messages *)
    '(cleanedRow, enhancedValidation) ← CSVRowValidator.validateRow cleanedRow;
    let validation := BuyerValidators.validateCSVRow cleanedRow in
    (* Combine validation results *)
    let combinedErrors :=
      CSVRowValidator.errors enhancedValidation
      ++ (if negb (fst validation) then snd validation else []) in
    (* Add warnings to result *)
    let result :=
      pushWarnings result
        (List.map (rowPrefix rowNumber) (CSVRowValidator.warnings enhancedValidation)) in
    if CSVRowValidator.isValid enhancedValidation && fst validation then
      Ok ({| success := success result; totalRows := totalRows result;
             successfulImports := S (successfulImports result);
             failedImports := failedImports result;
             errors := errors result; warnings := warnings result |},
          validRows ++ [stage cleanedRow ownerId])
    else
      let result := pushError result
            {| row := rowNumber; rowErrors := combinedErrors; rowData := RowData r |} in
      Ok ({| success := success result; totalRows := totalRows result;
             successfulImports := successfulImports result;
             failedImports := S (failedImports result);
             errors := errors result; warnings := warnings result |},
          validRows)
  in
  match body with
  | Ok st' => st'
  | Throw e =>
      (failed ["Row processing failed: " +:+ messageOr "Unknown error" e], validRows)
  end.

Fixpoint processRows (ownerId : string) (i : nat) (rows : list Row)
         (st : ImportResult * list Row) : ImportResult * list Row :=
  match rows with
  | [] => st
  | r :: rest => processRows ownerId (S i) rest (processRow ownerId i r st)
  end.

Definition capWarning (n : nat) : string :=
  "CSV contains " +:+ ofNat n +:+ " rows. Only first " +:+ ofNat MAX_ROWS
  +:+ " rows will be processed.".

Definition parseErrorEntry (e : ParseError) : RowError :=
  {| row := pe_row e; rowErrors := [pe_message e];
     rowData := match pe_rawData e with Some l => RawLine l | None => NoData end |}.

(** Import valid rows to database: the [try]/[await]/[catch] around
    [createMany]. *)
Definition insertRows (createMany : list Row -> DbOutcome) (validRows : list Row)
           (result : ImportResult) : ImportResult :=
  if (0 <? List.length validRows)%nat then
    match createMany validRows with
    | Resolved => result
    | Rejected dbError =>
        let result :=
          pushError result
            (fileLevel ("Database import failed: "
                        +:+ messageOr "Unknown database error" dbError)) in
        {| success := success result; totalRows := totalRows result;
           successfulImports := 0;
           failedImports := totalRows result;
           errors := errors result; warnings := warnings result |}
    end
  else result.

Definition emptyResult : ImportResult :=
  {| success := false; totalRows := 0; successfulImports := 0; failedImports := 0;
     errors := []; warnings := [] |}.

(** What follows the parse, given its result. *)
Definition importParsed (parseResult : CSVParseResult) (ownerId : string)
           (createMany : list Row -> DbOutcome) (result : ImportResult) : ImportResult :=
  (* Handle parsing errors *)
  let result := List.fold_left pushError (List.map parseErrorEntry (parseErrors parseResult)) result in
  (* Check if we have any data *)
  if (List.length (data parseResult) =? 0)%nat then
    pushError result (fileLevel "No valid data rows found in CSV")
  else
    (* Check row limit *)
    let '(result, rows) :=
      if (MAX_ROWS <? List.length (data parseResult))%nat
      then (pushWarnings result [capWarning (List.length (data parseResult))],
            List.firstn MAX_ROWS (data parseResult))
      else (result, data parseResult) in
    let result :=
      {| success := success result; totalRows := List.length rows;
         successfulImports := successfulImports result;
         failedImports := failedImports result;
         errors := errors result; warnings := warnings result |} in
    (* Validate required headers *)
    let headerValidation := CSVParser.validateRequiredHeaders rows REQUIRED_HEADERS in
    if negb (fst headerValidation) then
      pushError result
        (fileLevel ("Missing required headers: " +:+ join ", " (snd headerValidation)))
    else
      (* Process each row *)
      let '(result, validRows) := processRows ownerId 0 rows (result, []) in
      (* Import valid rows to database *)
      let result := insertRows createMany validRows result in
      {| success := (0 <? successfulImports result)%nat; totalRows := totalRows result;
         successfulImports := successfulImports result;
         failedImports := failedImports result;
         errors := errors result; warnings := warnings result |}.

(** [importBuyersFromCSV(file, ownerId)].  In the outer [try] only the read
    of [file.buffer] can throw outside an inner [try], and it does so
    before [result] is first written: the handler sees the fresh
    [result]. *)
Definition importBuyersFromCSV (file : option MulterFile) (ownerId : string)
           (createMany : list Row -> DbOutcome) : exc ImportResult :=
  let result := emptyResult in
  try_catch
    ((* Validate file *)
     let fileValidation := validateFile file in
     if negb (isValid fileValidation) then
       Ok (pushError result
             (fileLevel (default "File validation failed" (error fileValidation))))
     else
       (* Parse CSV content *)
       csvContent ← bufferToString file;
       let parseResult := CSVParser.parseCSV csvContent in
       Ok (importParsed parseResult ownerId createMany result))
    (fun e =>
       Ok (pushError result
             (fileLevel ("Import process failed: " +:+ messageOr "Unknown error" e)))).

End CSVImportService.

(** ** Notions used in the statements about the tokenizer *)

Module Tokenizer.
Import JsString.

Definition isQuote (c : ascii) : bool := Ascii.eqb c dquote.
Definition isComma (c : ascii) : bool := Ascii.eqb c ",".

(** The number of double quotes in a list of fields. *)
Definition quotesIn (fields : list string) : nat :=
  List.fold_right (fun f n => (count isQuote f + n)%nat) O fields.

(** The text read inside quotes when the quote is never closed: every
    double quote in [s] is followed by another one, and each such pair
    stands for one quote character. *)
Fixpoint unclosed (s : string) : option string :=
  match s with
  | EmptyString => Some EmptyString
  | String c r =>
      if isQuote c then
        match r with
        | String d r' => if isQuote d then option_map (String dquote) (unclosed r') else None
        | EmptyString => None
        end
      else option_map (String c) (unclosed r)
  end.

(** How many times the scanner reads a doubled quote inside quotes in
    [line], entering it with the flag [inQuotes]. *)
Fixpoint escapedQuotes (line : string) (inQuotes : bool) : nat :=
  match line with
  | EmptyString => O
  | String c rest =>
      if isQuote c then
        match rest with
        | String d rest' =>
            if inQuotes && isQuote d then S (escapedQuotes rest' inQuotes)
            else escapedQuotes rest (negb inQuotes)
        | EmptyString => O
        end
      else escapedQuotes rest inQuotes
  end.

(** Two double quotes in a row somewhere in [s]. *)
Fixpoint doubledQuote (s : string) : bool :=
  match s with
  | String c ((String d _) as r) => (isQuote c && isQuote d) || doubledQuote r
  | _ => false
  end.

(** [xs.slice(0, -1)] and [xs[xs.length - 1]] *)
Definition front (xs : list string) : list string := List.removelast xs.
Definition back (xs : list string) : string := List.last xs EmptyString.

End Tokenizer.

(** ** Notions used in the statements about the normalizer *)

Module Normalized.
Import JsString CSVDataCleaner.

(** What each step of [cleanRowData] does to the cell it handles when the
    step does not throw. *)
Definition phoneCell (v : value) : value :=
  if Value.truthy v then
    match cleanPhoneNumber v with Ok p => VString p | Throw _ => v end
  else v.

Definition emailCell (v : value) : value :=
  if Value.truthy v then
    match cleanEmail v with
    | Ok e => if isEmpty e then VNull else VString e
    | Throw _ => v
    end
  else v.

Definition budgetCell (v : value) : value :=
  if Value.truthy v then
    match cleanBudget v with Ok b => b | Throw _ => v end
  else v.

Definition tagsCell (v : value) : value :=
  if Value.truthy v then
    match cleanTags v with Ok t => VArray t | Throw _ => v end
  else v.

Definition enumCell (f : EnumField) (v : value) : value :=
  if Value.truthy v then
    match mapEnumValue f v with
    | Ok mapped => if Value.truthy mapped then mapped else v
    | Throw _ => v
    end
  else v.

(** The cells before the last pass. *)
Definition mappedCells (row : Row) : Row :=
  alter (enumCell status) "status"
    (alter (enumCell source) "source"
      (alter (enumCell timeline) "timeline"
        (alter (enumCell purpose) "purpose"
          (alter (enumCell bhk) "bhk"
            (alter (enumCell propertyType) "propertyType"
              (alter (enumCell city) "city"
                (alter tagsCell "tags"
                  (alter budgetCell "budgetMax"
                    (alter budgetCell "budgetMin"
                      (alter emailCell "email"
                        (alter phoneCell "phone" (trimCell <$> row)))))))))))).

(** [cleanRowData] read as a function on cells. *)
Definition cleanCells (row : Row) : Row :=
  let m := mappedCells row in
  map_imap (fun key v => Some (emptyCell (get m "propertyType") key v)) m.

(** What the steps before the last pass do to the cell under [key]. *)
Definition normalizeCell (key : string) (v : value) : value :=
  if decide (key = "status") then enumCell status v
  else if decide (key = "source") then enumCell source v
  else if decide (key = "timeline") then enumCell timeline v
  else if decide (key = "purpose") then enumCell purpose v
  else if decide (key = "bhk") then enumCell bhk v
  else if decide (key = "propertyType") then enumCell propertyType v
  else if decide (key = "city") then enumCell city v
  else if decide (key = "tags") then tagsCell v
  else if decide (key = "budgetMax") then budgetCell v
  else if decide (key = "budgetMin") then budgetCell v
  else if decide (key = "email") then emailCell v
  else if decide (key = "phone") then phoneCell v
  else v.

(** What [cleanRowData] does to the cell under [key], [pt] being the
    property type after mapping. *)
Definition cellOf (pt : value) (key : string) (v : value) : value :=
  emptyCell pt key (normalizeCell key (trimCell v)).

(** A canonical value is trimmed and maps to itself. *)
Definition steadyValue (f : EnumField) (v : string) : bool :=
  String.eqb (trim v) v && bool_decide (enumCell f (VString v) = VString v).

(** Every value of an alias table, and what every key of it yields, is
    steady. *)
Definition steadyTable (f : EnumField) : bool :=
  List.forallb (steadyValue f) (List.map snd (EnumMappings f))
  && List.forallb
       (fun key => match JsObject.getProp (EnumMappings f) key with
                   | VString v => steadyValue f v
                   | _ => false
                   end)
       (JsObject.keys (EnumMappings f)).

(** The condition under which a step does not throw. *)
Definition passes (v : value) : bool := Value.isString v || negb (Value.truthy v).

(** The cells on which a step calls a string method. *)
Definition handledKeys : list string :=
  ["phone"; "email"; "budgetMin"; "budgetMax"; "tags"]
  ++ List.map fieldName enumFields.

(** No step of [cleanRowData] meets a truthy cell that is not a string. *)
Definition cleanable (row : Row) : bool :=
  List.forallb (fun k => passes (get row k)) handledKeys.

Definition isObject (v : value) : bool :=
  match v with VObject _ => true | _ => false end.

(** A cleaned row that can be cleaned again: no number other than zero in
    a budget cell, no array in the tags cell, no object in an enum
    cell. *)
Definition rerunnable (c : Row) : bool :=
  List.forallb (fun k => negb (Value.truthy (get c k))) ["budgetMin"; "budgetMax"; "tags"]
  && List.forallb (fun f => negb (isObject (get c (fieldName f)))) enumFields.

(** A string that does not start with white space. *)
Definition headOk (s : string) : Prop :=
  match s with
  | String c _ => isSpace c = false
  | EmptyString => True
  end.

(** A raw row as the parser builds it: every cell a string. *)
Definition rawRow (cells : gmap string string) : Row := VString <$> cells.

(** A row of the bundled sample file, with budgets and tags ... *)
Definition sampleRow : gmap string string :=
  list_to_map
    [ ("fullName", "John Doe"); ("email", "john@example.com"); ("phone", "9876543210");
      ("city", "Chandigarh"); ("propertyType", "Apartment"); ("bhk", "Three");
      ("purpose", "Buy"); ("budgetMin", "5000000"); ("budgetMax", "7000000");
      ("timeline", "ZeroToThree"); ("source", "Website");
      ("notes", "Looking for 3BHK apartment"); ("tags", "vip, urgent");
      ("status", "New") ].

(** ... and a row in free text that leaves them blank. *)
Definition looseRow : gmap string string :=
  list_to_map
    [ ("fullName", "  Jane Smith "); ("email", " Jane@Gmail.COM"); ("phone", "+91 98765-43211");
      ("city", "chd"); ("propertyType", "flat"); ("bhk", "2 bhk");
      ("purpose", "purchase"); ("budgetMin", ""); ("budgetMax", " ");
      ("timeline", "asap"); ("source", "online"); ("notes", "");
      ("tags", ""); ("status", "") ].

End Normalized.

(** ** Notions used in the statements about the row validator *)

Module RowRule.
Import JsString CSVRowValidator.

(** The auto-fix of the BHK rule applies: a plot, office or retail row with
    a truthy [bhk]. *)
Definition autoFix (r : Row) : bool :=
  CSVDataCleaner.isPlotLike (get r "propertyType")
  && Value.truthy (get r "bhk") && negb (bool_decide (get r "bhk" = VNull)).

(** The row as [validateRow] leaves it. *)
Definition afterValidation (r : Row) : Row :=
  if autoFix r then <["bhk" := VNull]> r else r.

(** No check of [validateRow] calls a string method on a truthy value that
    is not a string: the phone and the enum cells are strings or falsy. *)
Definition validatable (r : Row) : bool :=
  Normalized.passes (get r "phone")
  && List.forallb (fun f => Normalized.passes (get r (fieldName f))) enumValidations.

(** A cleaned plot row that carries a BHK value. *)
Definition plotRow : gmap string string :=
  list_to_map
    [ ("fullName", "Asha Verma"); ("phone", "9876543210"); ("city", "Mohali");
      ("propertyType", "Plot"); ("bhk", "Two"); ("purpose", "Buy");
      ("timeline", "Exploring"); ("source", "Referral") ].

(** A valid apartment row with the given budget cells. *)
Definition budgetRow (bmin bmax : value) : Row :=
  <["budgetMax" := bmax]>
    (<["budgetMin" := bmin]>
      (Normalized.rawRow
         (list_to_map
            [ ("fullName", "John Doe"); ("phone", "9876543210"); ("city", "Chandigarh");
              ("propertyType", "Apartment"); ("bhk", "Three"); ("purpose", "Buy");
              ("timeline", "ZeroToThree"); ("source", "Website") ]))).

(** A raw row whose city is written [chd]. *)
Definition chdRow : gmap string string :=
  list_to_map
    [ ("fullName", "John"); ("phone", "9876543210"); ("city", "chd");
      ("propertyType", "Plot"); ("purpose", "Buy"); ("timeline", "ZeroToThree");
      ("source", "Website") ].

(** Where an error of [validateRow] comes from. *)
Inductive errorKind (r : Row) : string -> Prop :=
  | EkRequired (f : string) :
      In f requiredFields -> requiredError r f <> [] ->
      errorKind r (f +:+ " is required")
  | EkPhone (p : string) :
      errorKind r ("phone must be 10-15 digits (provided: " +:+ p +:+ ")")
  | EkEmail :
      errorKind r ("email format is invalid (provided: "
                   +:+ Value.toString (get r "email") +:+ ")")
  | EkEnum (f : EnumField) :
      validIncludes f (get r (fieldName f)) = false ->
      errorKind r (enumError f (get r (fieldName f)))
  | EkBhk : errorKind r (bhkRequiredError (get r "propertyType"))
  | EkBudget :
      Value.truthy (get r "budgetMin") && Value.truthy (get r "budgetMax")
      && Value.lessThan (get r "budgetMax") (get r "budgetMin") = true ->
      errorKind r (budgetError (get r "budgetMin") (get r "budgetMax"))
  | EkNotes (n : nat) :
      errorKind r ("notes must be less than 1000 characters (provided: " +:+ ofNat n +:+ ")")
  | EkName (n : nat) :
      errorKind r ("fullName must be between 2 and 80 characters (provided: "
                   +:+ ofNat n +:+ ")").

(** Where a warning of [validateRow] comes from. *)
Inductive warningKind (r : Row) : string -> Prop :=
  | WkMapped (f : EnumField) (suggestion : value) :
      validIncludes f (get r (fieldName f)) = false ->
      warningKind r (mappedWarning f (get r (fieldName f)) suggestion)
  | WkBhk : warningKind r (bhkWarning (get r "propertyType") (get r "bhk")).

End RowRule.

(** ** Notions used in the statements about the orchestrator *)

Module ImportRun.
Import JsString CSVImportService.

(** [a] followed by what [b] records: the counts added, the entries
    appended; the flag and the total are those of [a]. *)
Definition merge (a b : ImportResult) : ImportResult :=
  {| success := success a; totalRows := totalRows a;
     successfulImports := (successfulImports a + successfulImports b)%nat;
     failedImports := (failedImports a + failedImports b)%nat;
     errors := errors a ++ errors b; warnings := warnings a ++ warnings b |}.

(** What the loop over the rows records on a fresh result, and the rows it
    stages, from index [i] on. *)
Definition rowsOutcome (ownerId : string) (i : nat) (rows : list Row)
  : ImportResult * list Row :=
  processRows ownerId i rows (emptyResult, []).

(** The rows the loop runs over, and the warning of the row limit. *)
Definition cappedRows (P : CSVParseResult) : list Row :=
  if (MAX_ROWS <? List.length (data P))%nat
  then List.firstn MAX_ROWS (data P) else data P.

Definition capWarnings (P : CSVParseResult) : list string :=
  if (MAX_ROWS <? List.length (data P))%nat
  then [capWarning (List.length (data P))] else [].

(** The rows handed to [createMany]; none when the import stops before the
    loop. *)
Definition stagedRows (file : option MulterFile) (ownerId : string) : list Row :=
  if isValid (validateFile file) then
    match bufferToString file with
    | Ok csvContent =>
        let rows := cappedRows (CSVParser.parseCSV csvContent) in
        if fst (CSVParser.validateRequiredHeaders rows REQUIRED_HEADERS)
        then snd (rowsOutcome ownerId 0 rows) else []
    | Throw _ => []
    end
  else [].

(** The row passes the cleaning and both validators: the condition under
    which the loop stages it. *)
Definition accepted (r : Row) : bool :=
  match cleanRowData r ≫= CSVRowValidator.validateRow with
  | Ok (cleanedRow, enhancedValidation) =>
      CSVRowValidator.isValid enhancedValidation
      && fst (BuyerValidators.validateCSVRow cleanedRow)
  | Throw _ => false
  end.

(** The row numbers of the rows that are not accepted, the first row of
    [rows] being row [i + 2]. *)
Fixpoint rejectedRows (i : nat) (rows : list Row) : list nat :=
  match rows with
  | [] => []
  | r :: rest =>
      if accepted r then rejectedRows (S i) rest
      else (i + 2)%nat :: rejectedRows (S i) rest
  end.

(** An error entry that carries the data of a row: an entry of the loop. *)
Definition isRowEntry (e : RowError) : bool :=
  match rowData e with RowData _ => true | _ => false end.

(** Row numbers strictly increasing, all of them in [lo, hi). *)
Fixpoint ascending (lo hi : nat) (l : list nat) : Prop :=
  match l with
  | [] => True
  | x :: rest => (lo <= x < hi)%nat /\ ascending (S x) hi rest
  end.

(** Row numbers that never decrease, all of them in [lo, hi). *)
Fixpoint nondecreasing (lo hi : nat) (l : list nat) : Prop :=
  match l with
  | [] => True
  | x :: rest => (lo <= x < hi)%nat /\ nondecreasing x hi rest
  end.

(** A warning of the row validator with the number of its row. *)
Definition tagged (w : nat * string) : string := rowPrefix (fst w) (snd w).

(** An uploaded CSV file with the given content. *)
Definition csvFile (content : string) : option MulterFile :=
  Some {| size := Z.of_nat (String.length content); mimetype := Some "text/csv";
          originalname := Some "buyers.csv"; buffer := Some content |}.

Definition csvLines (lines : list string) : string :=
  join (String newline EmptyString) lines.

Definition basicHeader : string :=
  "fullName,phone,city,propertyType,purpose,timeline,source".

(** The file of the scenario: an apartment without a BHK value. *)
Definition johnCsv : string :=
  csvLines [basicHeader; "John,9876543210,Chandigarh,Apartment,Buy,ZeroToThree,Website"].

Definition johnRow : gmap string string :=
  list_to_map
    [ ("fullName", "John"); ("phone", "9876543210"); ("city", "Chandigarh");
      ("propertyType", "Apartment"); ("purpose", "Buy"); ("timeline", "ZeroToThree");
      ("source", "Website") ].

(** A file with one valid row. *)
Definition plotCsv : string :=
  csvLines [basicHeader; "Asha Verma,9876543210,Mohali,Plot,Buy,Exploring,Referral"].

(** Eight columns; the first data row has a short phone number, the sixth
    lacks its last column. *)
Definition lateFixCsv : string :=
  csvLines
    [ basicHeader +:+ ",status";
      "Asha Verma,12345,Mohali,Plot,Buy,Exploring,Referral,New";
      "Ravi Kumar,9876543211,Mohali,Plot,Buy,Exploring,Referral,New";
      "Neha Singh,9876543212,Mohali,Plot,Buy,Exploring,Referral,New";
      "Amit Shah,9876543213,Mohali,Plot,Buy,Exploring,Referral,New";
      "Sara Khan,9876543214,Mohali,Plot,Buy,Exploring,Referral,New";
      "Vik Rao,9876543215,Mohali,Plot,Buy,Exploring,Referral" ].

(** A file with [n] data rows. *)
Definition longCsv (n : nat) : string :=
  csvLines (basicHeader :: List.repeat "A,1,C,P,B,T,S" n).

End ImportRun.

(* ===================================================================== *)
(** * Part II.  Properties                                                *)
(* ===================================================================== *)

(** ** Strings *)

Section StringFacts.
Import JsString.

Lemma append_empty_r (s : string) : s +:+ EmptyString = s.
Proof. induction s as [|c s IH]; simpl; [reflexivity | now rewrite IH]. Qed.

Lemma append_assoc (a b c : string) : (a +:+ b) +:+ c = a +:+ (b +:+ c).
Proof. induction a as [|x a IH]; simpl; [reflexivity | now rewrite IH]. Qed.

Lemma append_cons (c : ascii) (a b : string) :
  String c a +:+ b = String c (a +:+ b).
Proof. reflexivity. Qed.

Lemma count_append (p : ascii -> bool) (a b : string) :
  count p (a +:+ b) = (count p a + count p b)%nat.
Proof. induction a as [|x a IH]; simpl; [reflexivity | rewrite IH; lia]. Qed.

Lemma isEmpty_true (s : string) : isEmpty s = true -> s = EmptyString.
Proof. destruct s; [reflexivity | discriminate]. Qed.

Lemma count_trimStart (p : ascii -> bool) (s : string) :
  (forall c, isSpace c = true -> p c = false) ->
  count p (trimStart s) = count p s.
Proof.
  intros Hp. induction s as [|c s IH]; simpl; [reflexivity|].
  destruct (isSpace c) eqn:E; [|reflexivity].
  rewrite IH, (Hp c E). reflexivity.
Qed.

Lemma count_trimEnd (p : ascii -> bool) (s : string) :
  (forall c, isSpace c = true -> p c = false) ->
  count p (trimEnd s) = count p s.
Proof.
  intros Hp. induction s as [|c s IH]; simpl; [reflexivity|].
  destruct (isSpace c) eqn:E; simpl.
  - destruct (isEmpty (trimEnd s)) eqn:E'; simpl.
    + apply isEmpty_true in E'. rewrite E' in IH. simpl in IH.
      rewrite <- IH, (Hp c E). reflexivity.
    + now rewrite IH.
  - now rewrite IH.
Qed.

Lemma count_trim (p : ascii -> bool) (s : string) :
  (forall c, isSpace c = true -> p c = false) ->
  count p (trim s) = count p s.
Proof.
  intros Hp. unfold trim. now rewrite count_trimEnd, count_trimStart.
Qed.

(** Induction on the length of a string, for scanners that read one or
    two characters at a time. *)
Lemma string_length_ind (P : string -> Prop) :
  (forall s, (forall t, (String.length t < String.length s)%nat -> P t) -> P s) ->
  forall s, P s.
Proof.
  intros step s. apply step.
  induction s as [|c s IH]; intros t Ht; simpl in Ht; [lia|].
  apply step. intros u Hu. apply IH. lia.
Qed.

Lemma split_nonempty (sep : ascii) (s : string) : split sep s <> [].
Proof.
  induction s as [|c s IH]; simpl; [discriminate|].
  destruct (Ascii.eqb c sep); [discriminate|].
  destruct (split sep s); discriminate.
Qed.

End StringFacts.

(** ** The tokenizer *)

Section TokenizerFacts.
Import JsString CSVParser Tokenizer.

Lemma quote_not_space (c : ascii) : isSpace c = true -> isQuote c = false.
Proof.
  unfold isQuote. destruct (Ascii.eqb_spec c dquote) as [->|]; [|reflexivity].
  vm_compute. discriminate.
Qed.

Lemma isQuote_eq (c : ascii) : isQuote c = true -> c = dquote.
Proof. unfold isQuote. now destruct (Ascii.eqb_spec c dquote). Qed.

Lemma comma_dquote : isComma dquote = false.
Proof. reflexivity. Qed.

Lemma quotesIn_app (xs ys : list string) :
  quotesIn (xs ++ ys) = (quotesIn xs + quotesIn ys)%nat.
Proof. induction xs as [|x xs IH]; simpl; [reflexivity | rewrite IH; lia]. Qed.

Lemma loop_length (line : string) :
  forall result current inQuotes,
    (List.length result < List.length (parseCSVLine_loop line result current inQuotes))%nat.
Proof.
  induction line as [line IH] using string_length_ind.
  intros result current inQuotes. destruct line as [|c rest]; simpl.
  - rewrite length_app. simpl. lia.
  - destruct (Ascii.eqb c dquote).
    + destruct rest as [|d rest'].
      * simpl. rewrite length_app. simpl. lia.
      * destruct (inQuotes && Ascii.eqb d dquote).
        -- apply IH. simpl. lia.
        -- apply IH. simpl. lia.
    + destruct (Ascii.eqb c "," && negb inQuotes).
      * eapply Nat.lt_trans; [|apply IH; simpl; lia].
        rewrite length_app. simpl. lia.
      * apply IH. simpl. lia.
Qed.

(** Inside quotes, a text whose quotes all come in pairs is read to the
    end of the line as one token. *)
Lemma loop_unclosed (rest : string) :
  forall result current body,
    unclosed rest = Some body ->
    parseCSVLine_loop rest result current true = result ++ [trim (current +:+ body)].
Proof.
  induction rest as [rest IH] using string_length_ind.
  intros result current body H. destruct rest as [|c rest]; simpl in *.
  - injection H as <-. now rewrite append_empty_r.
  - unfold isQuote in H. destruct (Ascii.eqb c dquote) eqn:Ec.
    + destruct rest as [|d rest']; [discriminate|].
      destruct (Ascii.eqb d dquote) eqn:Ed; [|discriminate]. simpl.
      destruct (unclosed rest') as [b|] eqn:Hb; [|discriminate].
      injection H as <-.
      rewrite (IH rest' ltac:(simpl; lia) _ _ b Hb).
      now rewrite append_assoc.
    + rewrite andb_false_r.
      destruct (unclosed rest) as [b|] eqn:Hb; [|discriminate].
      injection H as <-.
      rewrite (IH rest ltac:(simpl; lia) _ _ b Hb).
      now rewrite append_assoc.
Qed.

Lemma unclosed_commas (rest : string) :
  forall body, unclosed rest = Some body -> count isComma body = count isComma rest.
Proof.
  induction rest as [rest IH] using string_length_ind.
  intros body H. destruct rest as [|c rest]; simpl in *.
  - now injection H as <-.
  - destruct (isQuote c) eqn:Ec.
    + destruct rest as [|d rest']; [discriminate|].
      destruct (isQuote d) eqn:Ed; [|discriminate].
      destruct (unclosed rest') as [b|] eqn:Hb; [|discriminate].
      injection H as <-.
      apply isQuote_eq in Ec, Ed. subst c d. simpl.
      rewrite ?comma_dquote.
      now rewrite (IH rest' ltac:(simpl; lia) b Hb).
    + destruct (unclosed rest) as [b|] eqn:Hb; [|discriminate].
      injection H as <-. simpl.
      now rewrite (IH rest ltac:(simpl; lia) b Hb).
Qed.

Lemma loop_quotes (line : string) :
  forall result current inQuotes,
    quotesIn (parseCSVLine_loop line result current inQuotes)
    = (quotesIn result + count isQuote current + escapedQuotes line inQuotes)%nat.
Proof.
  induction line as [line IH] using string_length_ind.
  intros result current inQuotes. destruct line as [|c rest]; simpl.
  - rewrite quotesIn_app. simpl.
    rewrite (count_trim isQuote current quote_not_space). lia.
  - unfold isQuote at 2. destruct (Ascii.eqb c dquote) eqn:Ec.
    + destruct rest as [|d rest'].
      * simpl. rewrite quotesIn_app. simpl.
        rewrite (count_trim isQuote current quote_not_space). lia.
      * unfold isQuote at 2. destruct (inQuotes && Ascii.eqb d dquote).
        -- rewrite IH by (simpl; lia). rewrite count_append.
           change (count isQuote (String dquote EmptyString)) with 1%nat. lia.
        -- rewrite IH by (simpl; lia). reflexivity.
    + destruct (Ascii.eqb c "," && negb inQuotes).
      * rewrite IH by (simpl; lia). rewrite quotesIn_app. simpl.
        rewrite (count_trim isQuote current quote_not_space). lia.
      * rewrite IH by (simpl; lia). rewrite count_append. simpl.
        unfold isQuote at 2. rewrite Ec. lia.
Qed.

Lemma escapedQuotes_doubled (line : string) :
  forall inQuotes, doubledQuote line = false -> escapedQuotes line inQuotes = O.
Proof.
  induction line as [|c rest IH]; intros inQuotes H; [reflexivity|].
  simpl in *. destruct rest as [|d rest'].
  - now destruct (isQuote c).
  - apply orb_false_iff in H as [H1 H2].
    destruct (isQuote c); simpl in H1.
    + rewrite H1, andb_false_r. now apply IH.
    + now apply IH.
Qed.

Lemma quotesIn_zero (fields : list string) :
  quotesIn fields = O -> List.Forall (fun f => count isQuote f = O) fields.
Proof.
  induction fields as [|f fs IH]; simpl; intros H; constructor.
  - lia.
  - apply IH. lia.
Qed.

(** Before the first double quote the scanner splits at commas. *)
Lemma loop_quote_free (pre : string) :
  forall s result current,
    count isQuote pre = O ->
    parseCSVLine_loop (pre +:+ s) result current false
    = match split "," pre with
      | x :: xs =>
          parseCSVLine_loop s
            (result ++ List.map trim (front ((current +:+ x) :: xs)))
            (back ((current +:+ x) :: xs)) false
      | [] => []
      end.
Proof.
  induction pre as [|c pre IH]; intros s result current H.
  - simpl. now rewrite append_empty_r, app_nil_r.
  - simpl in H. unfold isQuote in H at 1.
    destruct (Ascii.eqb c dquote) eqn:Ec; [discriminate|].
    assert (parseCSVLine_loop (String c pre +:+ s) result current false
            = if Ascii.eqb c ","
              then parseCSVLine_loop (pre +:+ s) (result ++ [trim current]) EmptyString false
              else parseCSVLine_loop (pre +:+ s) result (current +:+ String c EmptyString) false)
      as ->.
    { rewrite append_cons. simpl. rewrite Ec. now destruct (Ascii.eqb c ","). }
    simpl split. destruct (Ascii.eqb c ",") eqn:Ek.
    + rewrite IH by exact H.
      pose proof (split_nonempty "," pre) as Hne.
      destruct (split "," pre) as [|x xs]; [contradiction|].
      unfold front, back. simpl List.removelast. simpl List.last.
      rewrite append_empty_r, <- app_assoc. reflexivity.
    + rewrite IH by exact H.
      pose proof (split_nonempty "," pre) as Hne.
      destruct (split "," pre) as [|x xs]; [contradiction|].
      now rewrite append_assoc.
Qed.

End TokenizerFacts.

Section TokenizerClaim.
Import JsString CSVParser Tokenizer.

(** C10.  [parseCSVLine] is a total function (it is defined by recursion
    on the line, so it returns on every input, malformed quoting
    included) and it returns at least one field.  A double quote met
    outside quotes and never closed turns the whole remainder of the
    line, commas included, into the tail of the current field, which is
    the last one: from any scanner state, and in closed form when the
    quote is the first one of the line.  The double quotes of the output
    fields are exactly the doubled quotes read inside quotes; a line
    without two quotes in a row yields fields without any quote. *)
Theorem parseCSVLine_total_and_quote_safe (line : string) :
  (1 <= List.length (parseCSVLine line))%nat
  /\ (forall result current rest body,
        unclosed rest = Some body ->
        parseCSVLine_loop (String dquote rest) result current false
        = result ++ [trim (current +:+ body)]
        /\ count isComma body = count isComma rest)
  /\ (forall pre rest body,
        line = pre +:+ String dquote rest ->
        count isQuote pre = O ->
        unclosed rest = Some body ->
        parseCSVLine line
        = List.map trim (front (split "," pre)) ++ [trim (back (split "," pre) +:+ body)])
  /\ quotesIn (parseCSVLine line) = escapedQuotes line false
  /\ (doubledQuote line = false ->
      List.Forall (fun f => count isQuote f = O) (parseCSVLine line)).
Proof.
  assert (Hloop : forall result current rest body,
             unclosed rest = Some body ->
             parseCSVLine_loop (String dquote rest) result current false
             = result ++ [trim (current +:+ body)]).
  { intros result current rest body H.
    assert (parseCSVLine_loop (String dquote rest) result current false
            = parseCSVLine_loop rest result current true) as ->.
    { simpl. destruct rest; reflexivity. }
    now apply loop_unclosed. }
  assert (Hq : quotesIn (parseCSVLine line) = escapedQuotes line false).
  { unfold parseCSVLine. now rewrite loop_quotes. }
  split; [|split; [|split; [|split]]].
  - pose proof (loop_length line [] EmptyString false) as H.
    unfold parseCSVLine. simpl in H. lia.
  - intros result current rest body H. split.
    + now apply Hloop.
    + now apply unclosed_commas.
  - intros pre rest body -> Hpre H.
    unfold parseCSVLine. rewrite loop_quote_free by exact Hpre.
    pose proof (split_nonempty "," pre) as Hne.
    destruct (split "," pre) as [|x xs]; [contradiction|].
    simpl (EmptyString +:+ x). now rewrite (Hloop _ _ _ _ H).
  - exact Hq.
  - intros H. apply quotesIn_zero. rewrite Hq. now apply escapedQuotes_doubled.
Qed.

Lemma parseCSVLine_unterminated_witness :
  parseCSVLine ("a, b," +:+ String dquote "c,d, e")
  = ["a"; "b"; "c,d, e"].
Proof.
  destruct (parseCSVLine_total_and_quote_safe ("a, b," +:+ String dquote "c,d, e"))
    as (_ & _ & H & _).
  exact (H "a, b," "c,d, e" "c,d, e" eq_refl eq_refl eq_refl).
Defined.

End TokenizerClaim.

(** ** Trimming and lower-casing *)

Section TrimFacts.
Import JsString Normalized.

Lemma headOk_trimStart (s : string) : headOk (trimStart s).
Proof.
  induction s as [|c s IH]; simpl; [exact I|].
  destruct (isSpace c) eqn:E; [exact IH | exact E].
Qed.

Lemma trimStart_fix (s : string) : headOk s -> trimStart s = s.
Proof. destruct s as [|c s]; simpl; [reflexivity|]. now intros ->. Qed.

Lemma trimEnd_idem (s : string) : trimEnd (trimEnd s) = trimEnd s.
Proof.
  induction s as [|c s IH]; simpl; [reflexivity|].
  destruct (isSpace c && isEmpty (trimEnd s)) eqn:E; [reflexivity|].
  simpl. now rewrite IH, E.
Qed.

Lemma headOk_trimEnd (s : string) : headOk s -> headOk (trimEnd s).
Proof.
  destruct s as [|c s]; simpl; [trivial|].
  intros H. rewrite H. simpl. exact H.
Qed.

Lemma trim_idem (s : string) : trim (trim s) = trim s.
Proof.
  unfold trim.
  rewrite (trimStart_fix (trimEnd (trimStart s))).
  - apply trimEnd_idem.
  - apply headOk_trimEnd, headOk_trimStart.
Qed.

Lemma trimEnd_no_space (s : string) :
  all (fun c => negb (isSpace c)) s = true -> trimEnd s = s.
Proof.
  induction s as [|c s IH]; simpl; [reflexivity|].
  intros [Hc Hs]%andb_prop. rewrite (IH Hs).
  apply negb_true_iff in Hc. now rewrite Hc.
Qed.

Lemma trim_no_space (s : string) :
  all (fun c => negb (isSpace c)) s = true -> trim s = s.
Proof.
  intros H. unfold trim. rewrite trimStart_fix.
  - now apply trimEnd_no_space.
  - destruct s as [|c s]; simpl in *; [exact I|].
    apply andb_prop in H as [Hc _]. now apply negb_true_iff in Hc.
Qed.

Lemma all_filter (p : ascii -> bool) (s : string) : all p (filter p s) = true.
Proof.
  induction s as [|c s IH]; simpl; [reflexivity|].
  destruct (p c) eqn:E; simpl; [now rewrite E|exact IH].
Qed.

Lemma all_impl (p q : ascii -> bool) (s : string) :
  (forall c, p c = true -> q c = true) -> all p s = true -> all q s = true.
Proof.
  intros Hpq. induction s as [|c s IH]; simpl; [reflexivity|].
  intros [Hc Hs]%andb_prop. now rewrite (Hpq c Hc), (IH Hs).
Qed.

Lemma filter_all (p : ascii -> bool) (s : string) :
  all p s = true -> filter p s = s.
Proof.
  induction s as [|c s IH]; simpl; [reflexivity|].
  intros [Hc Hs]%andb_prop. now rewrite Hc, (IH Hs).
Qed.

Lemma all_substring (p : ascii -> bool) (n : nat) (s : string) :
  all p s = true -> all p (substring n s) = true.
Proof.
  revert s. induction n as [|n IH]; intros s H; [exact H|].
  destruct s as [|c s]; simpl in *; [reflexivity|].
  apply andb_prop in H as [_ Hs]. now apply IH.
Qed.

Lemma length_substring (n : nat) (s : string) :
  String.length (substring n s) = (String.length s - n)%nat.
Proof.
  revert s. induction n as [|n IH]; intros s; simpl; [lia|].
  destruct s as [|c s]; simpl; [reflexivity | apply IH].
Qed.

Lemma digit_not_space (c : ascii) : isDigit c = true -> negb (isSpace c) = true.
Proof. destruct c as [[] [] [] [] [] [] [] []]; vm_compute; congruence. Qed.

Lemma isSpace_lowerChar (c : ascii) : isSpace (lowerChar c) = isSpace c.
Proof. destruct c as [[] [] [] [] [] [] [] []]; reflexivity. Qed.

Lemma lowerChar_idem (c : ascii) : lowerChar (lowerChar c) = lowerChar c.
Proof. destruct c as [[] [] [] [] [] [] [] []]; reflexivity. Qed.

Lemma toLowerCase_idem (s : string) : toLowerCase (toLowerCase s) = toLowerCase s.
Proof. induction s as [|c s IH]; simpl; [reflexivity|]. now rewrite lowerChar_idem, IH. Qed.

Lemma toLowerCase_trimStart (s : string) :
  trimStart (toLowerCase s) = toLowerCase (trimStart s).
Proof.
  induction s as [|c s IH]; simpl; [reflexivity|].
  rewrite isSpace_lowerChar. destruct (isSpace c); [exact IH | reflexivity].
Qed.

Lemma isEmpty_toLowerCase (s : string) : isEmpty (toLowerCase s) = isEmpty s.
Proof. now destruct s. Qed.

Lemma toLowerCase_trimEnd (s : string) :
  trimEnd (toLowerCase s) = toLowerCase (trimEnd s).
Proof.
  induction s as [|c s IH]; simpl; [reflexivity|].
  rewrite isSpace_lowerChar, IH, isEmpty_toLowerCase.
  now destruct (isSpace c && isEmpty (trimEnd s)).
Qed.

Lemma toLowerCase_trim (s : string) : trim (toLowerCase s) = toLowerCase (trim s).
Proof. unfold trim. now rewrite toLowerCase_trimStart, toLowerCase_trimEnd. Qed.

End TrimFacts.

(** ** The normalizer, step by step *)

Section CleanSteps.
Import JsString CSVDataCleaner Normalized.

Lemma Ok_inj {A} (a b : A) : Ok a = Ok b -> a = b.
Proof. intros H. now injection H. Qed.

Lemma bind_Ok {A B} (a : A) (f : A -> exc B) : (Ok a ≫= f) = f a.
Proof. reflexivity. Qed.

Lemma bind_Throw {A B} (e : exn) (f : A -> exc B) : (Throw e ≫= f) = Throw e.
Proof. reflexivity. Qed.

Lemma get_truthy (m : Row) (k : string) :
  Value.truthy (get m k) = true -> m !! k = Some (get m k).
Proof. unfold get. destruct (m !! k); [reflexivity | discriminate]. Qed.

Lemma get_insert (m : Row) (k : string) (v : value) : get (<[k := v]> m) k = v.
Proof. unfold get. now rewrite lookup_insert_eq. Qed.

Lemma get_insert_ne (m : Row) (k j : string) (v : value) :
  k <> j -> get (<[k := v]> m) j = get m j.
Proof. intros H. unfold get. now rewrite lookup_insert_ne. Qed.

Lemma get_alter_ne (h : value -> value) (m : Row) (k j : string) :
  k <> j -> get (alter h k m) j = get m j.
Proof. intros H. unfold get. now rewrite lookup_alter_ne. Qed.

Lemma get_alter (h : value -> value) (m : Row) (k : string) :
  h VUndefined = VUndefined -> get (alter h k m) k = h (get m k).
Proof.
  intros H. unfold get. rewrite lookup_alter_eq.
  destruct (m !! k); simpl; [reflexivity | now rewrite H].
Qed.

Lemma get_fmap_trim (m : Row) (k : string) :
  get (trimCell <$> m) k = trimCell (get m k).
Proof. unfold get. rewrite lookup_fmap. now destruct (m !! k). Qed.

Lemma insert_alter (h : value -> value) (m : Row) (k : string) :
  Value.truthy (get m k) = true -> <[k := h (get m k)]> m = alter h k m.
Proof.
  intros H%get_truthy. apply map_eq. intros j.
  destruct (decide (k = j)) as [->|Hne].
  - now rewrite lookup_insert_eq, lookup_alter_eq, H.
  - now rewrite lookup_insert_ne, lookup_alter_ne.
Qed.

Lemma alter_same (h : value -> value) (m : Row) (k : string) :
  h (get m k) = get m k -> alter h k m = m.
Proof.
  intros H. apply map_eq. intros j.
  destruct (decide (k = j)) as [->|Hne].
  - rewrite lookup_alter_eq. unfold get in H.
    destruct (m !! j); simpl in *; [now rewrite H | reflexivity].
  - now rewrite lookup_alter_ne.
Qed.

Lemma passes_trimCell (v : value) : passes (trimCell v) = passes v.
Proof. now destruct v. Qed.

Lemma stringMethod_ok (what : string) (v : value) :
  Value.isString v = true -> exists s, v = VString s /\ Value.stringMethod what v = Ok s.
Proof. destruct v; try discriminate. eauto. Qed.

Lemma stringMethod_throw (what : string) (v : value) :
  Value.isString v = false ->
  Value.stringMethod what v = Throw (TypeError (what +:+ " is not a function")).
Proof. now destruct v. Qed.

(** One step: [if (cleaned[k]) cleaned[k] = wrap(f(cleaned[k]))]. *)
Lemma step_spec {A} (f : value -> exc A) (wrap : A -> value) (h : value -> value)
      (what : string) (k : string) (m : Row) :
  (forall v, Value.truthy v = true -> Value.isString v = true ->
             exists a, f v = Ok a /\ h v = wrap a) ->
  (forall v, Value.truthy v = true -> Value.isString v = false ->
             f v = Throw (TypeError what)) ->
  (forall v, Value.truthy v = false -> h v = v) ->
  (if Value.truthy (get m k) then a ← f (get m k); Ok (<[k := wrap a]> m) else Ok m)
  = if passes (get m k) then Ok (alter h k m) else Throw (TypeError what).
Proof.
  intros Hok Hthrow Hfalsy. unfold passes.
  destruct (Value.truthy (get m k)) eqn:Ht.
  - destruct (Value.isString (get m k)) eqn:Hs; simpl.
    + destruct (Hok _ Ht Hs) as (a & -> & Hh). rewrite bind_Ok, <- Hh.
      now rewrite insert_alter.
    + now rewrite (Hthrow _ Ht Hs).
  - rewrite orb_true_r. now rewrite alter_same by now apply Hfalsy.
Qed.

Lemma phone_step (m : Row) :
  (if Value.truthy (get m "phone") then
     p ← cleanPhoneNumber (get m "phone"); Ok (<["phone" := VString p]> m)
   else Ok m)
  = if passes (get m "phone") then Ok (alter phoneCell "phone" m)
    else Throw (TypeError "phone.replace is not a function").
Proof.
  apply (step_spec cleanPhoneNumber VString phoneCell).
  - intros v Ht Hs. destruct v as [| |s| | |]; try discriminate.
    unfold phoneCell, cleanPhoneNumber. rewrite Ht. simpl.
    destruct (_ && _); eauto.
  - intros v Ht Hs. unfold cleanPhoneNumber. rewrite Ht. simpl.
    now rewrite stringMethod_throw.
  - intros v Ht. unfold phoneCell. now rewrite Ht.
Qed.

Lemma email_step (m : Row) :
  (if Value.truthy (get m "email") then
     e ← cleanEmail (get m "email");
     Ok (<["email" := if isEmpty e then VNull else VString e]> m)
   else Ok m)
  = if passes (get m "email") then Ok (alter emailCell "email" m)
    else Throw (TypeError "email.toLowerCase is not a function").
Proof.
  apply (step_spec cleanEmail (fun e => if isEmpty e then VNull else VString e) emailCell).
  - intros v Ht Hs. destruct v as [| |s| | |]; try discriminate.
    unfold emailCell, cleanEmail. rewrite Ht. simpl. eauto.
  - intros v Ht Hs. unfold cleanEmail. rewrite Ht. simpl.
    now rewrite stringMethod_throw.
  - intros v Ht. unfold emailCell. now rewrite Ht.
Qed.

Lemma cleanBudget_string (s : string) : exists b, cleanBudget (VString s) = Ok b.
Proof.
  unfold cleanBudget. destruct (negb _); [eauto|]. simpl.
  destruct (isEmpty _); [eauto|]. destruct (includes _ _); [eauto|].
  destruct (includes _ _); eauto.
Qed.

Lemma budget_step (k : string) (m : Row) :
  (if Value.truthy (get m k) then
     b ← cleanBudget (get m k); Ok (<[k := b]> m)
   else Ok m)
  = if passes (get m k) then Ok (alter budgetCell k m)
    else Throw (TypeError "budget.trim is not a function").
Proof.
  apply (step_spec cleanBudget (fun b => b) budgetCell).
  - intros v Ht Hs. unfold budgetCell. rewrite Ht.
    destruct v; try discriminate.
    destruct (cleanBudget_string s) as (b & ->). eauto.
  - intros v Ht Hs. unfold cleanBudget. rewrite Ht. simpl.
    now rewrite stringMethod_throw.
  - intros v Ht. unfold budgetCell. now rewrite Ht.
Qed.

Lemma cleanTags_string (s : string) : exists t, cleanTags (VString s) = Ok t.
Proof.
  unfold cleanTags. destruct (negb _); [eauto|]. simpl.
  destruct (_ || _); [eauto|]. destruct (JSON.parse s) as [[]|]; eauto.
Qed.

Lemma tags_step (m : Row) :
  (if Value.truthy (get m "tags") then
     t ← cleanTags (get m "tags"); Ok (<["tags" := VArray t]> m)
   else Ok m)
  = if passes (get m "tags") then Ok (alter tagsCell "tags" m)
    else Throw (TypeError "tags.trim is not a function").
Proof.
  apply (step_spec cleanTags VArray tagsCell).
  - intros v Ht Hs. unfold tagsCell. rewrite Ht.
    destruct v; try discriminate.
    destruct (cleanTags_string s) as (t & ->). eauto.
  - intros v Ht Hs. unfold cleanTags. rewrite Ht. simpl.
    now rewrite stringMethod_throw.
  - intros v Ht. unfold tagsCell. now rewrite Ht.
Qed.

Lemma mapEnumValue_string (f : EnumField) (s : string) :
  exists mapped, mapEnumValue f (VString s) = Ok mapped.
Proof.
  unfold mapEnumValue. destruct (negb _); [eauto|]. simpl.
  destruct (isEmpty _); [eauto|]. destruct (Value.truthy _); [eauto|].
  destruct (List.find _ _); eauto.
Qed.

Lemma mapField_spec (m : Row) (f : EnumField) :
  mapField m f
  = if passes (get m (fieldName f)) then Ok (alter (enumCell f) (fieldName f) m)
    else Throw (TypeError "value.trim is not a function").
Proof.
  unfold mapField, passes.
  destruct (Value.truthy (get m (fieldName f))) eqn:Ht.
  - destruct (Value.isString (get m (fieldName f))) eqn:Hs; simpl.
    + destruct (get m (fieldName f)) as [| |s| | |] eqn:Hv; try discriminate.
      destruct (mapEnumValue_string f s) as (mapped & Hm). rewrite Hm, bind_Ok.
      destruct (Value.truthy mapped) eqn:Hmt.
      * f_equal. rewrite <- (insert_alter (enumCell f)) by now rewrite Hv.
        rewrite Hv. unfold enumCell. now rewrite Ht, Hm, Hmt.
      * f_equal. symmetry. apply alter_same.
        rewrite Hv. unfold enumCell. now rewrite Ht, Hm, Hmt.
    + unfold mapEnumValue. rewrite Ht. simpl. now rewrite stringMethod_throw.
  - rewrite orb_true_r. f_equal. symmetry. apply alter_same.
    unfold enumCell. now rewrite Ht.
Qed.

End CleanSteps.

Section CleanSpec.
Import JsString CSVDataCleaner Normalized.

Local Ltac pass_or_throw c :=
  destruct c;
  [ rewrite bind_Ok
  | split; [ rewrite ?andb_false_r; simpl; discriminate
           | intros _; eexists; reflexivity ] ].

(** [cleanRowData] returns the cell-wise result when no handled cell is a
    truthy non-string, and throws a [TypeError] otherwise. *)
Lemma cleanRowData_spec (m : Row) :
  (cleanable m = true -> cleanRowData m = Ok (cleanCells m))
  /\ (cleanable m = false -> exists msg, cleanRowData m = Throw (TypeError msg)).
Proof.
  unfold cleanable, handledKeys. simpl List.forallb.
  unfold cleanRowData, cleanCells, mappedCells.
  rewrite phone_step, get_fmap_trim, passes_trimCell.
  pass_or_throw (passes (get m "phone")).
  rewrite email_step, get_alter_ne, get_fmap_trim, passes_trimCell by done.
  pass_or_throw (passes (get m "email")).
  rewrite (budget_step "budgetMin"), !get_alter_ne, get_fmap_trim, passes_trimCell by done.
  pass_or_throw (passes (get m "budgetMin")).
  rewrite (budget_step "budgetMax"), !get_alter_ne, get_fmap_trim, passes_trimCell by done.
  pass_or_throw (passes (get m "budgetMax")).
  rewrite tags_step, !get_alter_ne, get_fmap_trim, passes_trimCell by done.
  pass_or_throw (passes (get m "tags")).
  unfold enumFields, mapFields.
  rewrite mapField_spec. simpl fieldName.
  rewrite !get_alter_ne, get_fmap_trim, passes_trimCell by done.
  pass_or_throw (passes (get m "city")).
  rewrite mapField_spec. simpl fieldName.
  rewrite !get_alter_ne, get_fmap_trim, passes_trimCell by done.
  pass_or_throw (passes (get m "propertyType")).
  rewrite mapField_spec. simpl fieldName.
  rewrite !get_alter_ne, get_fmap_trim, passes_trimCell by done.
  pass_or_throw (passes (get m "bhk")).
  rewrite mapField_spec. simpl fieldName.
  rewrite !get_alter_ne, get_fmap_trim, passes_trimCell by done.
  pass_or_throw (passes (get m "purpose")).
  rewrite mapField_spec. simpl fieldName.
  rewrite !get_alter_ne, get_fmap_trim, passes_trimCell by done.
  pass_or_throw (passes (get m "timeline")).
  rewrite mapField_spec. simpl fieldName.
  rewrite !get_alter_ne, get_fmap_trim, passes_trimCell by done.
  pass_or_throw (passes (get m "source")).
  rewrite mapField_spec. simpl fieldName.
  rewrite !get_alter_ne, get_fmap_trim, passes_trimCell by done.
  pass_or_throw (passes (get m "status")).
  split; [intros _; rewrite ?bind_Ok, ?get_alter_ne by done; reflexivity | discriminate].
Qed.

End CleanSpec.

Section CleanCells.
Import JsString CSVDataCleaner Normalized.

(** Case analysis on a key: one of the twelve handled names, or another. *)
Local Ltac by_key k :=
  destruct (decide (k = "status")) as [->|?];
  [|destruct (decide (k = "source")) as [->|?];
  [|destruct (decide (k = "timeline")) as [->|?];
  [|destruct (decide (k = "purpose")) as [->|?];
  [|destruct (decide (k = "bhk")) as [->|?];
  [|destruct (decide (k = "propertyType")) as [->|?];
  [|destruct (decide (k = "city")) as [->|?];
  [|destruct (decide (k = "tags")) as [->|?];
  [|destruct (decide (k = "budgetMax")) as [->|?];
  [|destruct (decide (k = "budgetMin")) as [->|?];
  [|destruct (decide (k = "email")) as [->|?];
  [|destruct (decide (k = "phone")) as [->|?]]]]]]]]]]]].

Lemma normalizeCell_other (k : string) (v : value) :
  k <> "status" -> k <> "source" -> k <> "timeline" -> k <> "purpose" ->
  k <> "bhk" -> k <> "propertyType" -> k <> "city" -> k <> "tags" ->
  k <> "budgetMax" -> k <> "budgetMin" -> k <> "email" -> k <> "phone" ->
  normalizeCell k v = v.
Proof.
  intros. unfold normalizeCell.
  repeat (destruct (decide _); [congruence|]). reflexivity.
Qed.

Lemma mappedCells_lookup (m : Row) (k : string) :
  mappedCells m !! k = (fun v => normalizeCell k (trimCell v)) <$> m !! k.
Proof.
  unfold mappedCells.
  by_key k;
    [ rewrite ?lookup_alter_ne by done; rewrite lookup_alter_eq;
      rewrite ?lookup_alter_ne by done; rewrite lookup_fmap;
      destruct (_ !! _); reflexivity .. | ].
  rewrite !lookup_alter_ne by congruence. rewrite lookup_fmap.
  destruct (m !! k); simpl; [|reflexivity].
  now rewrite normalizeCell_other.
Qed.

Lemma normalizeCell_falsy (k : string) (v : value) :
  Value.truthy v = false -> normalizeCell k v = v.
Proof.
  intros H. unfold normalizeCell, enumCell, tagsCell, budgetCell, emailCell, phoneCell.
  rewrite H. repeat (destruct (decide _); [reflexivity|]). reflexivity.
Qed.

Lemma get_mappedCells (m : Row) (k : string) :
  get (mappedCells m) k = normalizeCell k (trimCell (get m k)).
Proof.
  unfold get. rewrite mappedCells_lookup.
  destruct (m !! k); simpl; [reflexivity|].
  now rewrite normalizeCell_falsy.
Qed.

Lemma cleanCells_lookup (m : Row) (k : string) :
  cleanCells m !! k = cellOf (get (mappedCells m) "propertyType") k <$> m !! k.
Proof.
  unfold cleanCells. rewrite map_lookup_imap, mappedCells_lookup.
  now destruct (m !! k).
Qed.

Lemma emptyCell_falsy (pt : value) (k : string) (v : value) :
  Value.truthy v = false -> v <> VString EmptyString -> emptyCell pt k v = v.
Proof.
  intros _ H. unfold emptyCell. now rewrite bool_decide_eq_false_2.
Qed.

Lemma emptyCell_truthy (pt : value) (k : string) (v : value) :
  Value.truthy v = true -> emptyCell pt k v = v.
Proof.
  intros H. unfold emptyCell. rewrite bool_decide_eq_false_2; [reflexivity|].
  intros ->. discriminate.
Qed.

Lemma emptyCell_idem (pt : value) (k : string) (v : value) :
  emptyCell pt k (emptyCell pt k v) = emptyCell pt k v.
Proof.
  unfold emptyCell.
  set (a := bool_decide (k = "email") || bool_decide (k = "notes")
            || bool_decide (k = "status")).
  set (b := bool_decide (k = "budgetMin") || bool_decide (k = "budgetMax")).
  set (c := bool_decide (k = "bhk")).
  set (d := isPlotLike pt).
  destruct (bool_decide (v = VString EmptyString)) eqn:E, a, b, c, d;
    simpl; rewrite ?E; reflexivity.
Qed.

Lemma get_cleanCells_propertyType (m : Row) :
  get (cleanCells m) "propertyType" = get (mappedCells m) "propertyType".
Proof.
  unfold get at 1. rewrite cleanCells_lookup.
  rewrite get_mappedCells. unfold get.
  destruct (m !! "propertyType") as [v|]; simpl.
  - unfold cellOf, emptyCell. now destruct (bool_decide _).
  - symmetry. now apply normalizeCell_falsy.
Qed.

End CleanCells.

Section CellFacts.
Import JsString CSVDataCleaner Normalized.

Lemma truthy_string (s : string) : Value.truthy (VString s) = negb (isEmpty s).
Proof. reflexivity. Qed.

Lemma trimCell_falsy (v : value) : Value.truthy v = false -> trimCell v = v.
Proof.
  destruct v as [| |s| | |]; try reflexivity.
  rewrite truthy_string. intros H. apply negb_false_iff, isEmpty_true in H.
  now subst s.
Qed.

(** *** Phone *)

Lemma cleanPhoneNumber_digits (s p : string) :
  cleanPhoneNumber (VString s) = Ok p -> all isDigit p = true.
Proof.
  unfold cleanPhoneNumber. destruct (negb _); [now intros [= <-]|].
  unfold Value.stringMethod. rewrite bind_Ok.
  destruct (_ && _); intros [= <-].
  - exact (all_substring isDigit 2 _ (all_filter isDigit s)).
  - apply all_filter.
Qed.

Lemma cleanPhoneNumber_idem (s p : string) :
  cleanPhoneNumber (VString s) = Ok p -> cleanPhoneNumber (VString p) = Ok p.
Proof.
  intros H. pose proof (cleanPhoneNumber_digits s p H) as Hd.
  unfold cleanPhoneNumber in *. destruct (negb (Value.truthy (VString s))).
  { now injection H as <-. }
  unfold Value.stringMethod in *. rewrite bind_Ok in *.
  destruct (Value.truthy (VString p)) eqn:Ht; simpl negb; cbv iota.
  2:{ rewrite truthy_string in Ht. apply negb_false_iff, isEmpty_true in Ht.
      now subst p. }
  rewrite (filter_all isDigit p Hd).
  destruct (startsWith (filter isDigit s) "91"
            && (String.length (filter isDigit s) =? 12)%nat) eqn:E.
  - assert (p = substring 2 (filter isDigit s)) as -> by congruence.
    rewrite length_substring.
    apply andb_prop in E as [_ E]. apply Nat.eqb_eq in E. rewrite E.
    change (12 - 2 =? 12)%nat with false.
    now rewrite andb_false_r.
  - injection H as <-. now rewrite E.
Qed.

Lemma phoneCell_stable (t : string) :
  normalizeCell "phone" (trimCell (phoneCell (VString t))) = phoneCell (VString t).
Proof.
  destruct (Value.truthy (phoneCell (VString t))) eqn:Hy.
  2:{ rewrite trimCell_falsy by exact Hy. now apply normalizeCell_falsy. }
  unfold phoneCell in *. destruct (Value.truthy (VString t)) eqn:Ht.
  - destruct (cleanPhoneNumber (VString t)) as [p|e] eqn:Hp.
    + simpl trimCell.
      rewrite (trim_no_space p)
        by (eapply all_impl; [apply digit_not_space | eapply cleanPhoneNumber_digits, Hp]).
      change (normalizeCell "phone" (VString p)) with (phoneCell (VString p)).
      unfold phoneCell. rewrite Hy. now rewrite (cleanPhoneNumber_idem t p Hp).
    + unfold cleanPhoneNumber in Hp. rewrite Ht in Hp. simpl negb in Hp.
      unfold Value.stringMethod in Hp. rewrite bind_Ok in Hp.
      destruct (_ && _); discriminate.
  - congruence.
Qed.

(** *** Email *)

Lemma emailCell_stable (t : string) :
  normalizeCell "email" (trimCell (emailCell (VString t))) = emailCell (VString t).
Proof.
  destruct (Value.truthy (emailCell (VString t))) eqn:Hy.
  2:{ rewrite trimCell_falsy by exact Hy. now apply normalizeCell_falsy. }
  unfold emailCell in *. destruct (Value.truthy (VString t)) eqn:Ht; [|congruence].
  unfold cleanEmail in *. rewrite Ht in *. simpl in *.
  destruct (isEmpty (trim (toLowerCase t))) eqn:He; [discriminate|].
  simpl trimCell. rewrite trim_idem.
  change (normalizeCell "email" ?v) with (emailCell v).
  unfold emailCell, cleanEmail. rewrite Hy. simpl.
  rewrite <- (toLowerCase_trim (toLowerCase t)), toLowerCase_idem, trim_idem.
  rewrite toLowerCase_trim. now rewrite <- toLowerCase_trim, He.
Qed.

(** *** Budgets and tags *)

Lemma budgetCell_shape (t : string) :
  budgetCell (VString t) = VString EmptyString
  \/ budgetCell (VString t) = VUndefined
  \/ exists x, budgetCell (VString t) = VNumber x.
Proof.
  unfold budgetCell. rewrite truthy_string.
  destruct t as [|c t]; [now left|]. simpl negb.
  unfold cleanBudget. simpl Value.truthy. simpl negb. simpl.
  destruct (isEmpty _); [now right; left|].
  unfold orUndefined.
  repeat match goal with
         | |- context [if ?b then _ else _] => destruct b
         end; eauto.
Qed.

Lemma tagsCell_shape (t : string) :
  tagsCell (VString t) = VString EmptyString
  \/ exists items, tagsCell (VString t) = VArray items.
Proof.
  unfold tagsCell. rewrite truthy_string.
  destruct t as [|c t]; [now left|]. simpl negb.
  destruct (cleanTags_string (String c t)) as (items & ->). eauto.
Qed.

End CellFacts.

Section EnumFacts.
Import JsString CSVDataCleaner Normalized.

Lemma steadyTable_all (f : EnumField) : steadyTable f = true.
Proof. destruct f; vm_compute; reflexivity. Qed.

Lemma own_in (entries : list (string * string)) (k v : string) :
  JsObject.own entries k = Some v -> In v (List.map snd entries).
Proof.
  induction entries as [|[k' v'] rest IH]; simpl; [discriminate|].
  destruct (String.eqb k' k); [intros [= ->]; now left | right; now apply IH].
Qed.

Lemma normalizeCell_enum (f : EnumField) (v : value) :
  normalizeCell (fieldName f) v = enumCell f v.
Proof. destruct f; reflexivity. Qed.

Lemma enumCell_cases (f : EnumField) (t : string) :
  trim t = t ->
  enumCell f (VString t) = VString t
  \/ isObject (enumCell f (VString t)) = true
  \/ exists v, enumCell f (VString t) = VString v /\ steadyValue f v = true.
Proof.
  intros Ht. pose proof (steadyTable_all f) as Hs.
  apply andb_prop in Hs as [Hvals Hkeys].
  rewrite forallb_forall in Hvals, Hkeys.
  unfold enumCell. destruct (Value.truthy (VString t)) eqn:Hy; [|now left].
  unfold mapEnumValue. rewrite Hy. simpl negb. cbv iota.
  unfold Value.stringMethod. rewrite bind_Ok.
  destruct (isEmpty (trim t)); [now left|].
  set (k := trim (toLowerCase t)).
  destruct (Value.truthy (JsObject.getProp (EnumMappings f) k)) eqn:Hg.
  - rewrite Hg. unfold JsObject.getProp in *.
    destruct (JsObject.own (EnumMappings f) k) as [v|] eqn:Ho.
    + right; right. exists v. split; [reflexivity|].
      apply Hvals. eapply own_in, Ho.
    + right; left. destruct (String.eqb k "constructor"); [reflexivity|].
      destruct (String.eqb k "__proto__"); [reflexivity | discriminate].
  - destruct (List.find _ _) as [key|] eqn:Hf; [|now left].
    apply find_some in Hf as [Hin _]. specialize (Hkeys key Hin).
    destruct (JsObject.getProp (EnumMappings f) key) as [| |v| | |]; try discriminate.
    destruct (Value.truthy (VString v)); [|now left].
    right; right. now exists v.
Qed.

Lemma enumCell_stable (f : EnumField) (t : string) :
  trim t = t ->
  passes (enumCell f (VString t)) = true ->
  enumCell f (trimCell (enumCell f (VString t))) = enumCell f (VString t).
Proof.
  intros Ht Hp.
  destruct (enumCell_cases f t Ht) as [H|[H|(v & H & Hv)]].
  - rewrite H. simpl trimCell. now rewrite Ht.
  - destruct (enumCell f (VString t)); discriminate.
  - rewrite H. simpl trimCell. unfold steadyValue in Hv.
    apply andb_prop in Hv as [Hv1 Hv2]. apply String.eqb_eq in Hv1.
    apply bool_decide_eq_true_1 in Hv2. now rewrite Hv1.
Qed.

Lemma enumCell_kind (f : EnumField) (t : string) :
  Value.isString (enumCell f (VString t)) = true
  \/ isObject (enumCell f (VString t)) = true.
Proof.
  unfold enumCell. destruct (Value.truthy (VString t)); [|now left].
  destruct (mapEnumValue_string f t) as (mapped & Hm). rewrite Hm.
  destruct (Value.truthy mapped) eqn:Hy; [|now left].
  unfold mapEnumValue in Hm. destruct (negb _); [injection Hm as <-; discriminate|].
  unfold Value.stringMethod in Hm. rewrite bind_Ok in Hm.
  destruct (isEmpty _); [injection Hm as <-; discriminate|].
  assert (forall k, Value.isString (JsObject.getProp (EnumMappings f) k) = true
                    \/ isObject (JsObject.getProp (EnumMappings f) k) = true
                    \/ JsObject.getProp (EnumMappings f) k = VUndefined) as Hg.
  { intros k. unfold JsObject.getProp.
    destruct (JsObject.own _ _); [now left|].
    destruct (String.eqb k "constructor"); [now right; left|].
    destruct (String.eqb k "__proto__"); [now right; left | now right; right]. }
  destruct (Value.truthy (JsObject.getProp _ _)).
  - injection Hm as <-. destruct (Hg (trim (toLowerCase t))) as [?|[?|E]]; auto.
    rewrite E in Hy. discriminate.
  - destruct (List.find _ _) as [key|]; [|injection Hm as <-; discriminate].
    injection Hm as <-. destruct (Hg key) as [?|[?|E]]; auto.
    rewrite E in Hy. discriminate.
Qed.

End EnumFacts.

Section CleanIdempotence.
Import JsString CSVDataCleaner Normalized.

Local Ltac by_key k :=
  destruct (decide (k = "status")) as [->|?];
  [|destruct (decide (k = "source")) as [->|?];
  [|destruct (decide (k = "timeline")) as [->|?];
  [|destruct (decide (k = "purpose")) as [->|?];
  [|destruct (decide (k = "bhk")) as [->|?];
  [|destruct (decide (k = "propertyType")) as [->|?];
  [|destruct (decide (k = "city")) as [->|?];
  [|destruct (decide (k = "tags")) as [->|?];
  [|destruct (decide (k = "budgetMax")) as [->|?];
  [|destruct (decide (k = "budgetMin")) as [->|?];
  [|destruct (decide (k = "email")) as [->|?];
  [|destruct (decide (k = "phone")) as [->|?]]]]]]]]]]]].

Lemma falsy_stable (k : string) (y : value) :
  Value.truthy y = false -> normalizeCell k (trimCell y) = y.
Proof. intros H. rewrite trimCell_falsy by exact H. now apply normalizeCell_falsy. Qed.

(** A cell that the steps have produced from a trimmed string, and that
    is not a truthy non-string, goes through the steps unchanged. *)
Lemma normalizeCell_stable (k t : string) :
  trim t = t ->
  passes (normalizeCell k (VString t)) = true ->
  normalizeCell k (trimCell (normalizeCell k (VString t))) = normalizeCell k (VString t).
Proof.
  intros Ht Hp.
  destruct (Value.truthy (normalizeCell k (VString t))) eqn:Hy;
    [|now apply falsy_stable].
  by_key k.
  1-7: match goal with
       | |- context [normalizeCell ?key _] =>
           match key with
           | "status" => rewrite !(normalizeCell_enum status) in *
           | "source" => rewrite !(normalizeCell_enum source) in *
           | "timeline" => rewrite !(normalizeCell_enum timeline) in *
           | "purpose" => rewrite !(normalizeCell_enum purpose) in *
           | "bhk" => rewrite !(normalizeCell_enum bhk) in *
           | "propertyType" => rewrite !(normalizeCell_enum propertyType) in *
           | "city" => rewrite !(normalizeCell_enum city) in *
           end
       end; now apply enumCell_stable.
  - change (normalizeCell "tags" (VString t)) with (tagsCell (VString t)) in *.
    destruct (tagsCell_shape t) as [E|(items & E)]; rewrite E in *; discriminate.
  - change (normalizeCell "budgetMax" (VString t)) with (budgetCell (VString t)) in *.
    destruct (budgetCell_shape t) as [E|[E|(x & E)]]; rewrite E in *; try discriminate.
    unfold passes in Hp. rewrite Hy in Hp. discriminate.
  - change (normalizeCell "budgetMin" (VString t)) with (budgetCell (VString t)) in *.
    destruct (budgetCell_shape t) as [E|[E|(x & E)]]; rewrite E in *; try discriminate.
    unfold passes in Hp. rewrite Hy in Hp. discriminate.
  - apply emailCell_stable.
  - apply phoneCell_stable.
  - rewrite !normalizeCell_other by assumption. simpl. now rewrite Ht.
Qed.

Lemma emptyCell_kind (pt : value) (k : string) (y : value) :
  emptyCell pt k y = y \/ emptyCell pt k y = VNull \/ emptyCell pt k y = VUndefined.
Proof.
  unfold emptyCell.
  destruct (bool_decide (y = VString EmptyString)) eqn:E; [|now left].
  apply bool_decide_eq_true_1 in E. subst y.
  repeat match goal with
         | |- context [if ?b then _ else _] => destruct b
         end; auto.
Qed.

Lemma emptyCell_falsy_out (pt : value) (k : string) (y : value) :
  Value.truthy y = false -> Value.truthy (emptyCell pt k y) = false.
Proof.
  intros H. destruct (emptyCell_kind pt k y) as [->|[->| ->]]; auto.
Qed.

Lemma cellOf_idem (pt : value) (k s : string) :
  passes (cellOf pt k (VString s)) = true ->
  cellOf pt k (cellOf pt k (VString s)) = cellOf pt k (VString s).
Proof.
  unfold cellOf. simpl trimCell.
  set (y := normalizeCell k (VString (trim s))).
  destruct (Value.truthy y) eqn:Hy.
  - rewrite (emptyCell_truthy pt k y Hy). intros Hp.
    assert (normalizeCell k (trimCell y) = y) as ->
        by (apply normalizeCell_stable; [apply trim_idem | exact Hp]).
    now apply emptyCell_truthy.
  - intros _. rewrite falsy_stable by now apply emptyCell_falsy_out.
    apply emptyCell_idem.
Qed.

Lemma get_rawRow (R : gmap string string) (k : string) :
  get (rawRow R) k = VUndefined \/ exists s, R !! k = Some s /\ get (rawRow R) k = VString s.
Proof.
  unfold get, rawRow. rewrite lookup_fmap. destruct (R !! k); simpl; eauto.
Qed.

Lemma rawRow_cleanable (R : gmap string string) : cleanable (rawRow R) = true.
Proof.
  unfold cleanable. apply forallb_forall. intros k _.
  destruct (get_rawRow R k) as [->|(s & _ & ->)]; reflexivity.
Qed.

(** A cell of the cleaned row: absent, or the image of the raw cell. *)
Lemma get_cleaned (R : gmap string string) (k : string) :
  let pt := get (mappedCells (rawRow R)) "propertyType" in
  get (cleanCells (rawRow R)) k = VUndefined
  \/ exists s, R !! k = Some s
               /\ get (cleanCells (rawRow R)) k = cellOf pt k (VString s).
Proof.
  intros pt. unfold get. rewrite cleanCells_lookup. unfold rawRow.
  rewrite lookup_fmap. destruct (R !! k) as [s|]; simpl; eauto.
Qed.

(** The property type after mapping: absent, or an enum cell. *)
Lemma mapped_propertyType (R : gmap string string) :
  get (mappedCells (rawRow R)) "propertyType" = VUndefined
  \/ exists s, get (mappedCells (rawRow R)) "propertyType"
               = normalizeCell "propertyType" (VString (trim s)).
Proof.
  rewrite get_mappedCells.
  destruct (get_rawRow R "propertyType") as [->|(s & _ & ->)]; [now left|].
  right. now exists s.
Qed.

Lemma cleaned_passes_other (R : gmap string string) (k : string) :
  k <> "status" -> k <> "source" -> k <> "timeline" -> k <> "purpose" ->
  k <> "bhk" -> k <> "propertyType" -> k <> "city" -> k <> "tags" ->
  k <> "budgetMax" -> k <> "budgetMin" -> k <> "email" -> k <> "phone" ->
  passes (get (cleanCells (rawRow R)) k) = true.
Proof.
  intros. destruct (get_cleaned R k) as [->|(s & _ & ->)]; [reflexivity|].
  unfold cellOf. rewrite normalizeCell_other by assumption. simpl trimCell.
  destruct (emptyCell_kind (get (mappedCells (rawRow R)) "propertyType") k
              (VString (trim s))) as [->|[->| ->]]; reflexivity.
Qed.

Lemma cleaned_passes (R : gmap string string) (k : string) :
  cleanable (cleanCells (rawRow R)) = true ->
  passes (get (cleanCells (rawRow R)) k) = true.
Proof.
  intros H. unfold cleanable in H. rewrite forallb_forall in H.
  by_key k; try (apply H; vm_compute; tauto).
  now apply cleaned_passes_other.
Qed.

(** On a cleaned row that the steps accept, the cell-wise reading of
    [cleanRowData] is the identity. *)
Lemma cleanCells_idem (R : gmap string string) :
  cleanable (cleanCells (rawRow R)) = true ->
  cleanCells (cleanCells (rawRow R)) = cleanCells (rawRow R).
Proof.
  intros Hc.
  pose proof (get_cleanCells_propertyType (rawRow R)) as Hg.
  assert (Hpt : get (mappedCells (cleanCells (rawRow R))) "propertyType"
                = get (mappedCells (rawRow R)) "propertyType").
  { rewrite get_mappedCells, Hg.
    pose proof (cleaned_passes R "propertyType" Hc) as Hp. rewrite Hg in Hp.
    destruct (mapped_propertyType R) as [E|(s & E)].
    - rewrite E. reflexivity.
    - rewrite E in *. apply normalizeCell_stable; [apply trim_idem | exact Hp]. }
  apply map_eq. intros k. rewrite cleanCells_lookup, Hpt.
  pose proof (cleaned_passes R k Hc) as Hp. unfold get in Hp.
  rewrite cleanCells_lookup in Hp |- *.
  unfold rawRow in Hp |- *. rewrite lookup_fmap in Hp |- *.
  destruct (R !! k) as [s|]; simpl in *; [|reflexivity].
  f_equal. now apply cellOf_idem.
Qed.

End CleanIdempotence.

Section CleanClaim.
Import JsString CSVDataCleaner Normalized.

Lemma passes_emptyCell (pt : value) (k : string) (y : value) :
  passes y = true -> passes (emptyCell pt k y) = true.
Proof.
  intros H. destruct (emptyCell_kind pt k y) as [->|[->| ->]]; auto.
Qed.

Lemma cleaned_phone (R : gmap string string) :
  passes (get (cleanCells (rawRow R)) "phone") = true.
Proof.
  destruct (get_cleaned R "phone") as [->|(s & _ & ->)]; [reflexivity|].
  apply passes_emptyCell. simpl trimCell.
  change (normalizeCell "phone" ?v) with (phoneCell v).
  unfold phoneCell. destruct (Value.truthy _); [|reflexivity].
  now destruct (cleanPhoneNumber _).
Qed.

Lemma cleaned_email (R : gmap string string) :
  passes (get (cleanCells (rawRow R)) "email") = true.
Proof.
  destruct (get_cleaned R "email") as [->|(s & _ & ->)]; [reflexivity|].
  apply passes_emptyCell. simpl trimCell.
  change (normalizeCell "email" ?v) with (emailCell v).
  unfold emailCell. destruct (Value.truthy _); [|reflexivity].
  destruct (cleanEmail _) as [e|]; [|reflexivity]. now destruct (isEmpty e).
Qed.

Lemma cleaned_budget (R : gmap string string) (k : string) :
  k = "budgetMin" \/ k = "budgetMax" ->
  passes (get (cleanCells (rawRow R)) k)
  = negb (Value.truthy (get (cleanCells (rawRow R)) k)).
Proof.
  intros Hk. destruct (get_cleaned R k) as [->|(s & _ & ->)]; [reflexivity|].
  unfold cellOf. simpl trimCell.
  assert (normalizeCell k (VString (trim s)) = budgetCell (VString (trim s))) as ->
      by (destruct Hk as [-> | ->]; reflexivity).
  destruct (budgetCell_shape (trim s)) as [E|[E|(x & E)]]; rewrite E;
    destruct Hk as [-> | ->]; reflexivity.
Qed.

Lemma cleaned_tags (R : gmap string string) :
  passes (get (cleanCells (rawRow R)) "tags")
  = negb (Value.truthy (get (cleanCells (rawRow R)) "tags")).
Proof.
  destruct (get_cleaned R "tags") as [->|(s & _ & ->)]; [reflexivity|].
  unfold cellOf. simpl trimCell.
  change (normalizeCell "tags" ?v) with (tagsCell v).
  destruct (tagsCell_shape (trim s)) as [E|(items & E)]; rewrite E; reflexivity.
Qed.

Lemma cleaned_enum (R : gmap string string) (f : EnumField) :
  passes (get (cleanCells (rawRow R)) (fieldName f))
  = negb (isObject (get (cleanCells (rawRow R)) (fieldName f))).
Proof.
  destruct (get_cleaned R (fieldName f)) as [->|(s & _ & ->)]; [reflexivity|].
  unfold cellOf. simpl trimCell. rewrite normalizeCell_enum.
  destruct (enumCell_kind f (trim s)) as [H|H].
  - destruct (emptyCell_kind (get (mappedCells (rawRow R)) "propertyType")
                (fieldName f) (enumCell f (VString (trim s)))) as [->|[->| ->]];
      try reflexivity.
    now destruct (enumCell f (VString (trim s))).
  - rewrite emptyCell_truthy by now destruct (enumCell f (VString (trim s))).
    now destruct (enumCell f (VString (trim s))).
Qed.

Lemma cleanable_rerunnable (R : gmap string string) :
  cleanable (cleanCells (rawRow R)) = rerunnable (cleanCells (rawRow R)).
Proof.
  pose proof (cleaned_phone R) as P1.
  pose proof (cleaned_email R) as P2.
  pose proof (cleaned_budget R "budgetMin" (or_introl eq_refl)) as P3.
  pose proof (cleaned_budget R "budgetMax" (or_intror eq_refl)) as P4.
  pose proof (cleaned_tags R) as P5.
  pose proof (cleaned_enum R city) as H1.
  pose proof (cleaned_enum R propertyType) as H2.
  pose proof (cleaned_enum R bhk) as H3.
  pose proof (cleaned_enum R purpose) as H4.
  pose proof (cleaned_enum R timeline) as H5.
  pose proof (cleaned_enum R source) as H6.
  pose proof (cleaned_enum R status) as H7.
  cbv [fieldName] in H1, H2, H3, H4, H5, H6, H7.
  cbv [cleanable rerunnable handledKeys enumFields List.forallb List.map app fieldName].
  rewrite P1, P2, P3, P4, P5, H1, H2, H3, H4, H5, H6, H7.
  clear.
  generalize (Value.truthy (get (cleanCells (rawRow R)) "budgetMin")),
             (Value.truthy (get (cleanCells (rawRow R)) "budgetMax")),
             (Value.truthy (get (cleanCells (rawRow R)) "tags")),
             (isObject (get (cleanCells (rawRow R)) "city")),
             (isObject (get (cleanCells (rawRow R)) "propertyType")),
             (isObject (get (cleanCells (rawRow R)) "bhk")),
             (isObject (get (cleanCells (rawRow R)) "purpose")),
             (isObject (get (cleanCells (rawRow R)) "timeline")),
             (isObject (get (cleanCells (rawRow R)) "source")),
             (isObject (get (cleanCells (rawRow R)) "status")).
  intros b1 b2 b3 b4 b5 b6 b7 b8 b9 b10.
  destruct b1; [reflexivity|]. destruct b2; [reflexivity|].
  destruct b3; [reflexivity|]. destruct b4; [reflexivity|].
  destruct b5; [reflexivity|]. destruct b6; [reflexivity|].
  destruct b7; [reflexivity|]. destruct b8; [reflexivity|].
  destruct b9; [reflexivity|]. destruct b10; reflexivity.
Qed.

(** C1, as amended.  On every raw row the normalizer returns a cleaned
    row.  Cleaning that row again returns it unchanged whenever it holds
    no truthy number in a budget cell, no array in the tags cell and no
    object in an enum cell; in every other case the second run throws a
    [TypeError]. *)
Theorem clean_idempotent_when_rerunnable (R : gmap string string) :
  exists c,
    cleanRowData (rawRow R) = Ok c
    /\ (rerunnable c = true -> cleanRowData c = Ok c)
    /\ (rerunnable c = false -> exists msg, cleanRowData c = Throw (TypeError msg)).
Proof.
  exists (cleanCells (rawRow R)). split; [|split].
  - apply cleanRowData_spec, rawRow_cleanable.
  - intros H. rewrite <- cleanable_rerunnable in H.
    rewrite (proj1 (cleanRowData_spec _) H). f_equal. now apply cleanCells_idem.
  - intros H. rewrite <- cleanable_rerunnable in H. now apply cleanRowData_spec.
Qed.

Lemma clean_idempotent_witness :
  exists c, cleanRowData (rawRow looseRow) = Ok c /\ cleanRowData c = Ok c.
Proof.
  destruct (clean_idempotent_when_rerunnable looseRow) as (c & H1 & H2 & _).
  exists c. split; [exact H1|]. apply H2.
  pose proof (proj1 (cleanRowData_spec (rawRow looseRow)) (rawRow_cleanable looseRow)) as E.
  rewrite E in H1. apply Ok_inj in H1. subst c. vm_compute. reflexivity.
Defined.

(** C1 as stated fails: the first run on the sample row returns, with the
    budget as a number; the second run then throws. *)
Lemma clean_twice_throws :
  (cleanRowData (rawRow sampleRow) ≫= fun c => Ok (get c "budgetMin"))
  = Ok (VNumber (JsNumber.ofZ 5000000))
  /\ (cleanRowData (rawRow sampleRow) ≫= cleanRowData)
     = Throw (TypeError "budget.trim is not a function").
Proof. split; vm_compute; reflexivity. Qed.

End CleanClaim.

(** ** The row validator *)

Section ValidatorFacts.
Import JsString CSVDataCleaner CSVRowValidator Normalized RowRule.

Lemma passes_cases (v : value) :
  passes v = true ->
  Value.truthy v = false \/ exists s, v = VString s /\ Value.truthy v = true.
Proof.
  unfold passes. destruct (Value.truthy v) eqn:Ht; [|now left].
  rewrite orb_false_r. destruct v; try discriminate. right; eauto.
Qed.

Lemma not_passes (v : value) :
  passes v = false -> Value.truthy v = true /\ Value.isString v = false.
Proof.
  unfold passes. destruct (Value.truthy v), (Value.isString v); simpl; try discriminate.
  auto.
Qed.

Lemma cleanPhoneNumber_string (s : string) : exists p, cleanPhoneNumber (VString s) = Ok p.
Proof.
  unfold cleanPhoneNumber. destruct (negb _); [eauto|].
  unfold Value.stringMethod. rewrite bind_Ok. destruct (_ && _); eauto.
Qed.

Lemma phoneErrors_spec (r : Row) :
  (passes (get r "phone") = true -> exists es, phoneErrors r = Ok es)
  /\ (passes (get r "phone") = false ->
      phoneErrors r = Throw (TypeError "phone.replace is not a function")).
Proof.
  unfold phoneErrors. split; intros H.
  - destruct (passes_cases _ H) as [Hf|(s & Hs & Ht)].
    + rewrite Hf. eauto.
    + rewrite Ht, Hs. destruct (cleanPhoneNumber_string s) as (p & ->).
      rewrite bind_Ok. destruct (_ || _); eauto.
  - destruct (not_passes _ H) as [Ht Hs]. rewrite Ht.
    unfold cleanPhoneNumber. rewrite Ht. simpl negb. cbv iota.
    now rewrite stringMethod_throw.
Qed.

(** What one turn of the enum loop can push. *)
Lemma enumCheck_spec (r : Row) (f : EnumField) :
  (passes (get r (fieldName f)) = true ->
   enumCheck r f = Ok ([], [])
   \/ (Value.truthy (get r (fieldName f)) = true
       /\ validIncludes f (get r (fieldName f)) = false
       /\ (enumCheck r f = Ok ([enumError f (get r (fieldName f))], [])
           \/ exists suggestion,
               enumCheck r f = Ok ([], [mappedWarning f (get r (fieldName f)) suggestion]))))
  /\ (passes (get r (fieldName f)) = false ->
      enumCheck r f = Throw (TypeError "value.trim is not a function")).
Proof.
  unfold enumCheck. split; intros H.
  - destruct (passes_cases _ H) as [Hf|(s & Hs & Ht)].
    + rewrite Hf. now left.
    + rewrite Ht. destruct (validIncludes f (get r (fieldName f))) eqn:Hv; [now left|].
      right. split; [reflexivity|]. split; [reflexivity|]. simpl andb. cbv iota.
      rewrite Hs. destruct (mapEnumValue_string f s) as (m & ->). rewrite bind_Ok.
      destruct (Value.truthy m); eauto.
  - destruct (not_passes _ H) as [Ht Hs]. rewrite Ht.
    assert (validIncludes f (get r (fieldName f)) = false) as ->
        by (destruct (get r (fieldName f)); try reflexivity; discriminate).
    simpl andb. cbv iota. unfold mapEnumValue. rewrite Ht. simpl negb. cbv iota.
    now rewrite stringMethod_throw.
Qed.

Lemma enumChecks_ok (r : Row) (fs : list EnumField) :
  List.forallb (fun f => passes (get r (fieldName f))) fs = true ->
  exists es ws,
    enumChecks r fs = Ok (es, ws)
    /\ List.Forall
         (fun e => exists f, In f fs /\ e = enumError f (get r (fieldName f))
                             /\ validIncludes f (get r (fieldName f)) = false) es
    /\ List.Forall
         (fun w => exists f suggestion,
              In f fs /\ w = mappedWarning f (get r (fieldName f)) suggestion
              /\ validIncludes f (get r (fieldName f)) = false) ws.
Proof.
  induction fs as [|f fs IH]; intros H.
  - exists [], []. simpl. auto.
  - simpl in H. apply andb_prop in H as [Hf Hfs].
    destruct (IH Hfs) as (es & ws & E & He & Hw).
    assert (Hes : List.Forall
         (fun e => exists f0, In f0 (f :: fs) /\ e = enumError f0 (get r (fieldName f0))
                              /\ validIncludes f0 (get r (fieldName f0)) = false) es).
    { eapply List.Forall_impl; [|exact He]. intros e (f0 & ? & ? & ?).
      exists f0. simpl. auto. }
    assert (Hws : List.Forall
         (fun w => exists f0 suggestion,
              In f0 (f :: fs) /\ w = mappedWarning f0 (get r (fieldName f0)) suggestion
              /\ validIncludes f0 (get r (fieldName f0)) = false) ws).
    { eapply List.Forall_impl; [|exact Hw]. intros w (f0 & sg & ? & ? & ?).
      exists f0, sg. simpl. auto. }
    simpl enumChecks.
    destruct (proj1 (enumCheck_spec r f) Hf) as [E1|(Ht & Hv & [E1|(sg & E1)])];
      rewrite E1, bind_Ok; cbv beta iota; rewrite E, bind_Ok; cbv beta iota.
    + exists es, ws. auto.
    + exists (enumError f (get r (fieldName f)) :: es), ws.
      split; [reflexivity|]. split; [|exact Hws].
      constructor; [|exact Hes]. exists f. simpl. auto.
    + exists es, (mappedWarning f (get r (fieldName f)) sg :: ws).
      split; [reflexivity|]. split; [exact Hes|].
      constructor; [|exact Hws]. exists f, sg. simpl. auto.
Qed.

Lemma enumChecks_throw (r : Row) (fs : list EnumField) :
  List.forallb (fun f => passes (get r (fieldName f))) fs = false ->
  enumChecks r fs = Throw (TypeError "value.trim is not a function").
Proof.
  induction fs as [|f fs IH]; intros H; [discriminate|].
  simpl in H. simpl enumChecks.
  destruct (passes (get r (fieldName f))) eqn:Hf.
  - simpl in H. rewrite (IH H).
    destruct (proj1 (enumCheck_spec r f) Hf) as [E1|(Ht & Hv & [E1|(sg & E1)])];
      rewrite E1; reflexivity.
  - now rewrite (proj2 (enumCheck_spec r f) Hf).
Qed.

Lemma bhkRule_row (r : Row) : fst (fst (bhkRule r)) = afterValidation r.
Proof.
  unfold bhkRule, afterValidation, autoFix, isPlotLike.
  destruct (bool_decide (get r "propertyType" = VString "Apartment")) eqn:E1.
  { apply bool_decide_eq_true_1 in E1. rewrite E1. simpl.
    now destruct (negb _ || _). }
  destruct (bool_decide (get r "propertyType" = VString "Villa")) eqn:E2.
  { apply bool_decide_eq_true_1 in E2. rewrite E2. simpl.
    now destruct (negb _ || _). }
  simpl orb. cbv iota.
  destruct (_ || _ || _); simpl; [|reflexivity].
  now destruct (Value.truthy (get r "bhk") && negb (bool_decide (get r "bhk" = VNull))).
Qed.

Lemma get_afterValidation (r : Row) (k : string) :
  k <> "bhk" -> get (afterValidation r) k = get r k.
Proof.
  intros H. unfold afterValidation. destruct (autoFix r); [|reflexivity].
  now rewrite get_insert_ne.
Qed.

(** The anatomy of a returned validation. *)
Lemma validateRow_anatomy (r r' : Row) (res : ValidationResult) :
  validateRow r = Ok (r', res) ->
  exists errs2 errs4 warns4,
    phoneErrors r = Ok errs2
    /\ enumChecks r enumValidations = Ok (errs4, warns4)
    /\ r' = afterValidation r
    /\ errors res
       = List.concat (List.map (requiredError r) requiredFields) ++ errs2
         ++ emailErrors r ++ errs4 ++ snd (fst (bhkRule r)) ++ budgetErrors r
         ++ notesErrors r ++ nameErrors r
    /\ warnings res = warns4 ++ snd (bhkRule r)
    /\ isValid res = (List.length (errors res) =? 0)%nat.
Proof.
  unfold validateRow. intros H.
  destruct (phoneErrors r) as [errs2|] eqn:E2; [|discriminate].
  rewrite bind_Ok in H.
  destruct (enumChecks r enumValidations) as [[errs4 warns4]|] eqn:E4; [|discriminate].
  rewrite bind_Ok in H. cbv beta iota in H.
  pose proof (bhkRule_row r) as Hrow.
  destruct (bhkRule r) as [[row' errs5] warns5]. simpl in Hrow. subst row'.
  unfold budgetErrors, notesErrors, nameErrors in H.
  rewrite !get_afterValidation in H by discriminate.
  injection H as <- <-.
  exists errs2, errs4, warns4. simpl. auto 10.
Qed.

Lemma validateRow_returns (r : Row) :
  validatable r = true -> exists res, validateRow r = Ok (afterValidation r, res).
Proof.
  unfold validatable. intros [Hp He]%andb_prop.
  destruct (proj1 (phoneErrors_spec r) Hp) as (errs2 & E2).
  destruct (enumChecks_ok r _ He) as (errs4 & warns4 & E4 & _).
  unfold validateRow. rewrite E2, bind_Ok, E4, bind_Ok. cbv beta iota.
  pose proof (bhkRule_row r) as Hrow.
  destruct (bhkRule r) as [[row' errs5] warns5]. simpl in Hrow. subst row'.
  eauto.
Qed.

Lemma validateRow_throws (r : Row) :
  validatable r = false -> exists msg, validateRow r = Throw (TypeError msg).
Proof.
  unfold validatable, validateRow. intros H.
  destruct (passes (get r "phone")) eqn:Hp.
  - rewrite andb_true_l in H. destruct (proj1 (phoneErrors_spec r) Hp) as (errs2 & ->).
    rewrite bind_Ok, (enumChecks_throw r _ H). eauto.
  - rewrite (proj2 (phoneErrors_spec r) Hp). eauto.
Qed.

End ValidatorFacts.

Section ValidatorMessages.
Import JsString CSVDataCleaner CSVRowValidator Normalized RowRule.

Lemma Forall_concat_map {A B} (P : B -> Prop) (g : A -> list B) (xs : list A) :
  (forall x, In x xs -> List.Forall P (g x)) ->
  List.Forall P (List.concat (List.map g xs)).
Proof.
  induction xs as [|x xs IH]; intros H; simpl; [constructor|].
  apply List.Forall_app. split; [apply H; now left | apply IH; intros; apply H; now right].
Qed.

Lemma required_kind (r : Row) :
  List.Forall (errorKind r) (List.concat (List.map (requiredError r) requiredFields)).
Proof.
  apply Forall_concat_map. intros f Hf.
  destruct (requiredError r f) as [|e es] eqn:E; [constructor|].
  assert (e = f +:+ " is required" /\ es = []) as [-> ->].
  { unfold requiredError in E. destruct (_ || _); [|discriminate]. now injection E. }
  constructor; [|constructor]. apply EkRequired; [exact Hf|]. rewrite E. discriminate.
Qed.

Lemma phone_kind (r : Row) (es : list string) :
  phoneErrors r = Ok es -> List.Forall (errorKind r) es.
Proof.
  unfold phoneErrors. destruct (Value.truthy _); [|intros [= <-]; constructor].
  destruct (cleanPhoneNumber _) as [p|]; [|discriminate]. rewrite bind_Ok.
  destruct (_ || _); intros [= <-]; repeat constructor.
Qed.

Lemma email_kind (r : Row) : List.Forall (errorKind r) (emailErrors r).
Proof.
  unfold emailErrors. destruct (_ && _); [|constructor].
  destruct (negb _); repeat constructor.
Qed.

Lemma bhk_kind (r : Row) :
  List.Forall (errorKind r) (snd (fst (bhkRule r)))
  /\ List.Forall (warningKind r) (snd (bhkRule r)).
Proof.
  unfold bhkRule.
  destruct (_ || _).
  { destruct (_ || _); simpl; split; repeat constructor. }
  destruct (isPlotLike _); [|simpl; split; constructor].
  destruct (_ && _); simpl; split; repeat constructor.
Qed.

Lemma budget_kind (r : Row) : List.Forall (errorKind r) (budgetErrors r).
Proof.
  unfold budgetErrors.
  destruct (Value.truthy (get r "budgetMin") && Value.truthy (get r "budgetMax")) eqn:E;
    [|constructor].
  destruct (Value.lessThan _ _) eqn:E'; [|constructor].
  constructor; [|constructor]. apply EkBudget. now rewrite E, E'.
Qed.

Lemma notes_kind (r : Row) : List.Forall (errorKind r) (notesErrors r).
Proof.
  unfold notesErrors. destruct (lengthOf _); [|constructor].
  destruct (_ && _); repeat constructor.
Qed.

Lemma name_kind (r : Row) : List.Forall (errorKind r) (nameErrors r).
Proof.
  unfold nameErrors. destruct (lengthOf _); [|constructor].
  destruct (_ && _); repeat constructor.
Qed.

(** Every message of a returned validation has one of the known origins. *)
Lemma validateRow_messages (r r' : Row) (res : ValidationResult) :
  validateRow r = Ok (r', res) ->
  List.Forall (errorKind r) (errors res) /\ List.Forall (warningKind r) (warnings res).
Proof.
  intros H. pose proof H as Hv.
  apply validateRow_anatomy in H as (errs2 & errs4 & warns4 & E2 & E4 & _ & -> & -> & _).
  assert (Hp : validatable r = true).
  { destruct (validatable r) eqn:Hb; [reflexivity|].
    destruct (validateRow_throws r Hb) as (msg & Hm). congruence. }
  apply andb_prop in Hp as [_ Hp].
  destruct (enumChecks_ok r _ Hp) as (es & ws & E & He & Hw).
  rewrite E in E4. injection E4 as <- <-.
  destruct (bhk_kind r) as [Hb1 Hb2].
  split.
  - rewrite !List.Forall_app.
    split; [apply required_kind|]. split; [eapply phone_kind, E2|].
    split; [apply email_kind|].
    split; [eapply List.Forall_impl; [|exact He];
            intros e (f & _ & -> & Hf); now apply EkEnum|].
    split; [exact Hb1|]. split; [apply budget_kind|].
    split; [apply notes_kind | apply name_kind].
  - apply List.Forall_app. split; [|exact Hb2].
    eapply List.Forall_impl; [|exact Hw]. intros w (f & sg & _ & -> & Hf). now apply WkMapped.
Qed.



End ValidatorMessages.

Section ValidatorClaims.
Import JsString CSVDataCleaner CSVRowValidator Normalized RowRule.

(** C3, as amended.  [validateRow] returns on every row whose phone and
    enum cells are strings or falsy, and throws a [TypeError] on the others.
    It leaves every cell other than [bhk] unchanged; it leaves [bhk]
    unchanged too unless the property type is Plot, Office or Retail and
    [bhk] is truthy, in which case it sets [bhk] to [null]. *)
Theorem validateRow_frame (r : Row) :
  (validatable r = true -> exists res, validateRow r = Ok (afterValidation r, res))
  /\ (validatable r = false -> exists msg, validateRow r = Throw (TypeError msg))
  /\ (forall r' res, validateRow r = Ok (r', res) -> r' = afterValidation r)
  /\ (forall k, k <> "bhk" -> afterValidation r !! k = r !! k)
  /\ (autoFix r = false -> afterValidation r = r)
  /\ (autoFix r = true ->
      afterValidation r !! "bhk" = Some VNull /\ get r "bhk" <> VNull).
Proof.
  split; [apply validateRow_returns|]. split; [apply validateRow_throws|].
  split; [|split; [|split]].
  - intros r' res H. now apply validateRow_anatomy in H as (? & ? & ? & _ & _ & -> & _).
  - intros k Hk. unfold afterValidation. destruct (autoFix r); [|reflexivity].
    now rewrite lookup_insert_ne.
  - intros H. unfold afterValidation. now rewrite H.
  - intros H. unfold afterValidation. rewrite H. split; [apply lookup_insert_eq|].
    unfold autoFix in H. apply andb_prop in H as [_ H].
    apply negb_true_iff, bool_decide_eq_false_1 in H. exact H.
Qed.

Lemma validateRow_frame_witness :
  exists res,
    validateRow (rawRow plotRow) = Ok (afterValidation (rawRow plotRow), res).
Proof.
  destruct (validateRow_frame (rawRow plotRow)) as (H & _).
  apply H. vm_compute. reflexivity.
Defined.

(** C3 as stated fails: on a cleaned plot row with a BHK value the call
    overwrites [bhk]. *)
Lemma validateRow_overwrites_bhk :
  (cleanRowData (rawRow plotRow) ≫= fun c =>
     validateRow c ≫= fun out => Ok (get c "bhk", get (fst out) "bhk"))
  = Ok (VString "Two", VNull).
Proof. vm_compute. reflexivity. Qed.




Lemma city_head (r : Row) (e : string) :
  get r "city" = VString "Chandigarh" ->
  errorKind r e -> JsString.startsWith e "city " = false.
Proof.
  intros Hc K. destruct K as [f Hf Hne|p| |f Hf| |_|n|n]; try reflexivity.
  - simpl in Hf.
    destruct Hf as [<-|[<-|[<-|[<-|[<-|[<-|[<-|[]]]]]]]]; try reflexivity.
    exfalso. apply Hne. unfold requiredError. now rewrite Hc.
  - destruct f; try reflexivity. simpl fieldName in Hf. rewrite Hc in Hf. discriminate.
Qed.

Lemma city_warning_head (r : Row) (w : string) :
  get r "city" = VString "Chandigarh" ->
  warningKind r w -> JsString.startsWith w "city " = false.
Proof.
  intros Hc K. destruct K as [f sg Hf|]; [|reflexivity].
  destruct f; try reflexivity. simpl fieldName in Hf. rewrite Hc in Hf. discriminate.
Qed.

(** C4, as the code behaves.  A raw city cell [chd] is cleaned to
    Chandigarh, and validating the cleaned row records no error and no
    warning about the city: the mapping is silent. *)
Theorem chd_is_mapped_silently (R : gmap string string) :
  R !! "city" = Some "chd" ->
  exists c,
    cleanRowData (rawRow R) = Ok c
    /\ get c "city" = VString "Chandigarh"
    /\ forall c' res,
         validateRow c = Ok (c', res) ->
         List.Forall (fun e => JsString.startsWith e "city " = false) (errors res)
         /\ List.Forall (fun w => JsString.startsWith w "city " = false) (warnings res).
Proof.
  intros HR. exists (cleanCells (rawRow R)).
  assert (Hc : get (cleanCells (rawRow R)) "city" = VString "Chandigarh").
  { unfold get. rewrite cleanCells_lookup. unfold rawRow. rewrite lookup_fmap, HR.
    simpl. unfold cellOf.
    change (normalizeCell "city" (trimCell (VString "chd"))) with (VString "Chandigarh").
    now apply emptyCell_truthy. }
  split; [apply cleanRowData_spec, rawRow_cleanable|]. split; [exact Hc|].
  intros c' res H. destruct (validateRow_messages _ _ _ H) as [He Hw].
  split; (eapply List.Forall_impl; [|eassumption]); intros m K.
  - now apply (city_head _ _ Hc).
  - now apply (city_warning_head _ _ Hc).
Qed.

Lemma chd_is_mapped_silently_witness :
  exists c,
    cleanRowData (rawRow chdRow) = Ok c /\ get c "city" = VString "Chandigarh".
Proof.
  destruct (chd_is_mapped_silently chdRow) as (c & H1 & H2 & _); [reflexivity|].
  exists c. split; assumption.
Defined.

End ValidatorClaims.

(** ** The orchestrator *)

Section ImportFacts.
Import JsString CSVImportService ImportRun.
Local Open Scope nat_scope.

Lemma merge_assoc (a b c : ImportResult) : merge (merge a b) c = merge a (merge b c).
Proof.
  unfold merge. cbn [success totalRows successfulImports failedImports errors warnings].
  now rewrite !Nat.add_assoc, !List.app_assoc.
Qed.

Lemma processRow_merge (o : string) (i : nat) (r : Row) (res : ImportResult) (vr : list Row) :
  processRow o i r (res, vr)
  = (merge res (fst (processRow o i r (emptyResult, []))),
     vr ++ snd (processRow o i r (emptyResult, []))).
Proof.
  unfold processRow.
  destruct (cleanRowData r) as [c|e]; rewrite ?bind_Ok, ?bind_Throw.
  - destruct (CSVRowValidator.validateRow c) as [[c' v]|e]; rewrite ?bind_Ok, ?bind_Throw.
    + destruct (CSVRowValidator.isValid v && fst (BuyerValidators.validateCSVRow c')).
      * unfold merge, pushWarnings, emptyResult.
        cbn [fst snd success totalRows successfulImports failedImports errors warnings app].
        now rewrite ?Nat.add_1_r, ?Nat.add_0_r, ?List.app_nil_r.
      * unfold merge, pushWarnings, pushError, emptyResult.
        cbn [fst snd success totalRows successfulImports failedImports errors warnings app].
        now rewrite ?Nat.add_1_r, ?Nat.add_0_r, ?List.app_nil_r.
    + unfold merge, pushError, emptyResult.
      cbn [fst snd success totalRows successfulImports failedImports errors warnings app].
      now rewrite ?Nat.add_1_r, ?Nat.add_0_r, ?List.app_nil_r.
  - unfold merge, pushError, emptyResult.
    cbn [fst snd success totalRows successfulImports failedImports errors warnings app].
    now rewrite ?Nat.add_1_r, ?Nat.add_0_r, ?List.app_nil_r.
Qed.

Lemma processRows_merge (o : string) (rows : list Row) :
  forall (i : nat) (res : ImportResult) (vr : list Row),
    processRows o i rows (res, vr)
    = (merge res (fst (rowsOutcome o i rows)), vr ++ snd (rowsOutcome o i rows)).
Proof.
  unfold rowsOutcome. induction rows as [|r rest IH]; intros i res vr.
  - cbn [processRows fst snd]. unfold merge, emptyResult.
    cbn [success totalRows successfulImports failedImports errors warnings].
    rewrite !Nat.add_0_r, !List.app_nil_r. now destruct res.
  - cbn [processRows]. rewrite (processRow_merge o i r res vr), IH.
    rewrite (surjective_pairing (processRow o i r (emptyResult, []))) at 3 4.
    rewrite (IH (S i) (fst _) (snd _)). cbn [fst snd].
    now rewrite merge_assoc, List.app_assoc.
Qed.

Lemma rowsOutcome_cons (o : string) (i : nat) (r : Row) (rest : list Row) :
  rowsOutcome o i (r :: rest)
  = (merge (fst (processRow o i r (emptyResult, []))) (fst (rowsOutcome o (S i) rest)),
     snd (processRow o i r (emptyResult, [])) ++ snd (rowsOutcome o (S i) rest)).
Proof.
  unfold rowsOutcome at 1. cbn [processRows].
  rewrite (surjective_pairing (processRow o i r (emptyResult, []))) at 1.
  apply processRows_merge.
Qed.

(** One turn of the loop on a fresh result: the row is staged and counted
    as imported, or it leaves one error under its row number. *)
Lemma processRow_fresh (o : string) (i : nat) (r : Row) :
  exists ws : list string,
    warnings (fst (processRow o i r (emptyResult, []))) = map (rowPrefix (i + 2)) ws
    /\ ((exists s,
          snd (processRow o i r (emptyResult, [])) = [s]
          /\ successfulImports (fst (processRow o i r (emptyResult, []))) = 1
          /\ failedImports (fst (processRow o i r (emptyResult, []))) = 0
          /\ errors (fst (processRow o i r (emptyResult, []))) = [])
        \/ (exists es,
          snd (processRow o i r (emptyResult, [])) = []
          /\ successfulImports (fst (processRow o i r (emptyResult, []))) = 0
          /\ failedImports (fst (processRow o i r (emptyResult, []))) = 1
          /\ errors (fst (processRow o i r (emptyResult, [])))
             = [{| row := i + 2; rowErrors := es; rowData := RowData r |}])).
Proof.
  unfold processRow.
  destruct (cleanRowData r) as [c|e]; rewrite ?bind_Ok, ?bind_Throw.
  - destruct (CSVRowValidator.validateRow c) as [[c' v]|e]; rewrite ?bind_Ok, ?bind_Throw.
    + exists (CSVRowValidator.warnings v).
      destruct (CSVRowValidator.isValid v && fst (BuyerValidators.validateCSVRow c')).
      * split; [reflexivity|]. left. eexists. repeat split.
      * split; [reflexivity|]. right. eexists. repeat split.
    + exists []. split; [reflexivity|]. right. eexists. repeat split.
  - exists []. split; [reflexivity|]. right. eexists. repeat split.
Qed.

Lemma rowsOutcome_counts (o : string) (rows : list Row) :
  forall i : nat,
    successfulImports (fst (rowsOutcome o i rows)) = List.length (snd (rowsOutcome o i rows))
    /\ successfulImports (fst (rowsOutcome o i rows))
       + failedImports (fst (rowsOutcome o i rows)) = List.length rows
    /\ List.length (errors (fst (rowsOutcome o i rows)))
       = failedImports (fst (rowsOutcome o i rows)).
Proof.
  induction rows as [|r rest IH]; intros i; [repeat split|].
  rewrite rowsOutcome_cons. destruct (IH (S i)) as (H1 & H2 & H3).
  cbn [fst snd merge successfulImports failedImports errors List.length].
  rewrite !List.length_app, H3, <- H1.
  destruct (processRow_fresh o i r) as (ws & _ & [(s & -> & -> & -> & ->)|(es & -> & -> & -> & ->)]);
    cbn [List.length]; lia.
Qed.

Lemma ascending_weaken (lo lo' hi : nat) (l : list nat) :
  lo' <= lo -> ascending lo hi l -> ascending lo' hi l.
Proof. destruct l as [|x l]; [easy|]. cbn [ascending]. intros ? [? ?]. split; [lia | assumption]. Qed.

Lemma nondecreasing_weaken (lo lo' hi : nat) (l : list nat) :
  lo' <= lo -> nondecreasing lo hi l -> nondecreasing lo' hi l.
Proof. destruct l as [|x l]; [easy|]. cbn [nondecreasing]. intros ? [? ?]. split; [lia | assumption]. Qed.

Lemma ascending_widen (lo hi hi' : nat) (l : list nat) :
  hi <= hi' -> ascending lo hi l -> ascending lo hi' l.
Proof.
  intros Hh. revert lo. induction l as [|x l IH]; intros lo; [easy|].
  cbn [ascending]. intros [? ?]. split; [lia | now apply IH].
Qed.

Lemma ascending_lower (lo hi : nat) (l : list nat) :
  ascending lo hi l -> Forall (fun x => lo <= x) l.
Proof.
  revert lo. induction l as [|x l IH]; intros lo; [constructor|].
  cbn [ascending]. intros [? H]. constructor; [lia|].
  apply IH in H. eapply List.Forall_impl; [|exact H]. cbn. intros. lia.
Qed.

Lemma ascending_rows {A} (f : A -> nat) (lo hi : nat) (l : list A) :
  ascending lo hi (map f l) -> Forall (fun e => lo <= f e) l.
Proof. intros H. apply ascending_lower in H. now rewrite List.Forall_map in H. Qed.

(** The errors of the loop come in strictly increasing row numbers. *)
Lemma rowsOutcome_errors (o : string) (rows : list Row) :
  forall i : nat,
    ascending (i + 2) (i + 2 + List.length rows)
              (map row (errors (fst (rowsOutcome o i rows)))).
Proof.
  induction rows as [|r rest IH]; intros i; [exact I|].
  rewrite rowsOutcome_cons. specialize (IH (S i)).
  cbn [fst merge errors List.length]. rewrite List.map_app.
  replace (i + 2 + S (List.length rest)) with (S i + 2 + List.length rest) by lia.
  destruct (processRow_fresh o i r) as (ws & _ & [(s & _ & _ & _ & ->)|(es & _ & _ & _ & ->)]).
  - cbn [map app]. apply (ascending_weaken (S i + 2)); [lia | exact IH].
  - cbn [map app row ascending]. split; [lia | exact IH].
Qed.

Lemma rowsOutcome_rowData (o : string) (rows : list Row) :
  forall i : nat,
    Forall (fun e => exists raw, rowData e = RowData raw)
           (errors (fst (rowsOutcome o i rows))).
Proof.
  induction rows as [|r rest IH]; intros i; [constructor|].
  rewrite rowsOutcome_cons. cbn [fst merge errors]. apply List.Forall_app. split; [|apply IH].
  destruct (processRow_fresh o i r) as (ws & _ & [(s & _ & _ & _ & ->)|(es & _ & _ & _ & ->)]).
  - constructor.
  - constructor; [now eexists | constructor].
Qed.

Lemma nondecreasing_widen (lo hi hi' : nat) (l : list nat) :
  hi <= hi' -> nondecreasing lo hi l -> nondecreasing lo hi' l.
Proof.
  intros Hh. revert lo. induction l as [|x l IH]; intros lo; [easy|].
  cbn [nondecreasing]. intros [? ?]. split; [lia | now apply IH].
Qed.

Lemma nondecreasing_tagged (n lo hi : nat) (ws : list string) (l : list nat) :
  lo <= n < hi -> nondecreasing n hi l ->
  nondecreasing lo hi (map fst (map (pair n) ws) ++ l).
Proof.
  intros Hn Hl. revert lo Hn. induction ws as [|w ws IH]; intros lo Hn.
  - cbn [map app]. apply (nondecreasing_weaken n); [lia | exact Hl].
  - cbn [map app fst nondecreasing]. split; [exact Hn|]. apply IH. lia.
Qed.

(** The warnings of the loop carry their row numbers, which never decrease. *)
Lemma rowsOutcome_warnings (o : string) (rows : list Row) :
  forall i : nat,
    exists tg : list (nat * string),
      warnings (fst (rowsOutcome o i rows)) = map tagged tg
      /\ nondecreasing (i + 2) (i + 2 + List.length rows) (map fst tg).
Proof.
  induction rows as [|r rest IH]; intros i; [now exists []|].
  rewrite rowsOutcome_cons. destruct (IH (S i)) as (tg & Hw & Hn).
  destruct (processRow_fresh o i r) as (ws & Hws & _).
  exists (map (pair (i + 2)) ws ++ tg).
  cbn [fst merge warnings List.length]. rewrite Hws, Hw, !List.map_app, !List.map_map.
  split; [reflexivity|].
  rewrite <- (List.map_map (pair (i + 2)) fst).
  replace (i + 2 + S (List.length rest)) with (S i + 2 + List.length rest) by lia.
  apply nondecreasing_tagged; [lia|].
  apply (nondecreasing_weaken (S i + 2)); [lia | exact Hn].
Qed.

Lemma startsWith_append (p s : string) : startsWith (p +:+ s) p = true.
Proof.
  induction p as [|a p IH]; [now destruct s|].
  cbn [String.append startsWith]. now rewrite Ascii.eqb_refl, IH.
Qed.

Lemma tagged_head (w : nat * string) : startsWith (tagged w) "Row " = true.
Proof. unfold tagged, rowPrefix. apply startsWith_append. Qed.

Lemma capWarning_head (n : nat) : startsWith (capWarning n) "Row " = false.
Proof. reflexivity. Qed.

(** *** The parser's diagnostics *)

Lemma fixColumns_diag (i : nat) (line : string) (values : list string) (n : nat) :
  snd (CSVParser.fixColumns i line values n) = []
  \/ exists m, snd (CSVParser.fixColumns i line values n)
               = [{| pe_row := i + 1; pe_message := m; pe_rawData := Some line |}].
Proof.
  unfold CSVParser.fixColumns.
  destruct (negb (List.length values =? n)); [|now left].
  destruct (List.length values =? n - 1); [right; eexists; reflexivity|].
  destruct (n <? List.length values); right; eexists; reflexivity.
Qed.

Lemma parseLines_spec (headers : list string) (lines : list string) :
  forall (i : nat) (result : CSVParseResult),
    exists (D : list Row) (E : list ParseError),
      CSVParser.parseLines headers i lines result
      = {| data := data result ++ D; parseErrors := parseErrors result ++ E |}
      /\ ascending (i + 1) (i + 1 + List.length lines) (map pe_row E)
      /\ List.length D <= List.length lines
      /\ Forall (fun e => exists raw, pe_rawData e = Some raw) E.
Proof.
  induction lines as [|l rest IH]; intros i result.
  - exists [], []. rewrite !List.app_nil_r. destruct result.
    split; [reflexivity|]. split; [exact I|]. split; [cbn; lia | constructor].
  - cbn [CSVParser.parseLines].
    replace (i + 1 + List.length (l :: rest)) with (S i + 1 + List.length rest)
      by (cbn [List.length]; lia).
    destruct (isEmpty (trim l)).
    + destruct (IH (S i) result) as (D & E & -> & HE & HD & HR).
      exists D, E. split; [reflexivity|]. split; [|split].
      * apply (ascending_weaken (S i + 1)); [lia | exact HE].
      * cbn [List.length]. lia.
      * exact HR.
    + destruct (fixColumns_diag i (trim l) (CSVParser.parseCSVLine (trim l)) (List.length headers))
        as [Hd|(m & Hd)];
        destruct (CSVParser.fixColumns i (trim l) (CSVParser.parseCSVLine (trim l))
                                       (List.length headers)) as [values diag];
        cbn [snd] in Hd; subst diag;
        match goal with
        | |- context [CSVParser.parseLines headers (S i) rest ?R] =>
            destruct (IH (S i) R) as (D & E & -> & HE & HD & HR)
        end; cbn [data parseErrors].
      * exists (CSVParser.buildRow headers values ∅ :: D), E.
        rewrite <- !List.app_assoc. cbn [app]. split; [reflexivity|]. split; [|split].
        -- apply (ascending_weaken (S i + 1)); [lia | exact HE].
        -- cbn [List.length]. lia.
        -- exact HR.
      * eexists (CSVParser.buildRow headers values ∅ :: D), (_ :: E).
        rewrite <- !List.app_assoc. cbn [app]. split; [reflexivity|]. split; [|split].
        -- cbn [map pe_row ascending]. split; [lia|].
           replace (S (i + 1)) with (S i + 1) by lia. exact HE.
        -- cbn [List.length]. lia.
        -- constructor; [now eexists | exact HR].
Qed.

(** The parse either stops at the format check, with no data and one
    row-0 diagnostic, or its diagnostics come in strictly increasing row
    numbers from row 2 on. *)
Lemma parseCSV_cases (content : string) :
  (data (CSVParser.parseCSV content) = []
   /\ exists m, parseErrors (CSVParser.parseCSV content)
                = [{| pe_row := 0; pe_message := m; pe_rawData := None |}])
  \/ (exists hi,
        ascending 2 hi (map pe_row (parseErrors (CSVParser.parseCSV content)))
        /\ Forall (fun e => exists raw, pe_rawData e = Some raw)
                  (parseErrors (CSVParser.parseCSV content))).
Proof.
  unfold CSVParser.parseCSV. destruct (CSVParser.validateCSVFormat content) as [m|].
  - left. split; [reflexivity|]. now exists m.
  - right.
    match goal with
    | |- context [CSVParser.parseLines ?h 1 ?ls ?R] =>
        destruct (parseLines_spec h ls 1 R) as (D & E & -> & HE & _ & HR)
    end.
    eexists. cbn [parseErrors app]. split; [exact HE | exact HR].
Qed.

Lemma parseErrorEntry_row (E : list ParseError) :
  map row (map parseErrorEntry E) = map pe_row E.
Proof. rewrite List.map_map. reflexivity. Qed.

(** *** The orchestrator in closed form *)

Lemma fold_pushError (l : list RowError) :
  forall res : ImportResult,
    fold_left pushError l res
    = {| success := success res; totalRows := totalRows res;
         successfulImports := successfulImports res;
         failedImports := failedImports res;
         errors := errors res ++ l; warnings := warnings res |}.
Proof.
  induction l as [|e l IH]; intros res.
  - cbn [fold_left]. rewrite List.app_nil_r. now destruct res.
  - cbn [fold_left]. rewrite IH. unfold pushError.
    cbn [success totalRows successfulImports failedImports errors warnings].
    now rewrite <- List.app_assoc.
Qed.

Lemma cappedRows_length (P : CSVParseResult) :
  List.length (cappedRows P) = Nat.min MAX_ROWS (List.length (data P)).
Proof.
  unfold cappedRows. destruct (MAX_ROWS <? List.length (data P)) eqn:H.
  - apply Nat.ltb_lt in H. rewrite List.length_firstn. lia.
  - apply Nat.ltb_ge in H. lia.
Qed.



Lemma importBuyersFromCSV_cases (file : option MulterFile) (o : string)
      (db : list Row -> DbOutcome) :
  importBuyersFromCSV file o db
  = Ok (if negb (isValid (validateFile file)) then
          pushError emptyResult
            (fileLevel (default "File validation failed" (error (validateFile file))))
        else
          match bufferToString file with
          | Ok csvContent => importParsed (CSVParser.parseCSV csvContent) o db emptyResult
          | Throw e =>
              pushError emptyResult
                (fileLevel ("Import process failed: " +:+ messageOr "Unknown error" e))
          end).
Proof.
  unfold importBuyersFromCSV, try_catch.
  destruct (negb (isValid (validateFile file))); [reflexivity|].
  destruct (bufferToString file); reflexivity.
Qed.

Lemma importParsed_eq (P : CSVParseResult) (o : string) (db : list Row -> DbOutcome) :
  importParsed P o db emptyResult
  = let diag := map parseErrorEntry (parseErrors P) in
    if List.length (data P) =? 0 then
      {| success := false; totalRows := 0; successfulImports := 0; failedImports := 0;
         errors := diag ++ [fileLevel "No valid data rows found in CSV"];
         warnings := [] |}
    else
      let rows := cappedRows P in
      let headerValidation := CSVParser.validateRequiredHeaders rows REQUIRED_HEADERS in
      if negb (fst headerValidation) then
        {| success := false; totalRows := List.length rows;
           successfulImports := 0; failedImports := 0;
           errors := diag ++ [fileLevel ("Missing required headers: "
                                         +:+ join ", " (snd headerValidation))];
           warnings := capWarnings P |}
      else
        let D := fst (rowsOutcome o 0 rows) in
        let V := snd (rowsOutcome o 0 rows) in
        match (if 0 <? List.length V then db V else Resolved) with
        | Resolved =>
            {| success := 0 <? successfulImports D; totalRows := List.length rows;
               successfulImports := successfulImports D;
               failedImports := failedImports D;
               errors := diag ++ errors D; warnings := capWarnings P ++ warnings D |}
        | Rejected dbError =>
            {| success := false; totalRows := List.length rows;
               successfulImports := 0; failedImports := List.length rows;
               errors := diag ++ errors D
                         ++ [fileLevel ("Database import failed: "
                                        +:+ messageOr "Unknown database error" dbError)];
               warnings := capWarnings P ++ warnings D |}
        end.
Proof.
  unfold importParsed. rewrite fold_pushError.
  cbv zeta. destruct (List.length (data P) =? 0); [reflexivity|].
  unfold cappedRows, capWarnings.
  destruct (MAX_ROWS <? List.length (data P));
    match goal with
    | |- context [CSVParser.validateRequiredHeaders ?rows REQUIRED_HEADERS] =>
        generalize (CSVParser.validateRequiredHeaders rows REQUIRED_HEADERS);
        generalize rows
    end; intros rows hv;
    unfold pushWarnings, pushError, emptyResult;
    cbn [success totalRows successfulImports failedImports errors warnings app fst snd];
    (destruct (negb (fst hv)); [reflexivity|]);
    rewrite processRows_merge; unfold insertRows;
    generalize (fst (rowsOutcome o 0 rows)); generalize (snd (rowsOutcome o 0 rows));
    intros V D; cbn [app];
    (destruct (0 <? List.length V); [destruct (db V)|]);
    unfold merge, pushError;
    cbn [success totalRows successfulImports failedImports errors warnings app fst snd];
    rewrite <- ?List.app_assoc; reflexivity.
Qed.


(** *** The verdict on each row *)

Lemma processRow_verdict (o : string) (i : nat) (r : Row) :
  (accepted r = true ->
   exists s,
     snd (processRow o i r (emptyResult, [])) = [s]
     /\ errors (fst (processRow o i r (emptyResult, []))) = [])
  /\ (accepted r = false ->
      exists es,
        snd (processRow o i r (emptyResult, [])) = []
        /\ errors (fst (processRow o i r (emptyResult, [])))
           = [{| row := i + 2; rowErrors := es; rowData := RowData r |}]).
Proof.
  unfold accepted, processRow.
  destruct (cleanRowData r) as [c|e]; rewrite ?bind_Ok, ?bind_Throw.
  - destruct (CSVRowValidator.validateRow c) as [[c' v]|e]; rewrite ?bind_Ok, ?bind_Throw.
    + destruct (CSVRowValidator.isValid v && fst (BuyerValidators.validateCSVRow c')).
      * split; [intros _ | discriminate]. eexists. split; reflexivity.
      * split; [discriminate | intros _]. eexists. split; reflexivity.
    + split; [discriminate | intros _]. eexists. split; reflexivity.
  - split; [discriminate | intros _]. eexists. split; reflexivity.
Qed.

(** The loop leaves one error for each row that is not accepted, under
    the number of the row and with the row as its data, and stages one row
    for each row that is accepted. *)
Lemma rowsOutcome_verdicts (o : string) (rows : list Row) :
  forall i : nat,
    map row (errors (fst (rowsOutcome o i rows))) = rejectedRows i rows
    /\ map rowData (errors (fst (rowsOutcome o i rows)))
       = map RowData (List.filter (fun r => negb (accepted r)) rows)
    /\ List.length (snd (rowsOutcome o i rows)) = List.length (List.filter accepted rows).
Proof.
  induction rows as [|r rest IH]; intros i; [repeat split|].
  rewrite rowsOutcome_cons. destruct (IH (S i)) as (H1 & H2 & H3).
  cbn [fst snd merge errors rejectedRows List.filter].
  rewrite !List.map_app, List.length_app, H1, H2, H3.
  destruct (processRow_verdict o i r) as [Ha Hr].
  destruct (accepted r).
  - destruct (Ha eq_refl) as (s & -> & ->). repeat split.
  - destruct (Hr eq_refl) as (es & -> & ->). repeat split.
Qed.

Lemma filter_diagnostics (E : list ParseError) :
  List.filter isRowEntry (map parseErrorEntry E) = [].
Proof.
  induction E as [|e E IH]; [reflexivity|]. cbn [map List.filter].
  unfold isRowEntry at 1, parseErrorEntry at 1. cbn [rowData].
  destruct (pe_rawData e); exact IH.
Qed.

Lemma filter_rowEntries (l : list RowError) :
  Forall (fun e => exists raw, rowData e = RowData raw) l ->
  List.filter isRowEntry l = l.
Proof.
  induction 1 as [|e l (raw & He) _ IH]; [reflexivity|].
  cbn [List.filter]. unfold isRowEntry at 1. now rewrite He, IH.
Qed.

Lemma capWarning_text (n : nat) :
  capWarning n
  = "CSV contains " +:+ ofNat n +:+ " rows. Only first 1000 rows will be processed.".
Proof. reflexivity. Qed.

End ImportFacts.

Section ImportClaims.
Import JsString CSVImportService ImportRun.
Local Open Scope nat_scope.

Ltac settle_entries :=
  repeat match goal with
    | |- _ /\ _ => split
    | |- Forall _ [] => constructor
    | |- Forall _ (_ :: _) => constructor
    | |- ascending _ _ [] => exact I
    | |- ascending _ _ (map _ []) => exact I
    | |- nondecreasing _ _ [] => exact I
    | |- nondecreasing _ _ (map _ []) => exact I
    | |- [] = [] \/ _ => left; reflexivity
    | |- _ = _ => reflexivity
    | |- _ => assumption
    end.

(** C8.  For every file, owner and behaviour of the database the
    orchestrator returns a result and never throws.  The result is
    consistent: the flag says whether a row was imported, the imported and
    failed rows never exceed the total, and a result without an imported row
    carries at least one error entry. *)
Theorem importBuyersFromCSV_total (file : option MulterFile) (ownerId : string)
        (createMany : list Row -> DbOutcome) :
  exists r : ImportResult,
    importBuyersFromCSV file ownerId createMany = Ok r
    /\ success r = (0 <? successfulImports r)
    /\ successfulImports r + failedImports r <= totalRows r
    /\ (success r = false -> errors r <> []).
Proof.
  rewrite importBuyersFromCSV_cases. eexists. split; [reflexivity|].
  destruct (negb (isValid (validateFile file))).
  { repeat split; [cbn; lia | discriminate]. }
  destruct (bufferToString file) as [content|e].
  2: { repeat split; [cbn; lia | discriminate]. }
  rewrite importParsed_eq. cbv zeta.
  set (P := CSVParser.parseCSV content).
  destruct (List.length (data P) =? 0) eqn:Hn.
  { repeat split; [cbn; lia | cbn; now destruct (map parseErrorEntry (parseErrors P))]. }
  apply Nat.eqb_neq in Hn.
  destruct (negb (fst (CSVParser.validateRequiredHeaders (cappedRows P) REQUIRED_HEADERS))).
  { repeat split; [cbn; lia | cbn; now destruct (map parseErrorEntry (parseErrors P))]. }
  destruct (rowsOutcome_counts ownerId (cappedRows P) 0) as (H1 & H2 & H3).
  pose proof (cappedRows_length P) as HL.
  assert (HM : 0 < MAX_ROWS) by (unfold MAX_ROWS; lia).
  match goal with |- context [match ?d with Resolved => _ | Rejected _ => _ end] => destruct d end;
    cbn [success totalRows successfulImports failedImports errors].
  - split; [reflexivity|]. split; [lia|]. intros Hs. apply Nat.ltb_ge in Hs.
    intros He. apply (f_equal (@List.length _)) in He.
    rewrite !List.length_app, H3 in He. cbn [List.length] in He. lia.
  - split; [reflexivity|]. split; [lia|]. intros _ He.
    apply (f_equal (@List.length _)) in He. rewrite !List.length_app in He.
    cbn [List.length] in He. lia.
Qed.

(** C7.  When rows were staged and the bulk insert fails, the result
    reports no imported row, every row as failed and no success.  It differs
    from the result of the same import with a working database in the counts
    and in one more error entry, put last: an entry under row 0, without row
    data, whose one message is [Database import failed: ] followed by the
    message of the error, or by [Unknown database error] when what was
    thrown is not an [Error].  It is the only row-0 entry of the result. *)
Theorem database_failure_rolls_back (file : option MulterFile) (ownerId : string)
        (createMany : list Row -> DbOutcome) (dbError : exn) :
  stagedRows file ownerId <> [] ->
  createMany (stagedRows file ownerId) = Rejected dbError ->
  exists r r0 : ImportResult,
    importBuyersFromCSV file ownerId createMany = Ok r
    /\ importBuyersFromCSV file ownerId (fun _ => Resolved) = Ok r0
    /\ successfulImports r = 0 /\ failedImports r = totalRows r /\ success r = false
    /\ 1 <= totalRows r
    /\ successfulImports r0 = List.length (stagedRows file ownerId)
    /\ totalRows r = totalRows r0 /\ warnings r = warnings r0
    /\ errors r
       = errors r0
         ++ [ {| row := 0;
                 rowErrors :=
                   [ "Database import failed: "
                     +:+ match dbError with
                         | TypeError message => message
                         | ThrownValue => "Unknown database error"
                         end ];
                 rowData := NoData |} ]
    /\ Forall (fun e => row e <> 0) (errors r0).
Proof.
  intros Hs Hdb. rewrite !importBuyersFromCSV_cases. unfold stagedRows in *.
  destruct (isValid (validateFile file)); [|contradiction]. cbn [negb].
  destruct (bufferToString file) as [content|e]; [|contradiction].
  rewrite !importParsed_eq. cbv zeta.
  destruct (parseCSV_cases content) as [(Hd & _)|(hi & Hasc & _)].
  { exfalso. apply Hs. unfold cappedRows. rewrite Hd. reflexivity. }
  set (P := CSVParser.parseCSV content) in *.
  destruct (List.length (data P) =? 0) eqn:Hn.
  { exfalso. apply Hs. apply Nat.eqb_eq in Hn. unfold cappedRows.
    destruct (data P); [reflexivity | discriminate]. }
  destruct (fst (CSVParser.validateRequiredHeaders (cappedRows P) REQUIRED_HEADERS));
    [|contradiction].
  cbn [negb].
  destruct (rowsOutcome_counts ownerId (cappedRows P) 0) as (H1 & H2 & H3).
  pose proof (rowsOutcome_errors ownerId (cappedRows P) 0) as HE.
  set (V := snd (rowsOutcome ownerId 0 (cappedRows P))) in *.
  set (D := fst (rowsOutcome ownerId 0 (cappedRows P))) in *.
  assert (HV : (0 <? List.length V) = true).
  { apply Nat.ltb_lt. destruct V; [contradiction | cbn; lia]. }
  rewrite HV, Hdb. do 2 eexists. split; [reflexivity|]. split; [reflexivity|].
  cbn [success totalRows successfulImports failedImports errors warnings].
  assert (HT : 1 <= List.length (cappedRows P)).
  { apply Nat.ltb_lt in HV. lia. }
  repeat (split; [reflexivity || exact H1 || exact HT|]). split.
  - now rewrite <- List.app_assoc.
  - apply List.Forall_app. split.
    + rewrite <- parseErrorEntry_row in Hasc. apply ascending_rows in Hasc.
      eapply List.Forall_impl; [|exact Hasc]. cbn. intros; lia.
    + apply ascending_rows in HE.
      eapply List.Forall_impl; [|exact HE]. cbn. intros; lia.
Qed.

Lemma database_failure_witness :
  exists r : ImportResult,
    importBuyersFromCSV (csvFile plotCsv) "owner-1"
                        (fun _ => Rejected (TypeError "connection refused")) = Ok r
    /\ successfulImports r = 0 /\ failedImports r = 1 /\ success r = false
    /\ errors r
       = [ {| row := 0; rowErrors := ["Database import failed: connection refused"];
              rowData := NoData |} ].
Proof.
  destruct (database_failure_rolls_back
              (csvFile plotCsv) "owner-1"
              (fun _ => Rejected (TypeError "connection refused"))
              (TypeError "connection refused"))
    as (r & r0 & H & H0 & H1 & H2 & H3 & _ & _ & H4 & _ & H5 & _).
  - intros E. apply (f_equal (@List.length Row)) in E. vm_compute in E. discriminate E.
  - reflexivity.
  - vm_compute in H0. apply Ok_inj in H0. subst r0.
    exists r. split; [exact H|]. split; [exact H1|].
    split; [now rewrite H2, H4|]. split; [exact H3 | exact H5].
Defined.

(** C9.  When the parse yields [n] data rows, [n] above 1000, the total
    is 1000 and the warnings start with the one warning of the limit, whose
    text gives 1000 and [n]; all the other warnings are warnings of rows.
    The result is the result of the import of the first 1000 rows alone
    with that warning put in front.  When those rows have the required
    headers, each of them is counted once, as imported or as failed; the
    errors of the loop are those of the rows among the first 1000 that are
    not accepted, under their row numbers and in the order of the file; the
    accepted ones are staged, and imported when the insert resolves.  When
    they lack a required header no row is processed. *)
Theorem row_cap (file : option MulterFile) (ownerId : string)
        (createMany : list Row -> DbOutcome) (csvContent : string) :
  isValid (validateFile file) = true ->
  bufferToString file = Ok csvContent ->
  1000 < List.length (data (CSVParser.parseCSV csvContent)) ->
  exists (r : ImportResult) (rest : list string),
    importBuyersFromCSV file ownerId createMany = Ok r
    /\ totalRows r = 1000
    /\ warnings r
       = ("CSV contains "
          +:+ ofNat (List.length (data (CSVParser.parseCSV csvContent)))
          +:+ " rows. Only first 1000 rows will be processed.") :: rest
    /\ Forall (fun w => startsWith w "Row " = true) rest
    /\ let P := CSVParser.parseCSV csvContent in
       let first := List.firstn 1000 (data P) in
       let r' := importParsed {| data := first; parseErrors := parseErrors P |}
                              ownerId createMany emptyResult in
       (rest = warnings r' /\ success r = success r' /\ totalRows r = totalRows r'
        /\ successfulImports r = successfulImports r'
        /\ failedImports r = failedImports r' /\ errors r = errors r')
       /\ (fst (CSVParser.validateRequiredHeaders first REQUIRED_HEADERS) = true ->
           successfulImports r + failedImports r = 1000
           /\ List.map row (List.filter isRowEntry (errors r)) = rejectedRows 0 first
           /\ List.map rowData (List.filter isRowEntry (errors r))
              = List.map RowData (List.filter (fun x => negb (accepted x)) first)
           /\ List.length (stagedRows file ownerId)
              = List.length (List.filter accepted first)
           /\ (createMany (stagedRows file ownerId) = Resolved ->
               successfulImports r = List.length (List.filter accepted first)))
       /\ (fst (CSVParser.validateRequiredHeaders first REQUIRED_HEADERS) = false ->
           successfulImports r = 0 /\ failedImports r = 0
           /\ List.filter isRowEntry (errors r) = []
           /\ stagedRows file ownerId = []).
Proof.
  intros Hv Hb Hn. rewrite importBuyersFromCSV_cases, Hv, Hb. cbn [negb].
  change 1000 with MAX_ROWS in *.
  assert (HS : stagedRows file ownerId
               = let rows := cappedRows (CSVParser.parseCSV csvContent) in
                 if fst (CSVParser.validateRequiredHeaders rows REQUIRED_HEADERS)
                 then snd (rowsOutcome ownerId 0 rows) else []).
  { unfold stagedRows. now rewrite Hv, Hb. }
  rewrite HS. clear HS. cbv zeta.
  set (P := CSVParser.parseCSV csvContent) in *.
  set (P' := {| data := List.firstn MAX_ROWS (data P); parseErrors := parseErrors P |}).
  exists (importParsed P ownerId createMany emptyResult),
         (warnings (importParsed P' ownerId createMany emptyResult)).
  split; [reflexivity|].
  assert (HM : 0 < MAX_ROWS) by (unfold MAX_ROWS; lia).
  assert (HL' : List.length (data P') = MAX_ROWS).
  { unfold P'. cbn [data]. rewrite List.length_firstn. lia. }
  assert (HR : cappedRows P = List.firstn MAX_ROWS (data P)
               /\ cappedRows P' = List.firstn MAX_ROWS (data P)).
  { unfold cappedRows. rewrite HL', Nat.ltb_irrefl.
    apply Nat.ltb_lt in Hn. rewrite Hn. split; reflexivity. }
  assert (HC : capWarnings P = [capWarning (List.length (data P))] /\ capWarnings P' = []).
  { unfold capWarnings. rewrite HL', Nat.ltb_irrefl.
    apply Nat.ltb_lt in Hn. rewrite Hn. split; reflexivity. }
  destruct HR as [HR HR'], HC as [HC HC'].
  rewrite !importParsed_eq. cbv zeta. rewrite HR, HR', HC, HC', HL'.
  replace (List.length (data P) =? 0) with false by (symmetry; apply Nat.eqb_neq; lia).
  replace (MAX_ROWS =? 0) with false by (symmetry; apply Nat.eqb_neq; lia).
  change (parseErrors P') with (parseErrors P).
  rewrite capWarning_text. change 1000 with MAX_ROWS.
  set (rows := List.firstn MAX_ROWS (data P)).
  assert (Hlen : List.length rows = MAX_ROWS).
  { unfold rows. rewrite List.length_firstn. lia. }
  destruct (fst (CSVParser.validateRequiredHeaders rows REQUIRED_HEADERS)) eqn:Hh;
    cbn [negb].
  2: { cbn [success totalRows successfulImports failedImports errors warnings app].
       split; [exact Hlen|]. split; [reflexivity|]. split; [constructor|].
       split; [repeat split|]. split; [discriminate|]. intros _.
       repeat split. rewrite List.filter_app, filter_diagnostics. reflexivity. }
  destruct (rowsOutcome_warnings ownerId rows 0) as (tg & Hw & _).
  destruct (rowsOutcome_counts ownerId rows 0) as (Hc1 & Hc2 & Hc3).
  destruct (rowsOutcome_verdicts ownerId rows 0) as (Hr1 & Hr2 & Hr3).
  pose proof (rowsOutcome_rowData ownerId rows 0) as Hrd.
  assert (Hrow : Forall (fun w => startsWith w "Row " = true)
                        (warnings (fst (rowsOutcome ownerId 0 rows)))).
  { rewrite Hw. apply List.Forall_forall. intros w Hin.
    apply List.in_map_iff in Hin as (t & <- & _). apply tagged_head. }
  set (D := fst (rowsOutcome ownerId 0 rows)) in *.
  set (V := snd (rowsOutcome ownerId 0 rows)) in *.
  destruct (if 0 <? List.length V then createMany V else Resolved) eqn:Hd;
    cbn [success totalRows successfulImports failedImports errors warnings app];
    (split; [exact Hlen|]); (split; [reflexivity|]); (split; [exact Hrow|]);
    (split; [repeat split|]); (split; [intros _ | discriminate]).
  - split; [lia|].
    rewrite List.filter_app, filter_diagnostics, (filter_rowEntries _ Hrd).
    cbn [app]. repeat split; try assumption. intros _. now rewrite Hc1.
  - split; [lia|].
    rewrite !List.filter_app, filter_diagnostics, (filter_rowEntries _ Hrd).
    cbn [app List.filter isRowEntry rowData fileLevel]. rewrite List.app_nil_r.
    repeat split; try assumption. intros Hres.
    destruct (0 <? List.length V); congruence.
Qed.

Lemma row_cap_witness :
  exists r : ImportResult,
    importBuyersFromCSV (csvFile (longCsv 1500)) "owner-1" (fun _ => Resolved) = Ok r
    /\ totalRows r = 1000
    /\ warnings r = ["CSV contains 1500 rows. Only first 1000 rows will be processed."]
    /\ successfulImports r + failedImports r = 1000.
Proof.
  destruct (row_cap (csvFile (longCsv 1500)) "owner-1" (fun _ => Resolved) (longCsv 1500))
    as (r & rest & H & Ht & Hw & _ & (Hrest & _) & Hh & _).
  - vm_compute. reflexivity.
  - reflexivity.
  - apply Nat.ltb_lt. vm_compute. reflexivity.
  - exists r. split; [exact H|]. split; [exact Ht|].
    assert (Hlen : List.length (data (CSVParser.parseCSV (longCsv 1500))) = 1500)
      by (vm_compute; reflexivity).
    rewrite Hlen in Hw.
    assert (Hnil : rest = []) by (rewrite Hrest; vm_compute; reflexivity).
    rewrite Hnil in Hw. split; [exact Hw|].
    assert (Hhd : fst (CSVParser.validateRequiredHeaders
                         (List.firstn 1000 (data (CSVParser.parseCSV (longCsv 1500))))
                         REQUIRED_HEADERS) = true)
      by (vm_compute; reflexivity).
    destruct (Hh Hhd) as (Hsum & _). exact Hsum.
Defined.


(** C2, as amended.  The import of the scenario's file, whatever the owner
    and the database, imports nothing and records one entry for row 2 with
    two messages: the one of the row validator and the one of the schema
    validator, in this order. *)
Theorem john_row_has_two_errors (file : MulterFile) (ownerId : string)
        (createMany : list Row -> DbOutcome) :
  isValid (validateFile (Some file)) = true ->
  buffer file = Some johnCsv ->
  importBuyersFromCSV (Some file) ownerId createMany
  = Ok {| success := false; totalRows := 1; successfulImports := 0; failedImports := 1;
          errors :=
            [ {| row := 2;
                 rowErrors :=
                   [ "bhk is required for Apartment properties";
                     "bhk: BHK is required for Apartment and Villa property types" ];
                 rowData := RowData (Normalized.rawRow johnRow) |} ];
          warnings := [] |}.
Proof.
  intros Hv Hb. rewrite importBuyersFromCSV_cases, Hv. unfold bufferToString. rewrite Hb.
  cbn [negb]. apply f_equal. vm_compute. reflexivity.
Qed.

Lemma john_row_witness :
  exists r : ImportResult,
    importBuyersFromCSV (csvFile johnCsv) "owner-1" (fun _ => Resolved) = Ok r
    /\ List.map (fun e => List.length (rowErrors e)) (errors r) = [2].
Proof.
  eexists. split.
  - apply (john_row_has_two_errors _ "owner-1" (fun _ => Resolved)); reflexivity.
  - reflexivity.
Defined.

(** C2 as stated fails: the entry for row 2 holds two messages. *)
Lemma john_row_not_one_error :
  (importBuyersFromCSV (csvFile johnCsv) "owner-1" (fun _ => Resolved) ≫= fun r =>
     Ok (List.map (fun e => (row e, List.length (rowErrors e), rowErrors e)) (errors r)))
  = Ok [ (2, 2, [ "bhk is required for Apartment properties";
                  "bhk: BHK is required for Apartment and Villa property types" ]) ].
Proof. vm_compute. reflexivity. Qed.

(** C6 as stated fails: the diagnostic of the parser for file row 7 comes
    before the validation error of file row 2. *)
Lemma diagnostic_precedes_earlier_row :
  (importBuyersFromCSV (csvFile lateFixCsv) "owner-1" (fun _ => Resolved) ≫= fun r =>
     Ok (List.map (fun e => (row e, rowErrors e)) (errors r)))
  = Ok [ (7, ["Row had 8 columns, expected 8. Added default status 'New'."]);
         (2, [ "phone must be 10-15 digits (provided: 12345)";
               "phone: Phone number must be 10-15 digits" ]) ].
Proof. vm_compute. reflexivity. Qed.

(** C6, as amended.  The errors of a result are three runs: the
    diagnostics of the parser, then the errors of the rows, then the
    file-level entries of row 0.  Within the first two runs the row numbers
    strictly increase.  The warnings are the warning of the row limit, if
    any, followed by the warnings of the rows, whose row numbers never
    decrease. *)
Theorem entries_ordered_within_phases (file : option MulterFile) (ownerId : string)
        (createMany : list Row -> DbOutcome) :
  exists (r : ImportResult) (diag rowErrs tail : list RowError)
         (capw : list string) (tg : list (nat * string)) (hi : nat),
    importBuyersFromCSV file ownerId createMany = Ok r
    /\ errors r = diag ++ rowErrs ++ tail
    /\ Forall (fun e => exists raw, rowData e = RawLine raw) diag
    /\ ascending 2 hi (List.map row diag)
    /\ Forall (fun e => exists raw, rowData e = RowData raw) rowErrs
    /\ ascending 2 hi (List.map row rowErrs)
    /\ Forall (fun e => row e = 0 /\ rowData e = NoData) tail
    /\ warnings r = capw ++ List.map tagged tg
    /\ (capw = [] \/ exists n, capw = [capWarning n])
    /\ nondecreasing 2 hi (List.map fst tg).
Proof.
  rewrite importBuyersFromCSV_cases.
  destruct (negb (isValid (validateFile file))).
  { eexists _, [], [], [_], [], [], 0. split; [reflexivity|]. settle_entries. }
  destruct (bufferToString file) as [content|e].
  2: { eexists _, [], [], [_], [], [], 0. split; [reflexivity|]. settle_entries. }
  rewrite importParsed_eq. cbv zeta.
  destruct (parseCSV_cases content) as [(Hd & m & Hm)|(hi & Hasc & Hraw)].
  { rewrite Hd, Hm. cbn [List.length Nat.eqb map parseErrorEntry pe_row pe_message pe_rawData app].
    eexists _, [], [], [_; _], [], [], 0. split; [reflexivity|]. settle_entries. }
  set (P := CSVParser.parseCSV content) in *.
  assert (Hdiag : Forall (fun e => exists raw, rowData e = RawLine raw)
                         (map parseErrorEntry (parseErrors P))).
  { rewrite List.Forall_map. eapply List.Forall_impl; [|exact Hraw].
    intros e (raw & He). exists raw. unfold parseErrorEntry. cbn [rowData]. now rewrite He. }
  rewrite <- parseErrorEntry_row in Hasc.
  set (diag := map parseErrorEntry (parseErrors P)) in *.
  set (hi' := hi + (2 + List.length (cappedRows P))).
  assert (Hasc' : ascending 2 hi' (map row diag))
    by (apply (ascending_widen 2 hi); [unfold hi'; lia | exact Hasc]).
  assert (Hcap : capWarnings P = [] \/ exists n, capWarnings P = [capWarning n]).
  { unfold capWarnings. destruct (MAX_ROWS <? List.length (data P)); [right; eauto | now left]. }
  destruct (List.length (data P) =? 0).
  { eexists _, diag, [], [_], [], [], hi'. split; [reflexivity|]. settle_entries. }
  destruct (negb (fst (CSVParser.validateRequiredHeaders (cappedRows P) REQUIRED_HEADERS))).
  { eexists _, diag, [], [_], (capWarnings P), [], hi'. split; [reflexivity|].
    cbn [errors warnings map]. rewrite (List.app_nil_r (capWarnings P)). settle_entries. }
  pose proof (rowsOutcome_errors ownerId (cappedRows P) 0) as HE.
  pose proof (rowsOutcome_rowData ownerId (cappedRows P) 0) as HD.
  destruct (rowsOutcome_warnings ownerId (cappedRows P) 0) as (tg & Hw & Htg).
  apply (ascending_widen _ _ hi') in HE; [|unfold hi'; lia].
  apply (nondecreasing_widen _ _ hi') in Htg; [|unfold hi'; lia].
  set (D := fst (rowsOutcome ownerId 0 (cappedRows P))) in *.
  match goal with |- context [match ?d with Resolved => _ | Rejected _ => _ end] => destruct d end.
  - eexists _, diag, (errors D), [], (capWarnings P), tg, hi'. split; [reflexivity|].
    cbn [errors warnings]. rewrite (List.app_nil_r (errors D)), Hw. settle_entries.
  - eexists _, diag, (errors D), [_], (capWarnings P), tg, hi'. split; [reflexivity|].
    cbn [errors warnings]. rewrite Hw. settle_entries.
Qed.

End ImportClaims.


(** ** Further properties of the parser *)

Section ParserFacts.
Import JsString CSVParser.
Local Open Scope nat_scope.



Lemma buildRow_lookup (headers : list string) :
  forall (values : list string) (row : Row) (k : string),
    (is_Some (buildRow headers values row !! k)
     <-> is_Some (row !! k) \/ (In k headers /\ k <> "__proto__"))
    /\ (forall v, buildRow headers values row !! k = Some v ->
                  row !! k = Some v \/ exists s, v = VString s /\ trim s = s).
Proof.
  induction headers as [|h hs IH]; intros values row k.
  - cbn [buildRow In]. split; [tauto | auto].
  - cbn [buildRow]. destruct (String.eqb h "__proto__") eqn:Hp.
    + apply String.eqb_eq in Hp. subst h.
      destruct (IH (List.tl values) row k) as [H1 H2]. split; [|exact H2].
      rewrite H1. cbn [In]. intuition congruence.
    + apply String.eqb_neq in Hp.
      match goal with
      | |- context [buildRow hs _ ?R] => destruct (IH (List.tl values) R k) as [H1 H2]
      end.
      split.
      * rewrite H1. cbn [In]. destruct (decide (h = k)) as [->|Hne].
        -- rewrite lookup_insert_eq. split; [intros _; right; auto | intros _; left; eauto].
        -- rewrite lookup_insert_ne by exact Hne. intuition congruence.
      * intros v Hv. destruct (H2 v Hv) as [Hr|Hs]; [|now right].
        destruct (decide (h = k)) as [->|Hne].
        -- rewrite lookup_insert_eq in Hr. injection Hr as <-.
           right. eexists. split; [reflexivity | apply trim_idem].
        -- rewrite lookup_insert_ne in Hr by exact Hne. now left.
Qed.

(** X2.  A row of the parser has one cell for each header, the name
    [__proto__] apart, whatever the number of values on its line; every
    cell is a trimmed string. *)
Theorem buildRow_cells (headers values : list string) (k : string) :
  (is_Some (buildRow headers values ∅ !! k) <-> In k headers /\ k <> "__proto__")
  /\ (forall v, buildRow headers values ∅ !! k = Some v ->
                exists s, v = VString s /\ trim s = s).
Proof.
  destruct (buildRow_lookup headers values ∅ k) as [H1 H2]. split.
  - rewrite H1, lookup_empty. split; [intros [[? ?]|?]; [discriminate | assumption] | auto].
  - intros v Hv. destruct (H2 v Hv) as [Hr|Hs]; [|exact Hs].
    rewrite lookup_empty in Hr. discriminate.
Qed.

Lemma parseLines_count (headers : list string) (lines : list string) :
  Forall (fun l => isEmpty (trim l) = false) lines ->
  forall (i : nat) (result : CSVParseResult),
    List.length (data (parseLines headers i lines result))
    = List.length (data result) + List.length lines.
Proof.
  induction 1 as [|l rest Hl _ IH]; intros i result; [cbn; lia|].
  cbn [parseLines]. rewrite Hl.
  destruct (fixColumns i (trim l) (parseCSVLine (trim l)) (List.length headers)).
  rewrite IH. cbn [data List.length]. rewrite List.length_app. cbn [List.length]. lia.
Qed.

Lemma nonBlankLines_nonblank (content : string) :
  Forall (fun l => isEmpty (trim l) = false) (nonBlankLines content).
Proof.
  unfold nonBlankLines. apply List.Forall_forall. intros l Hin.
  apply List.filter_In in Hin as [_ H]. now apply negb_true_iff in H.
Qed.

(** X3.  When the format check passes, the parse yields one row for each
    non-blank line after the header line, and at least one. *)
Theorem parseCSV_row_count (content : string) :
  validateCSVFormat content = None ->
  List.length (data (parseCSV content))
  = List.length (List.filter (fun line => negb (isEmpty (trim line)))
                             (split newline (trim content))) - 1
  /\ 1 <= List.length (data (parseCSV content)).
Proof.
  intros Hf. change (List.filter _ (split newline (trim content)))
               with (nonBlankLines content).
  unfold parseCSV. rewrite Hf.
  pose proof (nonBlankLines_nonblank content) as Hnb.
  unfold validateCSVFormat in Hf.
  destruct (isEmpty content || (String.length (trim content) =? 0)); [discriminate|].
  destruct (List.length (nonBlankLines content) <? 2) eqn:H2; [discriminate|].
  apply Nat.ltb_ge in H2.
  destruct (nonBlankLines content) as [|hd tl]; [cbn in H2; lia|].
  apply List.Forall_inv_tail in Hnb.
  rewrite parseLines_count by exact Hnb.
  cbn [List.tl data List.length] in *. lia.
Qed.

Lemma parseCSV_row_count_witness :
  List.length (data (parseCSV ImportRun.lateFixCsv)) = 6.
Proof.
  destruct (parseCSV_row_count ImportRun.lateFixCsv) as [H _]; [vm_compute; reflexivity|].
  rewrite H. vm_compute. reflexivity.
Defined.

End ParserFacts.

(** ** Further properties of the orchestrator *)

Section ImportExtras.
Import JsString CSVImportService ImportRun.

(** X4.  A file passes [validateFile] exactly when it is present, holds between
    1 byte and 5 MB, has a name, and has an allowed MIME type or a name that
    ends in [.csv], whatever its case.  A file that fails always comes with
    a message. *)
Theorem validateFile_valid_iff (file : option MulterFile) :
  (isValid (validateFile file) = true
   <-> exists f name,
         file = Some f /\ size f <= 5242880 /\ size f <> 0
         /\ originalname f = Some name
         /\ ((exists t, mimetype f = Some t
                        /\ In t ["text/csv"; "application/csv"; "text/plain"])
             \/ endsWith (toLowerCase name) ".csv" = true))
  /\ (isValid (validateFile file) = false -> exists m, error (validateFile file) = Some m)
  /\ (isValid (validateFile file) = true -> error (validateFile file) = None).
Proof.
  unfold validateFile. change MAX_FILE_SIZE with 5242880. destruct file as [f|].
  2: { cbn. split; [split; [discriminate | intros (f & n & H & _); discriminate]|].
       split; [eauto | discriminate]. }
  destruct (5242880 <? size f) eqn:Hs.
  { apply Z.ltb_lt in Hs. cbn [isValid error].
    split; [split; [discriminate | intros (f' & n & [= <-] & ? & _); lia]|].
    split; [eauto | discriminate]. }
  apply Z.ltb_ge in Hs.
  destruct (originalname f) as [name|] eqn:Hn.
  2: { rewrite bind_Throw. cbn [isValid error messageOr].
       split; [split; [discriminate | intros (f' & n & [= <-] & _ & _ & ? & _); congruence]|].
       split; [eauto | discriminate]. }
  rewrite bind_Ok.
  set (mimeOk := match mimetype f with
                 | Some t => List.existsb (String.eqb t)
                               ["text/csv"; "application/csv"; "text/plain"]
                 | None => false
                 end).
  assert (Hm : mimeOk = true
               <-> exists t, mimetype f = Some t
                             /\ In t ["text/csv"; "application/csv"; "text/plain"]).
  { unfold mimeOk. destruct (mimetype f) as [t|].
    - rewrite List.existsb_exists. split.
      + intros (x & Hin & Hx). apply String.eqb_eq in Hx. subst x. eauto.
      + intros (t' & [= <-] & Hin). exists t. split; [exact Hin | apply String.eqb_refl].
    - split; [discriminate | intros (t & H & _); discriminate]. }
  destruct (negb mimeOk && negb (endsWith (toLowerCase name) ".csv")) eqn:Hb.
  { cbn [isValid error].
    split; [split; [discriminate|]|split; [eauto | discriminate]].
    intros (f' & n & [= <-] & _ & _ & Hn' & Hor). rewrite Hn in Hn'. injection Hn' as <-.
    apply andb_prop in Hb as [Hb1 Hb2]. apply negb_true_iff in Hb1, Hb2.
    destruct Hor as [Ht|He]; [apply Hm in Ht|]; congruence. }
  destruct (size f =? 0) eqn:Hz.
  { apply Z.eqb_eq in Hz. cbn [isValid error].
    split; [split; [discriminate | intros (f' & n & [= <-] & _ & ? & _); contradiction]|].
    split; [eauto | discriminate]. }
  apply Z.eqb_neq in Hz. cbn [isValid error].
  split; [split; [intros _|reflexivity]|split; [discriminate | reflexivity]].
  exists f, name. repeat (split; [assumption || reflexivity|]).
  apply andb_false_iff in Hb as [Hb|Hb]; apply negb_false_iff in Hb.
  - left. now apply Hm.
  - now right.
Qed.

Lemma validateFile_error (file : option MulterFile) :
  isValid (validateFile file) = false -> exists m, error (validateFile file) = Some m.
Proof.
  unfold validateFile. destruct file as [f|]; [|cbn; eauto].
  destruct (MAX_FILE_SIZE <? size f); [cbn; eauto|].
  destruct (originalname f) as [name|]; [|cbn; eauto]. rewrite bind_Ok.
  destruct (negb _ && negb _); [cbn; eauto|].
  destruct (size f =? 0); [cbn; eauto | discriminate].
Qed.

(** X5.  A file that fails [validateFile] is not read: the result holds the
    message of the validation as its one error, under row 0, and the
    database is not called. *)
Theorem rejected_file_single_error (file : option MulterFile) (ownerId : string)
        (createMany : list Row -> DbOutcome) :
  isValid (validateFile file) = false ->
  exists m,
    error (validateFile file) = Some m
    /\ importBuyersFromCSV file ownerId createMany
       = Ok {| success := false; totalRows := 0; successfulImports := 0;
               failedImports := 0;
               errors := [{| row := 0; rowErrors := [m]; rowData := NoData |}];
               warnings := [] |}.
Proof.
  intros Hv. destruct (validateFile_error file Hv) as (m & Hm).
  exists m. split; [exact Hm|].
  rewrite importBuyersFromCSV_cases, Hv, Hm. reflexivity.
Qed.

Lemma rejected_file_witness :
  importBuyersFromCSV None "owner-1" (fun _ => Resolved)
  = Ok {| success := false; totalRows := 0; successfulImports := 0; failedImports := 0;
          errors := [{| row := 0; rowErrors := ["No file provided"]; rowData := NoData |}];
          warnings := [] |}.
Proof.
  destruct (rejected_file_single_error None "owner-1" (fun _ => Resolved))
    as (m & Hm & H); [reflexivity|].
  injection Hm as <-. exact H.
Defined.

(** X6.  A content that fails the format check of the parser is reported
    twice under row 0: by the message of the check, and as a file without
    data rows.  Nothing else is recorded and the database is not called. *)
Theorem format_failure_reported_twice (file : option MulterFile) (ownerId : string)
        (createMany : list Row -> DbOutcome) (csvContent m : string) :
  isValid (validateFile file) = true ->
  bufferToString file = Ok csvContent ->
  CSVParser.validateCSVFormat csvContent = Some m ->
  importBuyersFromCSV file ownerId createMany
  = Ok {| success := false; totalRows := 0; successfulImports := 0; failedImports := 0;
          errors := [ {| row := 0; rowErrors := [m]; rowData := NoData |};
                      {| row := 0; rowErrors := ["No valid data rows found in CSV"];
                         rowData := NoData |} ];
          warnings := [] |}.
Proof.
  intros Hv Hb Hf. rewrite importBuyersFromCSV_cases, Hv, Hb. cbn [negb].
  unfold CSVParser.parseCSV. rewrite Hf. reflexivity.
Qed.

Lemma format_failure_witness :
  importBuyersFromCSV (csvFile basicHeader) "owner-1" (fun _ => Resolved)
  = Ok {| success := false; totalRows := 0; successfulImports := 0; failedImports := 0;
          errors := [ {| row := 0;
                         rowErrors := ["CSV must have at least a header row and one data row"];
                         rowData := NoData |};
                      {| row := 0; rowErrors := ["No valid data rows found in CSV"];
                         rowData := NoData |} ];
          warnings := [] |}.
Proof.
  apply (format_failure_reported_twice _ _ _ basicHeader); vm_compute; reflexivity.
Defined.

(** X7.  A result that reports success comes from a run in which the bulk
    insert was called on the staged rows and resolved; the imported rows
    are the staged rows, imported and failed rows add up to the total, and
    the total is at most 1000. *)
Theorem success_means_inserted (file : option MulterFile) (ownerId : string)
        (createMany : list Row -> DbOutcome) (r : ImportResult) :
  importBuyersFromCSV file ownerId createMany = Ok r ->
  success r = true ->
  stagedRows file ownerId <> []
  /\ createMany (stagedRows file ownerId) = Resolved
  /\ successfulImports r = List.length (stagedRows file ownerId)
  /\ (successfulImports r + failedImports r = totalRows r)%nat
  /\ (totalRows r <= 1000)%nat.
Proof.
  intros H Hs. rewrite importBuyersFromCSV_cases in H. apply Ok_inj in H. subst r.
  unfold stagedRows. destruct (isValid (validateFile file)); [|discriminate].
  cbn [negb] in *. destruct (bufferToString file) as [content|e]; [|discriminate].
  rewrite importParsed_eq in *. cbv zeta in *.
  set (P := CSVParser.parseCSV content) in *.
  destruct (List.length (data P) =? 0)%nat; [discriminate|].
  destruct (fst (CSVParser.validateRequiredHeaders (cappedRows P) REQUIRED_HEADERS));
    [|discriminate].
  cbn [negb] in *.
  destruct (rowsOutcome_counts ownerId (cappedRows P) 0) as (H1 & H2 & H3).
  pose proof (cappedRows_length P) as HL. unfold MAX_ROWS in HL.
  set (V := snd (rowsOutcome ownerId 0 (cappedRows P))) in *.
  set (D := fst (rowsOutcome ownerId 0 (cappedRows P))) in *.
  destruct (0 <? List.length V)%nat eqn:HV.
  - destruct (createMany V); [|discriminate].
    cbn [success totalRows successfulImports failedImports] in *.
    apply Nat.ltb_lt in HV.
    split; [intros E; rewrite E in HV; cbn in HV; lia|].
    repeat split; try assumption; lia.
  - cbn [success totalRows successfulImports failedImports] in *.
    apply Nat.ltb_ge in HV. apply Nat.ltb_lt in Hs. lia.
Qed.

Lemma success_means_inserted_witness :
  exists r,
    importBuyersFromCSV (csvFile lateFixCsv) "owner-1" (fun _ => Resolved) = Ok r
    /\ successfulImports r = 5%nat /\ failedImports r = 1%nat /\ totalRows r = 6%nat.
Proof.
  assert (E : exists r,
             importBuyersFromCSV (csvFile lateFixCsv) "owner-1" (fun _ => Resolved) = Ok r
             /\ success r = true /\ failedImports r = 1%nat /\ totalRows r = 6%nat)
    by (eexists; split; [vm_compute; reflexivity | repeat split]).
  destruct E as (r & E & Hs & Hf & Ht).
  destruct (success_means_inserted _ _ _ r E Hs) as (_ & _ & _ & H4 & _).
  exists r. split; [exact E|]. split; [lia | split; assumption].
Defined.

End ImportExtras.

(** ** Further properties of the field normalizer and the validators *)

Section CleanerExtras.
Import JsString CSVDataCleaner CSVRowValidator Normalized RowRule.

Lemma length_filter (p : ascii -> bool) (s : string) :
  (String.length (filter p s) <= String.length s)%nat.
Proof.
  induction s as [|c s IH]; [reflexivity|]. cbn [filter String.length].
  destruct (p c); cbn [String.length]; lia.
Qed.

(** X8.  On every string [cleanPhoneNumber] returns digits only, no more of
    them than the string has characters, and a result that it leaves as it
    is. *)
Theorem cleanPhoneNumber_normal_form (s : string) :
  exists p,
    cleanPhoneNumber (VString s) = Ok p
    /\ all isDigit p = true
    /\ (String.length p <= String.length s)%nat
    /\ cleanPhoneNumber (VString p) = Ok p.
Proof.
  destruct (cleanPhoneNumber_string s) as (p & H). exists p.
  split; [exact H|]. split; [exact (cleanPhoneNumber_digits s p H)|].
  split; [|exact (cleanPhoneNumber_idem s p H)].
  unfold cleanPhoneNumber in H. destruct (negb (Value.truthy (VString s))).
  - apply Ok_inj in H. subst p. cbn. lia.
  - unfold Value.stringMethod in H. rewrite bind_Ok in H.
    pose proof (length_filter isDigit s) as HL.
    destruct (startsWith (filter isDigit s) "91" && (String.length (filter isDigit s) =? 12)%nat);
      apply Ok_inj in H; subst p; [rewrite length_substring|]; lia.
Qed.

(** X9.  On every string [cleanEmail] returns a trimmed string in lower case,
    which it leaves as it is. *)
Theorem cleanEmail_normal_form (s : string) :
  exists e,
    cleanEmail (VString s) = Ok e
    /\ toLowerCase e = e /\ trim e = e
    /\ cleanEmail (VString e) = Ok e.
Proof.
  assert (Hn : forall t, toLowerCase (trim (toLowerCase t)) = trim (toLowerCase t)
                         /\ trim (trim (toLowerCase t)) = trim (toLowerCase t)).
  { intros t. split; [|apply trim_idem].
    now rewrite toLowerCase_trim, toLowerCase_idem. }
  unfold cleanEmail. destruct s as [|c s].
  - exists EmptyString. repeat split.
  - cbn [Value.truthy isEmpty negb]. unfold Value.stringMethod. rewrite bind_Ok.
    destruct (Hn (String c s)) as [H1 H2].
    remember (trim (toLowerCase (String c s))) as e eqn:He.
    exists e. split; [reflexivity|]. split; [exact H1|]. split; [exact H2|].
    clear He. destruct e as [|c' e']; [reflexivity|].
    cbn [Value.truthy isEmpty negb]. rewrite bind_Ok. now rewrite H1, H2.
Qed.

(** X10.  The tags that [cleanTags] returns are trimmed and not empty. *)
Theorem cleanTags_entries (s : string) :
  exists tags,
    cleanTags (VString s) = Ok tags
    /\ Forall (fun tag => isEmpty tag = false /\ trim tag = tag) tags.
Proof.
  unfold cleanTags. destruct (negb (Value.truthy (VString s))).
  { exists []. split; [reflexivity | constructor]. }
  unfold Value.stringMethod. rewrite bind_Ok.
  destruct (isEmpty (trim s) || String.eqb (trim s) "[]").
  { exists []. split; [reflexivity | constructor]. }
  destruct (JSON.parse s) as [[]|]; eexists; (split; [reflexivity|]).
  all: apply List.Forall_forall; intros tag0 Htag;
    apply List.filter_In in Htag as [Hin Hpx];
    apply List.in_map_iff in Hin as (tag1 & <- & _);
    (split; [|apply trim_idem]); unfold nonEmpty in Hpx;
    repeat (apply andb_prop in Hpx as [Hpx _]); now apply negb_true_iff in Hpx.
Qed.

(** X11.  Cleaning leaves a canonical enum value as it is. *)
Theorem canonical_value_unchanged (f : EnumField) (v : string) :
  In v (valid f) ->
  mapEnumValue f (VString v) = Ok (VString v) /\ enumCell f (VString v) = VString v.
Proof.
  intros Hin.
  destruct f; cbn [valid In] in Hin;
    repeat (destruct Hin as [<-|Hin]; [split; vm_compute; reflexivity|]);
    contradiction.
Qed.

Lemma canonical_value_witness :
  mapEnumValue timeline (VString "ZeroToThree") = Ok (VString "ZeroToThree").
Proof.
  apply (canonical_value_unchanged timeline "ZeroToThree"). cbn. tauto.
Defined.

End CleanerExtras.

Section NumberFacts.

Lemma SFcompare_swap (x y : spec_float) :
  SFcompare y x = option_map CompOpp (SFcompare x y).
Proof.
  destruct x as [sx|sx| |sx mx ex], y as [sy|sy| |sy my ey];
    try (destruct sx; reflexivity); try (destruct sy; reflexivity);
    try (destruct sx, sy; reflexivity); try reflexivity.
  cbn [SFcompare]. change (Pos.compare_cont Eq) with Pos.compare.
  destruct sx, sy; try reflexivity;
    rewrite (Z.compare_antisym ex ey); destruct (ex ?= ey)%Z; cbn; try reflexivity;
    rewrite (Pos.compare_antisym mx my); destruct (mx ?= my)%positive; reflexivity.
Qed.

Lemma SFleb_ltb (x y : spec_float) :
  JsNumber.isNaN x = false -> JsNumber.isNaN y = false ->
  SFleb x y = negb (SFltb y x).
Proof.
  intros Hx Hy. unfold SFleb, SFltb. rewrite (SFcompare_swap x y).
  destruct x as [sx|sx| |sx mx ex], y as [sy|sy| |sy my ey]; try discriminate;
    destruct (SFcompare _ _) as [[]|] eqn:E; try reflexivity;
    cbn in E; try discriminate;
    repeat match type of E with
           | context [if ?b then _ else _] => destruct b; try discriminate
           | context [match ?c with Eq => _ | Lt => _ | Gt => _ end] => destruct c; try discriminate
           end.
Qed.

End NumberFacts.

Section ValidatorExtras.
Import JsString CSVDataCleaner CSVRowValidator Normalized RowRule.

Lemma truthy_not_nan (x : JsNumber.number) :
  JsNumber.truthy x = true -> JsNumber.isNaN x = false.
Proof.
  unfold JsNumber.truthy. intros H. apply negb_true_iff, orb_false_iff in H. tauto.
Qed.

(** X12.  [validateBudget] accepts when a budget is missing.  On two numbers
    it rejects exactly when both are truthy and budgetMax is less than
    budgetMin: exactly when the row validator emits its budget error.  It
    is the check of the schema's budget refinement. *)
Theorem validateBudget_agrees (r : Row) (x y : JsNumber.number) :
  get r "budgetMin" = VNumber x ->
  get r "budgetMax" = VNumber y ->
  (BuyerValidators.validateBudget (VNumber x) (VNumber y) = false
   <-> JsNumber.truthy x && JsNumber.truthy y && JsNumber.ltb y x = true)
  /\ (BuyerValidators.validateBudget (VNumber x) (VNumber y) = false
      <-> budgetErrors r = [budgetError (VNumber x) (VNumber y)])
  /\ BuyerValidators.budgetRefinement r
     = BuyerValidators.validateBudget (VNumber x) (VNumber y)
  /\ BuyerValidators.validateBudget VUndefined (VNumber y) = true
  /\ BuyerValidators.validateBudget (VNumber x) VUndefined = true.
Proof.
  intros Hx Hy. split; [|split; [|split; [|split]]].
  - unfold BuyerValidators.validateBudget.
    cbn [Value.truthy]. destruct (JsNumber.truthy x) eqn:Tx; [|split; discriminate].
    destruct (JsNumber.truthy y) eqn:Ty; [|split; discriminate].
    cbn [andb]. unfold Value.greaterEq. cbn [andb Value.toNumber].
    unfold JsNumber.ltb.
    rewrite (SFleb_ltb x y (truthy_not_nan x Tx) (truthy_not_nan y Ty)).
    destruct (SFltb y x); split; try discriminate; reflexivity.
  - unfold budgetErrors, BuyerValidators.validateBudget. rewrite Hx, Hy.
    cbn [Value.truthy]. destruct (JsNumber.truthy x) eqn:Tx; [|split; discriminate].
    destruct (JsNumber.truthy y) eqn:Ty; [|split; discriminate].
    cbn [andb]. unfold Value.greaterEq, Value.lessThan. cbn [andb Value.toNumber].
    unfold JsNumber.ltb.
    rewrite (SFleb_ltb x y (truthy_not_nan x Tx) (truthy_not_nan y Ty)).
    destruct (SFltb y x); split; try discriminate; reflexivity.
  - unfold BuyerValidators.budgetRefinement. now rewrite Hx, Hy.
  - reflexivity.
  - unfold BuyerValidators.validateBudget. cbn [Value.truthy].
    now rewrite andb_false_r.
Qed.

Lemma validateBudget_witness :
  BuyerValidators.validateBudget (VNumber (JsNumber.ofZ 200000))
                                 (VNumber (JsNumber.ofZ 100000)) = false.
Proof.
  destruct (validateBudget_agrees
              (budgetRow (VNumber (JsNumber.ofZ 200000)) (VNumber (JsNumber.ofZ 100000)))
              (JsNumber.ofZ 200000) (JsNumber.ofZ 100000))
    as ([_ H] & _); [reflexivity | reflexivity |].
  apply H. vm_compute. reflexivity.
Defined.

(** X13.  A required field that is missing or empty is reported by name, and
    the row is invalid. *)
Theorem required_field_missing (r r' : Row) (res : ValidationResult) (f : string) :
  validateRow r = Ok (r', res) ->
  In f requiredFields ->
  Value.truthy (get r f) = false ->
  In (f +:+ " is required") (errors res) /\ isValid res = false.
Proof.
  intros H Hf Ht.
  apply validateRow_anatomy in H as (e2 & e4 & w4 & _ & _ & _ & He & _ & Hv).
  assert (Hin : In (f +:+ " is required") (errors res)).
  { rewrite He. apply List.in_or_app. left. apply List.in_concat.
    exists (requiredError r f). split; [now apply List.in_map|].
    unfold requiredError. rewrite Ht. now left. }
  split; [exact Hin|]. rewrite Hv. destruct (errors res); [contradiction | reflexivity].
Qed.

Lemma required_field_witness :
  exists r' res,
    validateRow (rawRow (delete "city" plotRow)) = Ok (r', res)
    /\ In "city is required" (errors res) /\ isValid res = false.
Proof.
  destruct (validateRow_returns (rawRow (delete "city" plotRow))) as (res & E);
    [vm_compute; reflexivity|].
  exists (afterValidation (rawRow (delete "city" plotRow))), res. split; [exact E|].
  apply (required_field_missing _ _ res "city" E); [cbn; tauto | vm_compute; reflexivity].
Defined.

(** *** The warning of the enum check after cleaning *)

Lemma table_values_valid (f : EnumField) (v : string) :
  In v (List.map snd (EnumMappings f)) -> validIncludes f (VString v) = true.
Proof.
  assert (H : List.forallb (fun v => validIncludes f (VString v))
                           (List.map snd (EnumMappings f)) = true)
    by (destruct f; vm_compute; reflexivity).
  rewrite forallb_forall in H. apply H.
Qed.

Lemma getProp_truthy (f : EnumField) (k : string) :
  Value.truthy (JsObject.getProp (EnumMappings f) k) = true ->
  isObject (JsObject.getProp (EnumMappings f) k) = true
  \/ exists v, JsObject.getProp (EnumMappings f) k = VString v
               /\ validIncludes f (VString v) = true.
Proof.
  unfold JsObject.getProp. destruct (JsObject.own (EnumMappings f) k) as [v|] eqn:Ho.
  - intros _. right. exists v. split; [reflexivity|].
    apply table_values_valid. eapply own_in, Ho.
  - destruct (String.eqb k "constructor"); [now left|].
    destruct (String.eqb k "__proto__"); [now left | discriminate].
Qed.

Lemma mapEnumValue_truthy (f : EnumField) (t : string) (m : value) :
  mapEnumValue f (VString t) = Ok m ->
  Value.truthy m = true ->
  isObject m = true \/ exists v, m = VString v /\ validIncludes f (VString v) = true.
Proof.
  unfold mapEnumValue. destruct (negb (Value.truthy (VString t))).
  { intros H. apply Ok_inj in H. subst m. discriminate. }
  unfold Value.stringMethod. rewrite bind_Ok.
  destruct (isEmpty (trim t)).
  { intros H. apply Ok_inj in H. subst m. discriminate. }
  destruct (Value.truthy (JsObject.getProp (EnumMappings f) (trim (toLowerCase t)))) eqn:Hg.
  { intros H _. apply Ok_inj in H. subst m. now apply getProp_truthy. }
  destruct (List.find _ _) as [key|].
  - intros H Hm. apply Ok_inj in H. subst m. now apply getProp_truthy.
  - intros H. apply Ok_inj in H. subst m. discriminate.
Qed.

Lemma emptyCell_falsy_cases (pt : value) (k : string) (y : value) :
  emptyCell pt k y = y \/ Value.truthy (emptyCell pt k y) = false.
Proof.
  destruct (emptyCell_kind pt k y) as [H|[H|H]]; [now left | right | right];
    now rewrite H.
Qed.

Lemma enumCheck_falsy (r : Row) (f : EnumField) :
  Value.truthy (get r (fieldName f)) = false -> enumCheck r f = Ok ([], []).
Proof. intros H. unfold enumCheck. now rewrite H. Qed.

Lemma cleaned_enumCheck (R : gmap string string) (f : EnumField)
      (es ws : list string) :
  enumCheck (cleanCells (rawRow R)) f = Ok (es, ws) -> ws = [].
Proof.
  destruct (get_cleaned R (fieldName f)) as [Hu|(s & _ & Hc)].
  { rewrite enumCheck_falsy by now rewrite Hu. intros H. apply Ok_inj in H. congruence. }
  unfold cellOf in Hc. cbn [trimCell] in Hc. rewrite normalizeCell_enum in Hc.
  destruct (emptyCell_falsy_cases (get (mappedCells (rawRow R)) "propertyType")
              (fieldName f) (enumCell f (VString (trim s)))) as [He|He].
  2: { rewrite enumCheck_falsy by now rewrite Hc.
       intros H. apply Ok_inj in H. congruence. }
  rewrite He in Hc. clear He. unfold enumCheck. rewrite Hc. clear Hc.
  unfold enumCell. destruct (Value.truthy (VString (trim s))) eqn:Ht.
  2: { rewrite Ht. cbn [andb]. intros H. apply Ok_inj in H. congruence. }
  destruct (mapEnumValue_string f (trim s)) as (m & Hm). rewrite Hm.
  destruct (Value.truthy m) eqn:Hy.
  - rewrite Hy. destruct (mapEnumValue_truthy f (trim s) m Hm Hy) as [Ho|(v & -> & Hv)].
    + destruct m; discriminate.
    + rewrite Hv. cbn [negb]. rewrite andb_false_r.
      intros H. apply Ok_inj in H. congruence.
  - rewrite Ht. destruct (negb (validIncludes f (VString (trim s)))); cbn [andb].
    + rewrite Hm, bind_Ok, Hy. intros H. apply Ok_inj in H. congruence.
    + intros H. apply Ok_inj in H. congruence.
Qed.

Lemma cleaned_enumChecks (R : gmap string string) (fs : list EnumField) :
  forall es ws, enumChecks (cleanCells (rawRow R)) fs = Ok (es, ws) -> ws = [].
Proof.
  induction fs as [|f fs IH]; intros es ws.
  - cbn [enumChecks]. intros H. apply Ok_inj in H. congruence.
  - cbn [enumChecks].
    destruct (enumCheck (cleanCells (rawRow R)) f) as [[e w]|] eqn:E; [|discriminate].
    rewrite bind_Ok.
    destruct (enumChecks (cleanCells (rawRow R)) fs) as [[es' ws']|] eqn:E';
      [|discriminate].
    rewrite bind_Ok. intros H. apply Ok_inj in H. injection H as <- <-.
    now rewrite (cleaned_enumCheck R f e w E), (IH es' ws' eq_refl).
Qed.

(** X14.  On a row that comes out of the cleaning of a parsed row, validation
    never emits the warning of the enum check: the only warning it can emit
    is that of the BHK rule.  What the cleaning could map, it has mapped. *)
Theorem mapped_warning_unreachable (R : gmap string string) (c c' : Row)
        (res : ValidationResult) :
  cleanRowData (rawRow R) = Ok c ->
  validateRow c = Ok (c', res) ->
  warnings res = []
  \/ warnings res
     = [ "bhk should be empty for " +:+ Value.toString (get c "propertyType")
         +:+ " properties, but '" +:+ Value.toString (get c "bhk")
         +:+ "' was provided" ].
Proof.
  intros Hc Hv.
  destruct (cleanRowData_spec (rawRow R)) as [Hs _].
  rewrite (Hs (rawRow_cleanable R)) in Hc. apply Ok_inj in Hc. subst c.
  apply validateRow_anatomy in Hv as (e2 & e4 & w4 & _ & H4 & _ & _ & Hw & _).
  rewrite (cleaned_enumChecks R _ _ _ H4) in Hw. cbn [app] in Hw. rewrite Hw.
  unfold bhkRule.
  repeat match goal with
         | |- context [if ?b then _ else _] => destruct b
         end; cbn [snd]; auto.
Qed.

Lemma mapped_warning_witness :
  exists c c' res,
    cleanRowData (rawRow chdRow) = Ok c /\ validateRow c = Ok (c', res)
    /\ warnings res = [].
Proof.
  assert (Hc : cleanRowData (rawRow chdRow) = Ok (cleanCells (rawRow chdRow)))
    by (apply cleanRowData_spec, rawRow_cleanable).
  destruct (validateRow_returns (cleanCells (rawRow chdRow))) as (res & Hv);
    [vm_compute; reflexivity|].
  exists (cleanCells (rawRow chdRow)), (afterValidation (cleanCells (rawRow chdRow))), res.
  split; [exact Hc|]. split; [exact Hv|].
  destruct (mapped_warning_unreachable chdRow _ _ res Hc Hv) as [H|H]; [exact H|].
  apply (f_equal (fun out => match out with
                             | Ok (_, v) => List.length (warnings v)
                             | Throw _ => 0%nat
                             end)) in Hv.
  rewrite H in Hv. vm_compute in Hv. discriminate Hv.
Defined.

End ValidatorExtras.

Section StagingExtras.
Import JsString CSVDataCleaner CSVRowValidator Normalized RowRule.

Lemma cleaned_tags_shape (R : gmap string string) :
  Value.truthy (get (cleanCells (rawRow R)) "tags") = false
  \/ exists items, get (cleanCells (rawRow R)) "tags" = VArray items.
Proof.
  destruct (get_cleaned R "tags") as [->|(s & _ & ->)]; [now left|].
  unfold cellOf. cbn [trimCell].
  change (normalizeCell "tags" ?v) with (tagsCell v).
  destruct (tagsCell_shape (trim s)) as [E|(items & E)]; rewrite E.
  - left. reflexivity.
  - right. exists items. now apply emptyCell_truthy.
Qed.

(** X15.  A row that the loop stages is the validated row with two cells
    written: [ownerId], the owner, and [tags], the JSON text of an array of
    strings, which is the text of the empty array when the row has no
    tags.  The other cells are those of the validated row. *)
Theorem staged_row_shape (R : gmap string string) (ownerId : string) (c c' : Row)
        (res : ValidationResult) :
  cleanRowData (rawRow R) = Ok c ->
  validateRow c = Ok (c', res) ->
  (exists items,
     CSVImportService.stage c' ownerId !! "tags"
     = Some (VString ("[" +:+ join "," (List.map JSON.quote items) +:+ "]"))
     /\ (Value.truthy (get c "tags") = false -> items = [])
     /\ (Value.truthy (get c "tags") = true -> get c "tags" = VArray items))
  /\ CSVImportService.stage c' ownerId !! "ownerId" = Some (VString ownerId)
  /\ forall k, k <> "tags" -> k <> "ownerId" ->
               CSVImportService.stage c' ownerId !! k = c' !! k.
Proof.
  intros Hc Hv.
  destruct (cleanRowData_spec (rawRow R)) as [Hs _].
  rewrite (Hs (rawRow_cleanable R)) in Hc. apply Ok_inj in Hc. subst c.
  apply validateRow_anatomy in Hv as (_ & _ & _ & _ & _ & -> & _).
  unfold CSVImportService.stage. split; [|split].
  - rewrite lookup_insert_eq, (get_afterValidation _ "tags") by discriminate.
    destruct (cleaned_tags_shape R) as [Hf|(items & Hi)].
    + rewrite Hf. exists []. split; [reflexivity|]. split; [reflexivity | discriminate].
    + rewrite Hi. cbn [Value.truthy Value.stringify]. exists items.
      split; [reflexivity|]. split; [discriminate | reflexivity].
  - rewrite lookup_insert_ne by discriminate. apply lookup_insert_eq.
  - intros k H1 H2. now rewrite !lookup_insert_ne by congruence.
Qed.

Lemma staged_row_witness :
  exists c c' res,
    cleanRowData (rawRow sampleRow) = Ok c /\ validateRow c = Ok (c', res)
    /\ CSVImportService.stage c' "owner-1" !! "tags"
       = Some (VString ("[" +:+ JSON.quote "vip" +:+ "," +:+ JSON.quote "urgent" +:+ "]")).
Proof.
  assert (Hc : cleanRowData (rawRow sampleRow) = Ok (cleanCells (rawRow sampleRow)))
    by (apply cleanRowData_spec, rawRow_cleanable).
  destruct (validateRow_returns (cleanCells (rawRow sampleRow))) as (res & Hv);
    [vm_compute; reflexivity|].
  exists (cleanCells (rawRow sampleRow)), (afterValidation (cleanCells (rawRow sampleRow))), res.
  split; [exact Hc|]. split; [exact Hv|].
  destruct (staged_row_shape sampleRow "owner-1" _ _ res Hc Hv)
    as ((items & Ht & _ & Hi) & _).
  rewrite Ht. assert (Hy : Value.truthy (get (cleanCells (rawRow sampleRow)) "tags") = true)
    by (vm_compute; reflexivity).
  specialize (Hi Hy). vm_compute in Hi. injection Hi as <-. reflexivity.
Defined.

(** *** The schema validator *)

Lemma object_aborted (shape : list (string * Zod.schema)) (row : Row)
      (key : string) (s : Zod.schema) :
  In (key, s) shape ->
  Zod.p_status (s (get row key)) = Zod.aborted ->
  fst (fst (Zod.object shape row)) = Zod.aborted
  /\ forall m, In m (Zod.p_issues (s (get row key))) ->
               In ([key], m) (snd (Zod.object shape row)).
Proof.
  induction shape as [|[k s'] rest IH]; [contradiction|].
  intros Hin Ha. cbn [Zod.object].
  destruct (Zod.object rest row) as [[st out] issues] eqn:E.
  destruct Hin as [[= -> ->]|Hin].
  - rewrite Ha. cbn [fst snd]. split; [reflexivity|].
    intros m Hm. apply List.in_or_app. left. now apply (List.in_map (fun m => ([key], m))).
  - destruct (IH Hin Ha) as [H1 H2]. cbn [fst snd] in *. subst st. split.
    + now destruct (Zod.p_status (s' (get row k))).
    + intros m Hm. apply List.in_or_app. right. now apply H2.
Qed.

(** X16.  The schema validator rejects a row whose [tags] cell is a string
    other than the empty one, with the message of a union without a
    matching option: it takes an array or nothing.  The loop stages the JSON
    text only after this check. *)
Theorem schema_rejects_text_tags (row : Row) (s : string) :
  get row "tags" = VString s ->
  s <> EmptyString ->
  fst (BuyerValidators.validateCSVRow row) = false
  /\ In "tags: Invalid input" (snd (BuyerValidators.validateCSVRow row)).
Proof.
  intros Ht Hs.
  destruct (object_aborted BuyerValidators.csvRowShape row "tags"
              (Zod.union (Zod.optional Zod.arrayOfString) Zod.literalEmpty))
    as [Ha Hi].
  { cbn. tauto. }
  { rewrite Ht. unfold Zod.union, Zod.optional, Zod.arrayOfString, Zod.literalEmpty.
    rewrite bool_decide_eq_false_2 by congruence. reflexivity. }
  specialize (Hi "Invalid input").
  assert (Hin : In (["tags"], "Invalid input")
                   (snd (Zod.object BuyerValidators.csvRowShape row))).
  { apply Hi. rewrite Ht. unfold Zod.union, Zod.optional, Zod.arrayOfString, Zod.literalEmpty.
    rewrite bool_decide_eq_false_2 by congruence. now left. }
  unfold BuyerValidators.validateCSVRow, BuyerValidators.csvRowSchema.
  destruct (Zod.object BuyerValidators.csvRowShape row) as [[st out] issues].
  cbn [fst snd] in Ha, Hin. subst st. cbn [Zod.refineObject].
  destruct issues as [|i issues]; [contradiction|]. cbn [fst snd]. split; [reflexivity|].
  apply (List.in_map (fun '(path, message) => join "." path +:+ ": " +:+ message)) in Hin.
  exact Hin.
Qed.

Lemma schema_rejects_text_tags_witness :
  fst (BuyerValidators.validateCSVRow (rawRow sampleRow)) = false.
Proof.
  destruct (schema_rejects_text_tags (rawRow sampleRow) "vip, urgent") as [H _];
    [reflexivity | discriminate | exact H].
Defined.

End StagingExtras.
